(** * RoomBox: the booking / payment / room lifecycle

    A shallow embedding of the lifecycle endpoints of the RoomBox backend
    ([backend/app/api/v1/booking.py], [backend/app/api/v1/rooms.py]) and of
    its eSewa gateway adapter ([backend/app/utils/esewa.py]), together with
    the properties of the lifecycle state machine.

    The database session is modelled by explicit state passing: every
    endpoint is a function from the tables (and the request) to the tables
    after [db.commit()] and the JSON response.  An endpoint that returns an
    error response before touching a row returns the tables unchanged.
    Four endpoints put a float into the response they build after their
    commit; a float that JSON cannot carry makes that fail, and the
    answer is then an error with the rows stored.

    Modelled are the endpoints that write to [rooms], [bookings] or
    [payments]: [create_room], [update_room], [update_room_status],
    [create_booking_request], [approve_booking], [reject_booking],
    [initiate_payment] and [verify_payment].  The endpoints that only read
    are left out, and so is [delete_room], whose effect on the bookings of
    the room is decided by the ORM and the database. *)

From Stdlib Require Import Floats Ascii.
From stdpp Require Import gmap strings list fin_maps option pretty.

Local Open Scope Z_scope.
Local Open Scope string_scope.

(** ** The Python runtime the code relies on

    Three library functions the endpoints call are kept as an interface:
    the text of a float ([str(x)] and an f-string field), the HMAC-SHA256
    of a message under a key followed by base64 ([hmac.new(key, msg,
    hashlib.sha256).digest()] then [base64.b64encode]), and
    [datetime.fromisoformat(s.replace('Z', '+00:00'))], where [None] stands
    for the [ValueError] of a malformed date. *)

Class PyRuntime := {
  float_str : float → string;
  hmac_sha256_b64 : string → string → string;
  fromisoformat : string → option Z;
}.

(** Python's truth value of a float: everything but [0.0] and [-0.0]. *)
Definition float_truthy (x : float) : bool := negb (PrimFloat.eqb x 0%float).

(** [x or 0] for an optional float column: [None] and a zero give [0]. *)
Definition or_zero (x : option float) : float :=
  match x with
  | Some v => if float_truthy v then v else 0%float
  | None => 0%float
  end.

(** What a [JSONResponse] can render: Starlette calls
    [json.dumps(content, allow_nan=False)], which raises [ValueError] on a
    NaN or an infinity anywhere in the content. *)
Definition json_compliant (x : float) : bool := PrimFloat.is_finite x.

(** The text of that [ValueError] (CPython's C encoder; newer versions
    append the offending value). *)
Definition json_float_error : string :=
  "Out of range float values are not JSON compliant".

(** [if xs:] on an optional list: [None] and the empty list are false. *)
Definition list_truthy {A} (xs : option (list A)) : bool :=
  match xs with
  | Some (_ :: _) => true
  | _ => false
  end.

(** ASCII [str.lower()]. *)
Definition lower_ascii (c : ascii) : ascii :=
  let n := nat_of_ascii c in
  if (Nat.leb 65 n && Nat.leb n 90)%bool then ascii_of_nat (n + 32) else c.

Fixpoint lower (s : string) : string :=
  match s with
  | EmptyString => EmptyString
  | String c r => String (lower_ascii c) (lower r)
  end.

(** ** Enumerations ([models/user.py], [models/room.py], [models/booking.py]) *)

Inductive UserType := TENANT | LANDLORD | ADMIN.

Inductive RoomType := SINGLE | DOUBLE | SHARED | APARTMENT | FLAT | HOUSE.

Inductive FurnishingStatus := FURNISHED | SEMI_FURNISHED | UNFURNISHED.

Inductive RoomStatus :=
  AVAILABLE | OCCUPIED | RESERVED | UNDER_MAINTENANCE | INACTIVE.

Inductive BookingStatus :=
  BOOKING_PENDING | APPROVED | REJECTED | CANCELLED | BOOKING_COMPLETED.

Inductive PaymentStatus :=
  PAYMENT_PENDING | PAYMENT_COMPLETED | FAILED | REFUNDED.

Inductive TenancyStatus :=
  TENANCY_PENDING | ACTIVE | TENANCY_COMPLETED | TERMINATED.

#[global] Instance UserType_eq_dec : EqDecision UserType.
Proof. solve_decision. Defined.
#[global] Instance RoomStatus_eq_dec : EqDecision RoomStatus.
Proof. solve_decision. Defined.
#[global] Instance BookingStatus_eq_dec : EqDecision BookingStatus.
Proof. solve_decision. Defined.
#[global] Instance PaymentStatus_eq_dec : EqDecision PaymentStatus.
Proof. solve_decision. Defined.
#[global] Instance TenancyStatus_eq_dec : EqDecision TenancyStatus.
Proof. solve_decision. Defined.

(** [RoomType(value)], [FurnishingStatus(value)], [RoomStatus(value)]: the
    enum member with that value, [None] for the [ValueError]. *)
Definition RoomType_of_value (v : string) : option RoomType :=
  if String.eqb v "single" then Some SINGLE
  else if String.eqb v "double" then Some DOUBLE
  else if String.eqb v "shared" then Some SHARED
  else if String.eqb v "apartment" then Some APARTMENT
  else if String.eqb v "flat" then Some FLAT
  else if String.eqb v "house" then Some HOUSE
  else None.

Definition FurnishingStatus_of_value (v : string) : option FurnishingStatus :=
  if String.eqb v "furnished" then Some FURNISHED
  else if String.eqb v "semi_furnished" then Some SEMI_FURNISHED
  else if String.eqb v "unfurnished" then Some UNFURNISHED
  else None.

Definition RoomStatus_of_value (v : string) : option RoomStatus :=
  if String.eqb v "available" then Some AVAILABLE
  else if String.eqb v "occupied" then Some OCCUPIED
  else if String.eqb v "reserved" then Some RESERVED
  else if String.eqb v "under_maintenance" then Some UNDER_MAINTENANCE
  else if String.eqb v "inactive" then Some INACTIVE
  else None.

Definition RoomStatus_value (s : RoomStatus) : string :=
  match s with
  | AVAILABLE => "available"
  | OCCUPIED => "occupied"
  | RESERVED => "reserved"
  | UNDER_MAINTENANCE => "under_maintenance"
  | INACTIVE => "inactive"
  end.

Definition BookingStatus_value (s : BookingStatus) : string :=
  match s with
  | BOOKING_PENDING => "pending"
  | APPROVED => "approved"
  | REJECTED => "rejected"
  | CANCELLED => "cancelled"
  | BOOKING_COMPLETED => "completed"
  end.

Definition PaymentStatus_value (s : PaymentStatus) : string :=
  match s with
  | PAYMENT_PENDING => "pending"
  | PAYMENT_COMPLETED => "completed"
  | FAILED => "failed"
  | REFUNDED => "refunded"
  end.

(** ** Python dictionaries of optional strings and f-string fields *)

(** A [Dict[str, str]] whose values may be [None]; [data.get(k)] is [None]
    for a missing key too. *)
Definition dict_get (d : gmap string (option string)) (k : string) : option string :=
  default None (d !! k).

(** An f-string field [{v}] for a string or [None]. *)
Definition fmt (v : option string) : string := default "None" v.

(** [s1 or s2] on strings: [None] and the empty string are false. *)
Definition str_or (s : option string) (d : string) : string :=
  match s with
  | Some v => if String.eqb v "" then d else v
  | None => d
  end.

(** ** The eSewa gateway adapter ([utils/esewa.py]) *)

Module Esewa.

Definition TEST_SECRET_KEY : string := "8gBm/:&EnhH.1/q".
Definition TEST_PRODUCT_CODE : string := "EPAYTEST".
Definition TEST_URL : string := "https://rc-epay.esewa.com.np/api/epay/main/v2/form".

Record EsewaPayment := {
  amount : float;
  tax_amount : float;
  total_amount : float;
  product_code : string;
  product_service_charge : float;
  product_delivery_charge : float;
  transaction_uuid : option string;
  success_url : string;
  failure_url : string;
  secret_key : string;
  is_test : bool;
  signature : option string;
}.

(** [EsewaPayment.__init__]; the arguments the endpoints never pass keep
    their defaults ([tax_amount = 0.0], the two charges [0.0],
    [is_test = True]). *)
Definition init (amount : float) (total_amount : option float)
    (product_code : option string) (transaction_uuid : option string)
    (success_url failure_url : string) (secret_key : option string)
  : EsewaPayment :=
  let tax := 0%float in
  {| amount := amount;
     tax_amount := tax;
     total_amount :=
       match total_amount with
       | Some t => if float_truthy t then t else PrimFloat.add amount tax
       | None => PrimFloat.add amount tax
       end;
     product_code := str_or product_code TEST_PRODUCT_CODE;
     product_service_charge := 0%float;
     product_delivery_charge := 0%float;
     transaction_uuid := transaction_uuid;
     success_url := success_url;
     failure_url := failure_url;
     secret_key := str_or secret_key TEST_SECRET_KEY;
     is_test := true;
     signature := None |}.

Definition default_success_url : string := "http://localhost:3000/payment/success".
Definition default_failure_url : string := "http://localhost:3000/payment/failure".

(** The canonical string both directions sign. *)
Definition string_to_sign (total_amount transaction_uuid product_code : string) : string :=
  "total_amount=" +:+ total_amount +:+ ","
  +:+ "transaction_uuid=" +:+ transaction_uuid +:+ ","
  +:+ "product_code=" +:+ product_code.

Section WithRuntime.
Context `{PyRuntime}.

(** [generate_signature]: returns the signature and the object with
    [self.signature] set. *)
Definition generate_signature (self : EsewaPayment) : string * EsewaPayment :=
  let s := hmac_sha256_b64 (secret_key self)
             (string_to_sign (float_str (total_amount self))
                             (fmt (transaction_uuid self))
                             (product_code self)) in
  (s, {| amount := amount self; tax_amount := tax_amount self;
         total_amount := total_amount self; product_code := product_code self;
         product_service_charge := product_service_charge self;
         product_delivery_charge := product_delivery_charge self;
         transaction_uuid := transaction_uuid self;
         success_url := success_url self; failure_url := failure_url self;
         secret_key := secret_key self; is_test := is_test self;
         signature := Some s |}).

(** [generate_form_data]: the twelve form fields. *)
Definition generate_form_data (self : EsewaPayment) : gmap string (option string) :=
  let self' :=
    match signature self with
    | Some s => if String.eqb s "" then (generate_signature self).2 else self
    | None => (generate_signature self).2
    end in
  list_to_map
    [ ("amount", Some (float_str (total_amount self')));
      ("tax_amount", Some (float_str (tax_amount self')));
      ("product_code", Some (product_code self'));
      ("product_service_charge", Some (float_str (product_service_charge self')));
      ("product_delivery_charge", Some (float_str (product_delivery_charge self')));
      ("total_amount", Some (float_str (total_amount self')));
      ("transaction_uuid", transaction_uuid self');
      ("product_name", Some "Room Booking");
      ("success_url", Some (success_url self'));
      ("failure_url", Some (failure_url self'));
      ("signed_field_names", Some "total_amount,transaction_uuid,product_code");
      ("signature", signature self') ].

(** [verify_signature]: recompute the signature over the received
    fields and compare it with the received one. *)
Definition verify_signature (self : EsewaPayment) (received_signature : string)
    (data : gmap string (option string)) : bool :=
  let expected_signature_b64 :=
    hmac_sha256_b64 (secret_key self)
      (string_to_sign (fmt (dict_get data "total_amount"))
                      (fmt (dict_get data "transaction_uuid"))
                      (fmt (dict_get data "product_code"))) in
  String.eqb received_signature expected_signature_b64.

End WithRuntime.

End Esewa.

(** ** The tables ([models/user.py], [models/room.py], [models/booking.py])

    A row is a record of the columns the endpoints read or write; the
    primary key is the key of the table's map.  Columns that are filled by
    the database ([created_at], [updated_at]) are left out: no endpoint
    below branches on them. *)

Module User.
Record t := {
  id : Z;
  user_type : UserType;
}.
End User.

(** The descriptive columns of a listing, shared by the create/update
    request and the row. *)
Record RoomDetails := {
  title : string;
  description : option string;
  address : string;
  city : string;
  ward_number : option string;
  latitude : option float;
  longitude : option float;
  total_rooms : Z;
  available_rooms : Z;
  bathrooms : Z;
  floor_number : option Z;
  total_floors : option Z;
  area_sqft : option float;
  has_kitchen : bool;
  has_parking : bool;
  has_wifi : bool;
  has_water_supply : bool;
  has_electricity : bool;
  has_security : bool;
  has_elevator : bool;
  has_balcony : bool;
}.

Module Room.
Record t := {
  owner_id : Z;
  details : RoomDetails;
  room_type : RoomType;
  furnishing_status : option FurnishingStatus;
  price_per_month : float;
  security_deposit : option float;
  advance_payment : option float;
  status : RoomStatus;
  is_verified : bool;
}.

(** [room.status = v] *)
Definition set_status (v : RoomStatus) (r : t) : t :=
  {| owner_id := owner_id r; details := details r; room_type := room_type r;
     furnishing_status := furnishing_status r;
     price_per_month := price_per_month r;
     security_deposit := security_deposit r;
     advance_payment := advance_payment r;
     status := v; is_verified := is_verified r |}.
End Room.

(** A row of [room_images], without its own primary key, which no
    endpoint below reads. *)
Module RoomImage.
Record t := {
  room_id : Z;
  image_url : string;
  image_order : Z;
  is_primary : bool;
}.
End RoomImage.

Module Booking.
Record t := {
  tenant_id : Z;
  landlord_id : Z;
  room_id : Z;
  start_date : Z;
  end_date : option Z;
  monthly_rent : float;
  security_deposit : option float;
  advance_payment : option float;
  status : BookingStatus;
  tenancy_status : option TenancyStatus;
  tenant_message : option string;
  landlord_response : option string;
  approved_at : option Z;
}.

Definition set_status (v : BookingStatus) (b : t) : t :=
  {| tenant_id := tenant_id b; landlord_id := landlord_id b; room_id := room_id b;
     start_date := start_date b; end_date := end_date b;
     monthly_rent := monthly_rent b; security_deposit := security_deposit b;
     advance_payment := advance_payment b;
     status := v; tenancy_status := tenancy_status b;
     tenant_message := tenant_message b;
     landlord_response := landlord_response b; approved_at := approved_at b |}.

Definition set_tenancy_status (v : option TenancyStatus) (b : t) : t :=
  {| tenant_id := tenant_id b; landlord_id := landlord_id b; room_id := room_id b;
     start_date := start_date b; end_date := end_date b;
     monthly_rent := monthly_rent b; security_deposit := security_deposit b;
     advance_payment := advance_payment b;
     status := status b; tenancy_status := v;
     tenant_message := tenant_message b;
     landlord_response := landlord_response b; approved_at := approved_at b |}.

Definition set_landlord_response (v : option string) (b : t) : t :=
  {| tenant_id := tenant_id b; landlord_id := landlord_id b; room_id := room_id b;
     start_date := start_date b; end_date := end_date b;
     monthly_rent := monthly_rent b; security_deposit := security_deposit b;
     advance_payment := advance_payment b;
     status := status b; tenancy_status := tenancy_status b;
     tenant_message := tenant_message b;
     landlord_response := v; approved_at := approved_at b |}.

Definition set_approved_at (v : option Z) (b : t) : t :=
  {| tenant_id := tenant_id b; landlord_id := landlord_id b; room_id := room_id b;
     start_date := start_date b; end_date := end_date b;
     monthly_rent := monthly_rent b; security_deposit := security_deposit b;
     advance_payment := advance_payment b;
     status := status b; tenancy_status := tenancy_status b;
     tenant_message := tenant_message b;
     landlord_response := landlord_response b; approved_at := v |}.
End Booking.

Module Payment.
Record t := {
  booking_id : Z;
  tenant_id : Z;
  landlord_id : Z;
  amount : float;
  payment_type : string;
  payment_month : option string;
  transaction_uuid : option string;
  esewa_ref_id : option string;
  esewa_signature : option string;
  status : PaymentStatus;
  completed_at : option Z;
}.

(** The four assignments of [verify_payment] on the payment row. *)
Definition complete (ref_id signature : string) (now : Z) (p : t) : t :=
  {| booking_id := booking_id p; tenant_id := tenant_id p;
     landlord_id := landlord_id p; amount := amount p;
     payment_type := payment_type p; payment_month := payment_month p;
     transaction_uuid := transaction_uuid p;
     esewa_ref_id := Some ref_id;
     esewa_signature := Some signature;
     status := PAYMENT_COMPLETED;
     completed_at := Some now |}.
End Payment.

(** The database: the [users] table in row order (the endpoints take
    [.first()] of an unordered query over it), the three tables of the
    lifecycle keyed by primary key, and the [room_images] rows in the
    order they were inserted. *)
Record db := {
  users : list User.t;
  rooms : gmap Z Room.t;
  bookings : gmap Z Booking.t;
  payments : gmap Z Payment.t;
  room_images : list RoomImage.t;
}.

Definition set_rooms (v : gmap Z Room.t) (s : db) : db :=
  {| users := users s; rooms := v; bookings := bookings s; payments := payments s;
     room_images := room_images s |}.
Definition set_bookings (v : gmap Z Booking.t) (s : db) : db :=
  {| users := users s; rooms := rooms s; bookings := v; payments := payments s;
     room_images := room_images s |}.
Definition set_payments (v : gmap Z Payment.t) (s : db) : db :=
  {| users := users s; rooms := rooms s; bookings := bookings s; payments := v;
     room_images := room_images s |}.
Definition set_room_images (v : list RoomImage.t) (s : db) : db :=
  {| users := users s; rooms := rooms s; bookings := bookings s;
     payments := payments s; room_images := v |}.

(** The key an autoincrement primary key gives a new row: one more than
    the largest key in the table, 1 in an empty table. *)
Definition next_id {A} (m : gmap Z A) : Z :=
  map_fold (λ k _ acc, Z.max acc (k + 1)) 1 m.

(** [db.query(User).filter(User.user_type.in_([...])).first()] *)
Definition first_user (ty : UserType) (s : db) : option User.t :=
  List.find (λ u, bool_decide (User.user_type u = ty)) (users s).

(** [db.query(Payment).filter(Payment.transaction_uuid == uuid).first()],
    with the row's key. *)
Definition payment_by_uuid (ps : gmap Z Payment.t) (uuid : string)
  : option (Z * Payment.t) :=
  snd <$> list_find (λ kp, Payment.transaction_uuid kp.2 = Some uuid) (map_to_list ps).

(** A booking that blocks a new request: same tenant, same room, status
    pending or approved. *)
Definition blocks_request (tenant room : Z) (b : Booking.t) : Prop :=
  Booking.tenant_id b = tenant ∧ Booking.room_id b = room ∧
  (Booking.status b = BOOKING_PENDING ∨ Booking.status b = APPROVED).

#[global] Instance blocks_request_dec tenant room b : Decision (blocks_request tenant room b).
Proof. unfold blocks_request. apply _. Defined.

(** ** Responses ([utils/response.py]): the status code, the message and,
    on success, the fields of [data] that identify what was done. *)
Inductive payload :=
  | NoData
  | BookingRequested (booking_id payment_id : Z) (transaction_uuid : string)
      (total_amount : float) (form_data : gmap string (option string))
  | BookingDecided (booking_id : Z) (status : string)
  | PaymentInitiated (payment_id : Z) (transaction_uuid : string)
      (amount : float) (form_data : gmap string (option string))
  | PaymentVerified (payment_id : Z) (booking_id : option Z) (status : string)
      (booking_status : option string)
  | RoomData (id : Z) (status : string).

Record response := {
  success : bool;
  status_code : Z;
  message : string;
  data : payload;
}.

Definition success_response (d : payload) (msg : string) : response :=
  {| success := true; status_code := 200; message := msg; data := d |}.

Definition error_response (msg : string) (code : Z) : response :=
  {| success := false; status_code := code; message := msg; data := NoData |}.

(** ** Requests *)

Module BookingRequest.
Record t := {
  room_id : Z;
  start_date : string;
  end_date : option string;
  tenant_message : option string;
}.
End BookingRequest.

Module PaymentRequest.
Record t := {
  booking_id : Z;
  payment_type : string;
  payment_month : option string;
}.
End PaymentRequest.

Module RejectRequest.
Record t := { landlord_response : option string }.
End RejectRequest.

Module RoomCreateRequest.
Record t := {
  details : RoomDetails;
  room_type : string;
  furnishing_status : option string;
  price_per_month : float;
  security_deposit : option float;
  advance_payment : option float;
  images : option (list string);
}.
End RoomCreateRequest.

Module StatusUpdateRequest.
Record t := { new_status : option string }.
End StatusUpdateRequest.

(** ** The booking and payment endpoints ([api/v1/booking.py])

    [uuid.uuid4()] and [datetime.utcnow()] are inputs of the endpoint that
    calls them ([transaction_uuid], [now]).  [payments.transaction_uuid]
    is a unique column: inserting a second row with a stored value makes
    [db.commit()] raise, the session is discarded and the general
    exception handler answers 500.  The endpoints that build their
    response outside any [try] after [db.commit()] answer 500 through the
    same handler when the response cannot be rendered, with the rows
    stored. *)

Section Endpoints.
Context `{PyRuntime}.

(** The [try] block that parses the two dates: [None] when either raises
    [ValueError]; an absent or empty [end_date] is not parsed. *)
Definition parse_dates (booking_data : BookingRequest.t) : option (Z * option Z) :=
  start ← fromisoformat (BookingRequest.start_date booking_data);
  match BookingRequest.end_date booking_data with
  | Some e => if String.eqb e "" then Some (start, None)
              else e' ← fromisoformat e; Some (start, Some e')
  | None => Some (start, None)
  end.

Definition create_booking_request (booking_data : BookingRequest.t)
    (transaction_uuid : string) (s : db) : db * response :=
  match first_user TENANT s with
  | None => (s, error_response "Tenant not found" 404)
  | Some tenant =>
  match rooms s !! BookingRequest.room_id booking_data with
  | None => (s, error_response "Room not found" 404)
  | Some room =>
  if decide (Room.status room ≠ AVAILABLE) then
    (s, error_response "Room is not available for booking" 400)
  else if decide (map_Exists (λ _ b, blocks_request (User.id tenant)
                     (BookingRequest.room_id booking_data) b) (bookings s)) then
    (s, error_response
          "You already have a pending or approved booking request for this room" 400)
  else
  let security_deposit := or_zero (Room.security_deposit room) in
  let advance_payment := or_zero (Room.advance_payment room) in
  let total_payment := PrimFloat.add security_deposit advance_payment in
  if PrimFloat.leb total_payment 0%float then
    (s, error_response
          "Security Deposit and Advance Payment are required for booking" 400)
  else
  match parse_dates booking_data with
  | None => (s, error_response "Invalid date format" 400)
  | Some (start_date, end_date) =>
  let new_booking :=
    {| Booking.tenant_id := User.id tenant;
       Booking.landlord_id := Room.owner_id room;
       Booking.room_id := BookingRequest.room_id booking_data;
       Booking.start_date := start_date;
       Booking.end_date := end_date;
       Booking.monthly_rent := Room.price_per_month room;
       Booking.security_deposit := Some security_deposit;
       Booking.advance_payment := Some advance_payment;
       Booking.status := BOOKING_PENDING;
       Booking.tenancy_status := Some TENANCY_PENDING;
       Booking.tenant_message := BookingRequest.tenant_message booking_data;
       Booking.landlord_response := None;
       Booking.approved_at := None |} in
  let new_booking_id := next_id (bookings s) in
  let new_payment :=
    {| Payment.booking_id := new_booking_id;
       Payment.tenant_id := User.id tenant;
       Payment.landlord_id := Room.owner_id room;
       Payment.amount := total_payment;
       Payment.payment_type := "booking_payment";
       Payment.payment_month := None;
       Payment.transaction_uuid := Some transaction_uuid;
       Payment.esewa_ref_id := None;
       Payment.esewa_signature := None;
       Payment.status := PAYMENT_PENDING;
       Payment.completed_at := None |} in
  let new_payment_id := next_id (payments s) in
  if decide (is_Some (payment_by_uuid (payments s) transaction_uuid)) then
    (s, error_response "Internal server error" 500)
  else
  let esewa :=
    Esewa.init total_payment (Some total_payment) None (Some transaction_uuid)
      ("http://localhost:3000/payment/success?payment_id=" +:+ pretty new_payment_id
         +:+ "&booking_id=" +:+ pretty new_booking_id)
      ("http://localhost:3000/payment/failure?payment_id=" +:+ pretty new_payment_id
         +:+ "&booking_id=" +:+ pretty new_booking_id)
      None in
  let form_data := Esewa.generate_form_data esewa in
  let s' :=
    {| users := users s;
       rooms := <[BookingRequest.room_id booking_data := Room.set_status RESERVED room]>
                  (rooms s);
       bookings := <[new_booking_id := new_booking]> (bookings s);
       payments := <[new_payment_id := new_payment]> (payments s);
       room_images := room_images s |} in
  if (json_compliant total_payment && json_compliant security_deposit
      && json_compliant advance_payment)%bool then
    (s', success_response
           (BookingRequested new_booking_id new_payment_id transaction_uuid
              total_payment form_data)
           "Please complete the payment to confirm your booking")
  else (s', error_response "Internal server error" 500)
  end end end.

Definition approve_booking (booking_id : Z) (now : Z) (s : db) : db * response :=
  match first_user LANDLORD s with
  | None => (s, error_response "Landlord not found" 404)
  | Some landlord =>
  match bookings s !! booking_id with
  | None => (s, error_response "Booking not found" 404)
  | Some booking =>
  if decide (Booking.landlord_id booking ≠ User.id landlord) then
    (s, error_response "Unauthorized" 403)
  else if decide (Booking.status booking ≠ BOOKING_PENDING) then
    (s, error_response
          ("Booking is already " +:+ BookingStatus_value (Booking.status booking)) 400)
  else
  let booking' :=
    Booking.set_approved_at (Some now)
      (Booking.set_tenancy_status (Some TENANCY_PENDING)
         (Booking.set_status APPROVED booking)) in
  let rooms' :=
    match rooms s !! Booking.room_id booking' with
    | Some room => <[Booking.room_id booking' := Room.set_status RESERVED room]> (rooms s)
    | None => rooms s
    end in
  ({| users := users s; rooms := rooms';
      bookings := <[booking_id := booking']> (bookings s);
      payments := payments s; room_images := room_images s |},
   success_response
     (BookingDecided booking_id (BookingStatus_value (Booking.status booking')))
     "Booking approved successfully")
  end end.

Definition reject_booking (booking_id : Z) (reject_data : option RejectRequest.t)
    (s : db) : db * response :=
  match first_user LANDLORD s with
  | None => (s, error_response "Landlord not found" 404)
  | Some landlord =>
  match bookings s !! booking_id with
  | None => (s, error_response "Booking not found" 404)
  | Some booking =>
  if decide (Booking.landlord_id booking ≠ User.id landlord) then
    (s, error_response "Unauthorized" 403)
  else
  let response_text :=
    str_or (r ← reject_data; RejectRequest.landlord_response r) "Booking rejected" in
  let booking' :=
    Booking.set_landlord_response (Some response_text)
      (Booking.set_status REJECTED booking) in
  let rooms' :=
    match rooms s !! Booking.room_id booking' with
    | Some room => <[Booking.room_id booking' := Room.set_status AVAILABLE room]> (rooms s)
    | None => rooms s
    end in
  ({| users := users s; rooms := rooms';
      bookings := <[booking_id := booking']> (bookings s);
      payments := payments s; room_images := room_images s |},
   success_response
     (BookingDecided booking_id (BookingStatus_value (Booking.status booking')))
     "Booking rejected")
  end end.

Definition initiate_payment (booking_id : Z) (payment_data : PaymentRequest.t)
    (transaction_uuid : string) (s : db) : db * response :=
  match first_user TENANT s with
  | None => (s, error_response "Tenant not found" 404)
  | Some tenant =>
  match bookings s !! booking_id with
  | None => (s, error_response "Booking not found" 404)
  | Some booking =>
  if decide (Booking.tenant_id booking ≠ User.id tenant) then
    (s, error_response "Unauthorized" 403)
  else if decide (Booking.status booking ≠ APPROVED) then
    (s, error_response "Booking must be approved before payment" 400)
  else
  let amount :=
    if String.eqb (PaymentRequest.payment_type payment_data) "rent" then
      Some (Booking.monthly_rent booking)
    else if String.eqb (PaymentRequest.payment_type payment_data) "security_deposit" then
      Some (or_zero (Booking.security_deposit booking))
    else if String.eqb (PaymentRequest.payment_type payment_data) "advance" then
      Some (or_zero (Booking.advance_payment booking))
    else None in
  match amount with
  | None => (s, error_response "Invalid payment type" 400)
  | Some amount =>
  if PrimFloat.leb amount 0%float then
    (s, error_response "Invalid payment amount" 400)
  else
  let new_payment :=
    {| Payment.booking_id := booking_id;
       Payment.tenant_id := User.id tenant;
       Payment.landlord_id := Booking.landlord_id booking;
       Payment.amount := amount;
       Payment.payment_type := PaymentRequest.payment_type payment_data;
       Payment.payment_month := PaymentRequest.payment_month payment_data;
       Payment.transaction_uuid := Some transaction_uuid;
       Payment.esewa_ref_id := None;
       Payment.esewa_signature := None;
       Payment.status := PAYMENT_PENDING;
       Payment.completed_at := None |} in
  let new_payment_id := next_id (payments s) in
  if decide (is_Some (payment_by_uuid (payments s) transaction_uuid)) then
    (s, error_response "Internal server error" 500)
  else
  let esewa :=
    Esewa.init amount (Some amount) None (Some transaction_uuid)
      ("http://localhost:3000/payment/success?payment_id=" +:+ pretty new_payment_id)
      ("http://localhost:3000/payment/failure?payment_id=" +:+ pretty new_payment_id)
      None in
  let form_data := Esewa.generate_form_data esewa in
  let s' := set_payments (<[new_payment_id := new_payment]> (payments s)) s in
  if json_compliant amount then
    (s', success_response
           (PaymentInitiated new_payment_id transaction_uuid amount form_data)
           "Payment initiated successfully")
  else (s', error_response "Internal server error" 500)
  end end end.

(** The fields [verify_payment] checks the callback signature against:
    the amount is the stored row's. *)
Definition verify_data (payment : Payment.t) (transaction_uuid : string)
  : gmap string (option string) :=
  list_to_map
    [ ("total_amount", Some (float_str (Payment.amount payment)));
      ("transaction_uuid", Some transaction_uuid);
      ("product_code", Some Esewa.TEST_PRODUCT_CODE) ].

(** The block of [verify_payment] that updates the booking and the room
    of a completed payment: the new [bookings] and [rooms] tables. *)
Definition derived_effects (payment : Payment.t) (s : db)
  : gmap Z Booking.t * gmap Z Room.t :=
  match bookings s !! Payment.booking_id payment with
  | Some b =>
    if String.eqb (Payment.payment_type payment) "booking_payment" then
      (bookings s,
       match rooms s !! Booking.room_id b with
       | Some room => <[Booking.room_id b := Room.set_status RESERVED room]> (rooms s)
       | None => rooms s
       end)
    else if (String.eqb (Payment.payment_type payment) "security_deposit"
             || String.eqb (Payment.payment_type payment) "advance")%bool then
      if decide (Booking.status b = APPROVED) then
        (<[Payment.booking_id payment :=
             Booking.set_tenancy_status (Some ACTIVE) b]> (bookings s),
         match rooms s !! Booking.room_id b with
         | Some room => <[Booking.room_id b := Room.set_status OCCUPIED room]> (rooms s)
         | None => rooms s
         end)
      else (bookings s, rooms s)
    else (bookings s, rooms s)
  | None => (bookings s, rooms s)
  end.

Definition verify_payment (transaction_uuid ref_id signature : string) (now : Z)
    (s : db) : db * response :=
  match payment_by_uuid (payments s) transaction_uuid with
  | None => (s, error_response "Payment not found" 404)
  | Some (payment_id, payment) =>
  let esewa :=
    Esewa.init (Payment.amount payment) (Some (Payment.amount payment)) None
      (Some transaction_uuid) Esewa.default_success_url Esewa.default_failure_url
      None in
  if negb (Esewa.verify_signature esewa signature
             (verify_data payment transaction_uuid)) then
    (s, error_response "Invalid signature" 400)
  else
  let payment' := Payment.complete ref_id signature now payment in
  let booking := bookings s !! Payment.booking_id payment' in
  let effects := derived_effects payment' s in
  ({| users := users s; rooms := effects.2; bookings := effects.1;
      payments := <[payment_id := payment']> (payments s);
      room_images := room_images s |},
   success_response
     (PaymentVerified payment_id
        (match booking with Some _ => Some (Payment.booking_id payment') | None => None end)
        (PaymentStatus_value (Payment.status payment'))
        (b ← booking; Some (BookingStatus_value (Booking.status b))))
     "Payment verified successfully")
  end.

(** ** The listing endpoints ([api/v1/rooms.py])

    [create_room] and [update_room] commit the room, then the images,
    and build the response inside the same [try]: when the response
    cannot be rendered the [except] branch answers 500 after the
    commits, with the rows stored ([db.rollback()] then has nothing to
    undo). *)

(** The [RoomImage] rows the loop over [enumerate(images)] adds. *)
Definition image_rows (room_id : Z) (images : list string) : list RoomImage.t :=
  imap (λ index image_data,
          {| RoomImage.room_id := room_id;
             RoomImage.image_url := image_data;
             RoomImage.image_order := Z.of_nat index;
             RoomImage.is_primary := bool_decide (index = 0%nat) |}) images.

Definition create_room (room_data : RoomCreateRequest.t) (s : db) : db * response :=
  match first_user LANDLORD s with
  | None =>
    (s, error_response
          "No landlord user found. Please register as a landlord first." 400)
  | Some landlord =>
  match RoomType_of_value (lower (RoomCreateRequest.room_type room_data)) with
  | None => (s, error_response
      "Invalid room type. Must be one of: ['single', 'double', 'shared', 'apartment', 'flat', 'house']"
      400)
  | Some room_type_enum =>
  let furnishing :=
    match RoomCreateRequest.furnishing_status room_data with
    | Some f => if String.eqb f "" then Some None
                else e ← FurnishingStatus_of_value (lower f); Some (Some e)
    | None => Some None
    end in
  match furnishing with
  | None => (s, error_response
      "Invalid furnishing status. Must be one of: ['furnished', 'semi_furnished', 'unfurnished']"
      400)
  | Some furnishing_status_enum =>
  let new_room :=
    {| Room.owner_id := User.id landlord;
       Room.details := RoomCreateRequest.details room_data;
       Room.room_type := room_type_enum;
       Room.furnishing_status := furnishing_status_enum;
       Room.price_per_month := RoomCreateRequest.price_per_month room_data;
       Room.security_deposit := RoomCreateRequest.security_deposit room_data;
       Room.advance_payment := RoomCreateRequest.advance_payment room_data;
       Room.status := AVAILABLE;
       Room.is_verified := false |} in
  let new_room_id := next_id (rooms s) in
  let s1 := set_rooms (<[new_room_id := new_room]> (rooms s)) s in
  let s2 :=
    if list_truthy (RoomCreateRequest.images room_data) then
      set_room_images
        (room_images s1
           ++ image_rows new_room_id (default [] (RoomCreateRequest.images room_data)))%list
        s1
    else s1 in
  if json_compliant (Room.price_per_month new_room) then
    (s2, {| success := true; status_code := 201;
            message := "Room listing created successfully";
            data := RoomData new_room_id (RoomStatus_value (Room.status new_room)) |})
  else
    (s2, error_response ("Failed to create room listing: " +:+ json_float_error) 500)
  end end end.

Definition update_room (room_id : Z) (room_data : RoomCreateRequest.t) (s : db)
  : db * response :=
  match rooms s !! room_id with
  | None => (s, error_response "Room listing not found" 404)
  | Some room =>
  match RoomType_of_value (lower (RoomCreateRequest.room_type room_data)) with
  | None => (s, error_response
      "Invalid room type. Must be one of: ['single', 'double', 'shared', 'apartment', 'flat', 'house']"
      400)
  | Some room_type_enum =>
  let furnishing :=
    match RoomCreateRequest.furnishing_status room_data with
    | Some f => if String.eqb f "" then Some None
                else e ← FurnishingStatus_of_value (lower f); Some (Some e)
    | None => Some None
    end in
  match furnishing with
  | None => (s, error_response
      "Invalid furnishing status. Must be one of: ['furnished', 'semi_furnished', 'unfurnished']"
      400)
  | Some furnishing_status_enum =>
  let room' :=
    {| Room.owner_id := Room.owner_id room;
       Room.details := RoomCreateRequest.details room_data;
       Room.room_type := room_type_enum;
       Room.furnishing_status := furnishing_status_enum;
       Room.price_per_month := RoomCreateRequest.price_per_month room_data;
       Room.security_deposit := RoomCreateRequest.security_deposit room_data;
       Room.advance_payment := RoomCreateRequest.advance_payment room_data;
       Room.status := Room.status room;
       Room.is_verified := Room.is_verified room |} in
  let s1 := set_rooms (<[room_id := room']> (rooms s)) s in
  let s2 :=
    match RoomCreateRequest.images room_data with
    | Some images =>
      set_room_images
        (filter (λ i, RoomImage.room_id i ≠ room_id) (room_images s1)
           ++ image_rows room_id images)%list
        s1
    | None => s1
    end in
  if json_compliant (Room.price_per_month room') then
    (s2, success_response (RoomData room_id (RoomStatus_value (Room.status room')))
           "Room listing updated successfully")
  else
    (s2, error_response ("Failed to update room listing: " +:+ json_float_error) 500)
  end end end.

Definition update_room_status (room_id : Z) (status_data : StatusUpdateRequest.t)
    (s : db) : db * response :=
  match rooms s !! room_id with
  | None => (s, error_response "Room listing not found" 404)
  | Some room =>
  let new_status :=
    match StatusUpdateRequest.new_status status_data with
    | Some v =>
      if String.eqb v "" then
        if decide (Room.status room = AVAILABLE) then "occupied" else "available"
      else v
    | None =>
      if decide (Room.status room = AVAILABLE) then "occupied" else "available"
    end in
  match RoomStatus_of_value (lower new_status) with
  | None => (s, error_response
      "Invalid status. Must be one of: ['available', 'occupied', 'reserved', 'under_maintenance', 'inactive']"
      400)
  | Some status_enum =>
  let room' := Room.set_status status_enum room in
  (set_rooms (<[room_id := room']> (rooms s)) s,
   success_response (RoomData room_id (RoomStatus_value (Room.status room')))
     ("Room status updated to " +:+ RoomStatus_value (Room.status room')))
  end end.

End Endpoints.

(** ** Operations and traces

    One constructor per endpoint that writes to the three tables; [run]
    dispatches, [exec] runs a list of operations in order. *)

Inductive op :=
  | CreateRoom (room_data : RoomCreateRequest.t)
  | UpdateRoom (room_id : Z) (room_data : RoomCreateRequest.t)
  | UpdateRoomStatus (room_id : Z) (status_data : StatusUpdateRequest.t)
  | CreateBookingRequest (booking_data : BookingRequest.t) (transaction_uuid : string)
  | ApproveBooking (booking_id : Z) (now : Z)
  | RejectBooking (booking_id : Z) (reject_data : option RejectRequest.t)
  | InitiatePayment (booking_id : Z) (payment_data : PaymentRequest.t)
      (transaction_uuid : string)
  | VerifyPayment (transaction_uuid ref_id signature : string) (now : Z).

Definition run `{PyRuntime} (o : op) (s : db) : db * response :=
  match o with
  | CreateRoom d => create_room d s
  | UpdateRoom i d => update_room i d s
  | UpdateRoomStatus i d => update_room_status i d s
  | CreateBookingRequest d u => create_booking_request d u s
  | ApproveBooking i now => approve_booking i now s
  | RejectBooking i d => reject_booking i d s
  | InitiatePayment i d u => initiate_payment i d u s
  | VerifyPayment u r g now => verify_payment u r g now s
  end.

Fixpoint exec `{PyRuntime} (os : list op) (s : db) : db :=
  match os with
  | [] => s
  | o :: os' => exec os' (run o s).1
  end.

(** ** State predicates *)

(** A booking holds a reservation while it is pending or approved. *)
Definition live (b : Booking.t) : Prop :=
  Booking.status b = BOOKING_PENDING ∨ Booking.status b = APPROVED.

(** The foreign key [bookings.room_id]. *)
Definition bookings_have_rooms (s : db) : Prop :=
  ∀ bid b, bookings s !! bid = Some b → is_Some (rooms s !! Booking.room_id b).

(** An available room has no pending or approved booking. *)
Definition available_rooms_free (s : db) : Prop :=
  ∀ rid r bid b,
    rooms s !! rid = Some r → Room.status r = AVAILABLE →
    bookings s !! bid = Some b → Booking.room_id b = rid → ¬ live b.

(** An active tenancy belongs to an approved booking. *)
Definition active_implies_approved (s : db) : Prop :=
  ∀ bid b, bookings s !! bid = Some b →
    Booking.tenancy_status b = Some ACTIVE → Booking.status b = APPROVED.

(** The unique constraint on [payments.transaction_uuid]. *)
Definition uuid_unique (ps : gmap Z Payment.t) : Prop :=
  ∀ i j p q u, ps !! i = Some p → ps !! j = Some q →
    Payment.transaction_uuid p = Some u → Payment.transaction_uuid q = Some u → i = j.

(** The signature the gateway adapter expects for a stored payment. *)
Definition expected_signature `{PyRuntime} (amount_text transaction_uuid : string) : string :=
  hmac_sha256_b64 Esewa.TEST_SECRET_KEY
    (Esewa.string_to_sign amount_text transaction_uuid Esewa.TEST_PRODUCT_CODE).

(** Two different messages with the same MAC under [key]. *)
Definition collides `{PyRuntime} (key m m' : string) : Prop :=
  m ≠ m' ∧ hmac_sha256_b64 key m = hmac_sha256_b64 key m'.

#[global] Instance live_dec b : Decision (live b).
Proof. unfold live. apply _. Defined.

(** The operations that keep the invariant below: all but
    [update_room_status]; [reject_booking] when no other pending or
    approved booking is on the room of the rejected one. *)
Definition keeps_rooms_reserved (o : op) (s : db) : Prop :=
  match o with
  | UpdateRoomStatus _ _ => False
  | RejectBooking bid _ =>
    match bookings s !! bid with
    | Some b =>
      map_Forall (λ bid' b', bid' ≠ bid →
        Booking.room_id b' = Booking.room_id b → ¬ live b') (bookings s)
    | None => True
    end
  | _ => True
  end.

#[global] Instance keeps_rooms_reserved_dec o s : Decision (keeps_rooms_reserved o s).
Proof. destruct o; cbn; try apply _. case_match; apply _. Defined.

(** Every operation of a trace keeps the invariant, each in the state it
    is run in. *)
Fixpoint keeps_along `{PyRuntime} (os : list op) (s : db) : Prop :=
  match os with
  | [] => True
  | o :: os' => keeps_rooms_reserved o s ∧ keeps_along os' (run o s).1
  end.

#[global] Instance keeps_along_dec `{PyRuntime} os s : Decision (keeps_along os s).
Proof. revert s. induction os as [|o os IH]; intros s; cbn; apply _. Defined.

(** The state predicates are decidable row by row. *)
Definition uuid_unique_check (ps : gmap Z Payment.t) : Prop :=
  map_Forall (λ i p, map_Forall (λ j q,
    Payment.transaction_uuid p = Payment.transaction_uuid q →
    is_Some (Payment.transaction_uuid p) → i = j) ps) ps.

#[global] Instance uuid_unique_check_dec ps : Decision (uuid_unique_check ps).
Proof. unfold uuid_unique_check. apply _. Defined.

Definition bookings_have_rooms_check (s : db) : Prop :=
  map_Forall (λ _ b, is_Some (rooms s !! Booking.room_id b)) (bookings s).

Definition available_rooms_free_check (s : db) : Prop :=
  map_Forall (λ rid r, Room.status r = AVAILABLE →
    map_Forall (λ _ b, Booking.room_id b = rid → ¬ live b) (bookings s)) (rooms s).

#[global] Instance bookings_have_rooms_check_dec s : Decision (bookings_have_rooms_check s).
Proof. unfold bookings_have_rooms_check. apply _. Defined.

#[global] Instance available_rooms_free_check_dec s : Decision (available_rooms_free_check s).
Proof. unfold available_rooms_free_check. apply _. Defined.

(** ** Rows and amounts of the payment endpoints *)

(** The rows [create_booking_request] inserts. *)
Definition requested_booking (tenant : User.t) (room : Room.t)
    (booking_data : BookingRequest.t) (start_date : Z) (end_date : option Z)
  : Booking.t :=
  {| Booking.tenant_id := User.id tenant;
     Booking.landlord_id := Room.owner_id room;
     Booking.room_id := BookingRequest.room_id booking_data;
     Booking.start_date := start_date;
     Booking.end_date := end_date;
     Booking.monthly_rent := Room.price_per_month room;
     Booking.security_deposit := Some (or_zero (Room.security_deposit room));
     Booking.advance_payment := Some (or_zero (Room.advance_payment room));
     Booking.status := BOOKING_PENDING;
     Booking.tenancy_status := Some TENANCY_PENDING;
     Booking.tenant_message := BookingRequest.tenant_message booking_data;
     Booking.landlord_response := None;
     Booking.approved_at := None |}.

(** A payment row as the two initiating endpoints insert it: pending,
    with the transaction id and nothing from the gateway yet. *)
Definition pending_payment (booking_id tenant_id landlord_id : Z) (amount : float)
    (payment_type : string) (payment_month : option string)
    (transaction_uuid : string) : Payment.t :=
  {| Payment.booking_id := booking_id;
     Payment.tenant_id := tenant_id;
     Payment.landlord_id := landlord_id;
     Payment.amount := amount;
     Payment.payment_type := payment_type;
     Payment.payment_month := payment_month;
     Payment.transaction_uuid := Some transaction_uuid;
     Payment.esewa_ref_id := None;
     Payment.esewa_signature := None;
     Payment.status := PAYMENT_PENDING;
     Payment.completed_at := None |}.

(** The amount [initiate_payment] asks for, by payment type. *)
Definition supplemental_amount (booking : Booking.t) (payment_type : string)
  : option float :=
  if String.eqb payment_type "rent" then Some (Booking.monthly_rent booking)
  else if String.eqb payment_type "security_deposit" then
    Some (or_zero (Booking.security_deposit booking))
  else if String.eqb payment_type "advance" then
    Some (or_zero (Booking.advance_payment booking))
  else None.

(** The transaction id and the gateway form of a response that hands
    one out. *)
Definition issued_form (d : payload) : option (string * gmap string (option string)) :=
  match d with
  | BookingRequested _ _ u _ form | PaymentInitiated _ u _ form => Some (u, form)
  | _ => None
  end.

(** ** What no endpoint rewrites, and further state predicates *)

(** The terms of a booking: who, which room, when and for how much. *)
Definition same_terms (b b' : Booking.t) : Prop :=
  Booking.tenant_id b' = Booking.tenant_id b ∧
  Booking.landlord_id b' = Booking.landlord_id b ∧
  Booking.room_id b' = Booking.room_id b ∧
  Booking.start_date b' = Booking.start_date b ∧
  Booking.end_date b' = Booking.end_date b ∧
  Booking.monthly_rent b' = Booking.monthly_rent b ∧
  Booking.security_deposit b' = Booking.security_deposit b ∧
  Booking.advance_payment b' = Booking.advance_payment b ∧
  Booking.tenant_message b' = Booking.tenant_message b.

(** What a payment row charges: for which booking, between whom, how
    much, of which type, under which transaction id. *)
Definition same_charge (p p' : Payment.t) : Prop :=
  Payment.booking_id p' = Payment.booking_id p ∧
  Payment.tenant_id p' = Payment.tenant_id p ∧
  Payment.landlord_id p' = Payment.landlord_id p ∧
  Payment.amount p' = Payment.amount p ∧
  Payment.payment_type p' = Payment.payment_type p ∧
  Payment.payment_month p' = Payment.payment_month p ∧
  Payment.transaction_uuid p' = Payment.transaction_uuid p.

(** What a payment of a given type is to charge by the terms of its
    booking: deposit plus advance for the booking payment, and for a
    later payment the amount [initiate_payment] takes. *)
Definition amount_due (b : Booking.t) (payment_type : string) : option float :=
  if String.eqb payment_type "booking_payment" then
    Some (PrimFloat.add (or_zero (Booking.security_deposit b))
            (or_zero (Booking.advance_payment b)))
  else supplemental_amount b payment_type.

(** Every payment is priced by its booking: the booking is stored, the
    amount is the one due for the payment's type, and it is not [<= 0]. *)
Definition payments_priced (s : db) : Prop :=
  map_Forall (λ _ p,
    ∃ b, bookings s !! Payment.booking_id p = Some b ∧
         amount_due b (Payment.payment_type p) = Some (Payment.amount p) ∧
         PrimFloat.leb (Payment.amount p) 0%float = false) (payments s).

(** The foreign key [payments.booking_id]. *)
Definition payments_have_bookings (s : db) : Prop :=
  map_Forall (λ _ p, is_Some (bookings s !! Payment.booking_id p)) (payments s).

(** Both foreign keys, row by row. *)
Definition foreign_keys (s : db) : Prop :=
  bookings_have_rooms_check s ∧ payments_have_bookings s.

(** A tenant has at most one pending or approved booking on a room. *)
Definition one_live_booking (s : db) : Prop :=
  map_Forall (λ i b, map_Forall (λ j b',
    Booking.tenant_id b = Booking.tenant_id b' →
    Booking.room_id b = Booking.room_id b' →
    live b → live b' → i = j) (bookings s)) (bookings s).

(** A completed payment carries a gateway reference, a completion time
    and, as its stored signature, the one expected for its own amount and
    transaction id. *)
Definition completed_payments_verified `{PyRuntime} (s : db) : Prop :=
  map_Forall (λ _ p, Payment.status p = PAYMENT_COMPLETED →
    is_Some (Payment.esewa_ref_id p) ∧ is_Some (Payment.completed_at p) ∧
    is_Some (Payment.transaction_uuid p) ∧
    Payment.esewa_signature p
    = expected_signature (float_str (Payment.amount p)) <$> Payment.transaction_uuid p)
    (payments s).

(** A completed deposit or advance payment of booking [bid]. *)
Definition deposit_paid (ps : gmap Z Payment.t) (bid : Z) : Prop :=
  map_Exists (λ _ p, Payment.booking_id p = bid ∧
    Payment.status p = PAYMENT_COMPLETED ∧
    (Payment.payment_type p = "security_deposit" ∨ Payment.payment_type p = "advance"))
    ps.

(** Every active tenancy has its deposit or advance paid. *)
Definition active_tenancies_paid (s : db) : Prop :=
  map_Forall (λ bid b, Booking.tenancy_status b = Some ACTIVE →
    deposit_paid (payments s) bid) (bookings s).

#[global] Instance payments_have_bookings_dec s : Decision (payments_have_bookings s).
Proof. unfold payments_have_bookings. apply _. Defined.

#[global] Instance foreign_keys_dec s : Decision (foreign_keys s).
Proof. unfold foreign_keys. apply _. Defined.

#[global] Instance one_live_booking_dec s : Decision (one_live_booking s).
Proof. unfold one_live_booking. apply _. Defined.

#[global] Instance completed_payments_verified_dec `{PyRuntime} s :
  Decision (completed_payments_verified s).
Proof. unfold completed_payments_verified. apply _. Defined.

#[global] Instance deposit_paid_dec ps bid : Decision (deposit_paid ps bid).
Proof. unfold deposit_paid. apply _. Defined.

#[global] Instance active_tenancies_paid_dec s : Decision (active_tenancies_paid s).
Proof. unfold active_tenancies_paid. apply _. Defined.

(** ** Upcoming rent ([get_upcoming_payments] in [api/v1/booking.py])

    The endpoint reads the clock twice, for the current month
    ([utcnow().strftime]) and for the due date; both readings are
    arguments here.  The query for the active bookings has no
    [order_by]: the list is in the order of the keys, and the properties
    proved of it do not depend on the order.  The function returns the
    [data] and the [message] the endpoint hands to [success_response];
    rendering them (which fails for a rent that is not finite) is not
    part of it. *)

Module UpcomingPayment.
Record t := {
  booking_id : Z;
  room_title : string;
  amount : float;
  payment_month : string;
  due_date : string;
}.
End UpcomingPayment.

(** The query for [existing_payment]: a completed rent payment of the
    booking for the month. *)
Definition rent_paid (ps : gmap Z Payment.t) (booking_id : Z) (month : string) : Prop :=
  map_Exists (λ _ p, Payment.booking_id p = booking_id ∧
    Payment.payment_type p = "rent" ∧
    Payment.payment_month p = Some month ∧
    Payment.status p = PAYMENT_COMPLETED) ps.

#[global] Instance rent_paid_dec ps booking_id month : Decision (rent_paid ps booking_id month).
Proof. unfold rent_paid. apply _. Defined.

Definition get_upcoming_payments (current_month due_date : string) (s : db)
  : list UpcomingPayment.t * string :=
  match first_user TENANT s with
  | None => ([], "No upcoming payments")
  | Some tenant =>
  let active_bookings :=
    filter (λ kb : Z * Booking.t,
              Booking.tenant_id kb.2 = User.id tenant ∧
              Booking.status kb.2 = APPROVED ∧
              Booking.tenancy_status kb.2 = Some ACTIVE)
      (map_to_list (bookings s)) in
  let upcoming_payments :=
    omap (λ kb : Z * Booking.t,
            if decide (rent_paid (payments s) kb.1 current_month) then None
            else
              Some {| UpcomingPayment.booking_id := kb.1;
                      UpcomingPayment.room_title :=
                        match rooms s !! Booking.room_id kb.2 with
                        | Some room => title (Room.details room)
                        | None => "Unknown"
                        end;
                      UpcomingPayment.amount := Booking.monthly_rent kb.2;
                      UpcomingPayment.payment_month := current_month;
                      UpcomingPayment.due_date := due_date |})
      active_bookings in
  (upcoming_payments, "Upcoming payments retrieved successfully")
  end.

(** ** The module-level [generate_signature] of [utils/esewa.py]

    [key] and [product_code] default to the test credentials
    ["8gBm/:&EnhH.1/q"] and ["EPAYTEST"]; a caller that leaves them out
    passes these. *)

Definition generate_signature `{PyRuntime} (total_amount : float)
    (transaction_uuid key product_code : string) : string :=
  hmac_sha256_b64 key
    (Esewa.string_to_sign (float_str total_amount) transaction_uuid product_code).

(** Whether a text has a comma in it. *)
Fixpoint has_comma (s : string) : bool :=
  match s with
  | EmptyString => false
  | String c r => Ascii.eqb c "," || has_comma r
  end.

(** ** HMAC-SHA256 and base64 for the scenarios

    What [hmac.new(key, msg, hashlib.sha256).digest()] and
    [base64.b64encode] compute: SHA-256 (FIPS 180-4) on 32-bit words held
    in [Z], HMAC (RFC 2104) and base64 (RFC 4648), on the bytes of a
    string.  The scenarios sign with it, so their signatures are the ones
    the gateway adapter produces. *)

Module Hmac.

Definition mask32 : Z := 0xffffffff.
Definition add32 (x y : Z) : Z := Z.land (x + y) mask32.
Definition rotr (n x : Z) : Z :=
  Z.land (Z.lor (Z.shiftr x n) (Z.shiftl x (32 - n))) mask32.
Definition not32 (x : Z) : Z := Z.lxor x mask32.

Definition Ch (x y z : Z) : Z := Z.lxor (Z.land x y) (Z.land (not32 x) z).
Definition Maj (x y z : Z) : Z :=
  Z.lxor (Z.lxor (Z.land x y) (Z.land x z)) (Z.land y z).
Definition Sigma0 (x : Z) : Z := Z.lxor (Z.lxor (rotr 2 x) (rotr 13 x)) (rotr 22 x).
Definition Sigma1 (x : Z) : Z := Z.lxor (Z.lxor (rotr 6 x) (rotr 11 x)) (rotr 25 x).
Definition sigma0 (x : Z) : Z := Z.lxor (Z.lxor (rotr 7 x) (rotr 18 x)) (Z.shiftr x 3).
Definition sigma1 (x : Z) : Z := Z.lxor (Z.lxor (rotr 17 x) (rotr 19 x)) (Z.shiftr x 10).

(** The first [n] primes. *)
Definition is_prime (p : Z) : bool :=
  forallb (λ d, negb (Z.eqb (p mod d) 0)) (seqZ 2 (p - 2)).

Definition primes (n : nat) : list Z := take n (List.filter is_prime (seqZ 2 310)).

(** The integer cube root of [n], bit by bit from bit [bits - 1] down. *)
Fixpoint cube_root (bits : nat) (n r : Z) : Z :=
  match bits with
  | O => r
  | S b =>
    let r' := r + 2 ^ Z.of_nat b in
    cube_root b n (if Z.leb (r' ^ 3) n then r' else r)
  end.

(** The round constants: the first 32 bits of the fractional parts of the
    cube roots of the first 64 primes; the initial hash value: the same
    of the square roots of the first 8 primes. *)
Definition K : list Z :=
  Eval vm_compute in
    (λ p, Z.land (cube_root 40 (p * 2 ^ 96) 0) mask32) <$> primes 64.

Definition H0 : list Z :=
  Eval vm_compute in
    (λ p, Z.land (Z.sqrt (p * 2 ^ 64)) mask32) <$> primes 8.

(** Big-endian bytes of a word, and words of bytes. *)
Definition word_bytes (w : Z) : list Z :=
  [Z.land (Z.shiftr w 24) 255; Z.land (Z.shiftr w 16) 255;
   Z.land (Z.shiftr w 8) 255; Z.land w 255].

Fixpoint bytes_words (bs : list Z) : list Z :=
  match bs with
  | a :: b :: c :: d :: r =>
    Z.lor (Z.lor (Z.shiftl a 24) (Z.shiftl b 16)) (Z.lor (Z.shiftl c 8) d)
      :: bytes_words r
  | _ => []
  end.

(** The message followed by 0x80, zero bytes and its bit length on eight
    bytes, a multiple of 64 bytes in all. *)
Definition pad (msg : list Z) : list Z :=
  let l := Z.of_nat (List.length msg) in
  (msg ++ [128] ++ replicate (Z.to_nat ((55 - l) mod 64)) 0
       ++ word_bytes (Z.shiftr (8 * l) 32) ++ word_bytes (Z.land (8 * l) mask32))%list.

(** The message schedule, most recent word first. *)
Fixpoint extend (n : nat) (w : list Z) : list Z :=
  match n with
  | O => w
  | S n' =>
    extend n'
      (add32 (add32 (sigma1 (nth 1 w 0)) (nth 6 w 0))
             (add32 (sigma0 (nth 14 w 0)) (nth 15 w 0)) :: w)
  end.

Definition schedule (block : list Z) : list Z := rev (extend 48 (rev block)).

Definition round (st : list Z) (kw : Z * Z) : list Z :=
  match st with
  | [a; b; c; d; e; f; g; h] =>
    let t1 := add32 (add32 (add32 h (Sigma1 e)) (add32 (Ch e f g) kw.1)) kw.2 in
    let t2 := add32 (Sigma0 a) (Maj a b c) in
    [add32 t1 t2; a; b; c; add32 d t1; e; f; g]
  | _ => st
  end.

Definition compress (h : list Z) (block : list Z) : list Z :=
  zip_with add32 h (fold_left round (zip K (schedule block)) h).

Fixpoint blocks (n : nat) (ws : list Z) : list (list Z) :=
  match n with
  | O => []
  | S n' => take 16 ws :: blocks n' (drop 16 ws)
  end.

Definition sha256 (msg : list Z) : list Z :=
  let ws := bytes_words (pad msg) in
  concat (word_bytes <$> fold_left compress (blocks (List.length ws / 16)%nat ws) H0).

(** [hmac.new(key, msg, hashlib.sha256).digest()] *)
Definition hmac_sha256 (key msg : list Z) : list Z :=
  let key' := if Z.ltb 64 (Z.of_nat (List.length key)) then sha256 key else key in
  let block := (key' ++ replicate (64 - List.length key')%nat 0)%list in
  sha256 ((Z.lxor 0x5c <$> block) ++ sha256 ((Z.lxor 0x36 <$> block) ++ msg))%list.

Definition alphabet : string :=
  "ABCDEFGHIJKLMNOPQRSTUVWXYZabcdefghijklmnopqrstuvwxyz0123456789+/".

Definition b64_char (i : Z) : string :=
  match String.get (Z.to_nat i) alphabet with
  | Some c => String c EmptyString
  | None => EmptyString
  end.

(** [base64.b64encode] *)
Fixpoint b64encode (bs : list Z) : string :=
  match bs with
  | a :: b :: c :: r =>
    b64_char (Z.shiftr a 2)
    +:+ b64_char (Z.lor (Z.shiftl (Z.land a 3) 4) (Z.shiftr b 4))
    +:+ b64_char (Z.lor (Z.shiftl (Z.land b 15) 2) (Z.shiftr c 6))
    +:+ b64_char (Z.land c 63) +:+ b64encode r
  | [a; b] =>
    b64_char (Z.shiftr a 2)
    +:+ b64_char (Z.lor (Z.shiftl (Z.land a 3) 4) (Z.shiftr b 4))
    +:+ b64_char (Z.shiftl (Z.land b 15) 2) +:+ "="
  | [a] =>
    b64_char (Z.shiftr a 2) +:+ b64_char (Z.shiftl (Z.land a 3) 4) +:+ "=="
  | [] => ""
  end.

(** The bytes of a string ([s.encode('utf-8')] on a string of bytes). *)
Fixpoint bytes (s : string) : list Z :=
  match s with
  | EmptyString => []
  | String c r => Z.of_nat (nat_of_ascii c) :: bytes r
  end.

Definition hmac_sha256_b64 (key msg : string) : string :=
  b64encode (hmac_sha256 (bytes key) (bytes msg)).

End Hmac.

(** ** A concrete runtime for the scenarios

    The scenarios below run the endpoints on concrete tables.  They use
    this instance of the runtime interface: the MAC is HMAC-SHA256 with
    base64 as above, floats are printed in exact decimal (which is
    Python's text for the amounts used here) and dates are read digit by
    digit.  The general theorems hold for every runtime. *)

Module Demo.

(** The decimal digits of [r / 2^k], a fraction below 1. *)
Fixpoint frac_digits (fuel : nat) (r k : Z) : string :=
  match fuel with
  | O => ""
  | S fuel' =>
    if Z.eqb r 0 then ""
    else pretty (r * 10 / 2 ^ k) +:+ frac_digits fuel' (r * 10 mod 2 ^ k) k
  end.

(** The exact decimal expansion of a float, with at least one digit
    after the point: Python's [str] for whole amounts below 10^16 and for
    fractions such as 0.5 or 1234.75. *)
Definition float_str (x : float) : string :=
  match Prim2SF x with
  | S754_zero s => if s then "-0.0" else "0.0"
  | S754_infinity s => if s then "-inf" else "inf"
  | S754_nan => "nan"
  | S754_finite s m e =>
    let sign := if s then "-" else "" in
    if Z.leb 0 e then sign +:+ pretty (Z.pos m * 2 ^ e) +:+ ".0"
    else
      let k := - e in
      let r := Z.pos m mod 2 ^ k in
      sign +:+ pretty (Z.pos m / 2 ^ k) +:+ "."
        +:+ (if Z.eqb r 0 then "0" else frac_digits (Z.to_nat k) r k)
  end.

(** The characters of an ISO date other than digits: - : T + . Z *)
Definition separator (c : ascii) : bool :=
  let n := nat_of_ascii c in
  (Nat.eqb n 45 || Nat.eqb n 58 || Nat.eqb n 84 || Nat.eqb n 43
   || Nat.eqb n 46 || Nat.eqb n 90)%bool.

(** A date is read as the number its digits spell; a string with any
    other character, or with no digit, does not parse. *)
Fixpoint digits_value (s : string) (acc : Z) (seen : bool) : option Z :=
  match s with
  | EmptyString => if seen then Some acc else None
  | String c r =>
    let n := nat_of_ascii c in
    if (Nat.leb 48 n && Nat.leb n 57)%bool then
      digits_value r (acc * 10 + Z.of_nat (n - 48)) true
    else if separator c then digits_value r acc seen
    else None
  end.

Definition runtime : PyRuntime :=
  Build_PyRuntime float_str Hmac.hmac_sha256_b64 (λ s, digits_value s 0 false).

End Demo.

(** ** Scenario data

    One landlord, one tenant, and one listing with a deposit of 5000 and
    an advance of 3000. *)

Module Scenario.

Definition demo_details : RoomDetails :=
  {| title := "Sunny room"; description := None; address := "Lazimpat 12";
     city := "Kathmandu"; ward_number := None; latitude := None;
     longitude := None; total_rooms := 1; available_rooms := 1;
     bathrooms := 1; floor_number := None; total_floors := None;
     area_sqft := None; has_kitchen := false; has_parking := false;
     has_wifi := false; has_water_supply := true; has_electricity := true;
     has_security := false; has_elevator := false; has_balcony := false |}.

Definition demo_room : RoomCreateRequest.t :=
  {| RoomCreateRequest.details := demo_details;
     RoomCreateRequest.room_type := "Single";
     RoomCreateRequest.furnishing_status := None;
     RoomCreateRequest.price_per_month := 15000%float;
     RoomCreateRequest.security_deposit := Some 5000%float;
     RoomCreateRequest.advance_payment := Some 3000%float;
     RoomCreateRequest.images := None |}.

(** The same listing after the landlord raised every amount. *)
Definition dearer_room : RoomCreateRequest.t :=
  {| RoomCreateRequest.details := demo_details;
     RoomCreateRequest.room_type := "Single";
     RoomCreateRequest.furnishing_status := None;
     RoomCreateRequest.price_per_month := 20000%float;
     RoomCreateRequest.security_deposit := Some 9000%float;
     RoomCreateRequest.advance_payment := Some 4000%float;
     RoomCreateRequest.images := None |}.

Definition db0 : db :=
  {| users := [ {| User.id := 1; User.user_type := LANDLORD |};
                {| User.id := 2; User.user_type := TENANT |} ];
     rooms := ∅; bookings := ∅; payments := ∅; room_images := [] |}.

Definition request : BookingRequest.t :=
  {| BookingRequest.room_id := 1;
     BookingRequest.start_date := "2025-01-01";
     BookingRequest.end_date := None;
     BookingRequest.tenant_message := None |}.

Definition deposit_request : PaymentRequest.t :=
  {| PaymentRequest.booking_id := 1;
     PaymentRequest.payment_type := "security_deposit";
     PaymentRequest.payment_month := None |}.

Definition toggle : StatusUpdateRequest.t :=
  {| StatusUpdateRequest.new_status := None |}.

(** The signatures the demo runtime expects for the two payments. *)
Definition sig_booking : string :=
  @expected_signature Demo.runtime "8000.0" "uuid-1".
Definition sig_deposit : string :=
  @expected_signature Demo.runtime "5000.0" "uuid-2".

(** The rows the scenarios meet. *)
Definition tenant : User.t := {| User.id := 2; User.user_type := TENANT |}.

Definition available_room : Room.t :=
  {| Room.owner_id := 1; Room.details := demo_details; Room.room_type := SINGLE;
     Room.furnishing_status := None; Room.price_per_month := 15000%float;
     Room.security_deposit := Some 5000%float;
     Room.advance_payment := Some 3000%float;
     Room.status := AVAILABLE; Room.is_verified := false |}.

(** The listing after [update_room] with [dearer_room]. *)
Definition edited_room : Room.t :=
  {| Room.owner_id := 1; Room.details := demo_details; Room.room_type := SINGLE;
     Room.furnishing_status := None; Room.price_per_month := 20000%float;
     Room.security_deposit := Some 9000%float;
     Room.advance_payment := Some 4000%float;
     Room.status := AVAILABLE; Room.is_verified := false |}.

Definition pending_booking : Booking.t :=
  {| Booking.tenant_id := 2; Booking.landlord_id := 1; Booking.room_id := 1;
     Booking.start_date := 20250101; Booking.end_date := None;
     Booking.monthly_rent := 15000%float;
     Booking.security_deposit := Some 5000%float;
     Booking.advance_payment := Some 3000%float;
     Booking.status := BOOKING_PENDING;
     Booking.tenancy_status := Some TENANCY_PENDING;
     Booking.tenant_message := None; Booking.landlord_response := None;
     Booking.approved_at := None |}.

Definition rejected_booking : Booking.t :=
  Booking.set_landlord_response (Some "Booking rejected")
    (Booking.set_status REJECTED pending_booking).

Definition booking_payment : Payment.t :=
  {| Payment.booking_id := 1; Payment.tenant_id := 2; Payment.landlord_id := 1;
     Payment.amount := 8000%float; Payment.payment_type := "booking_payment";
     Payment.payment_month := None; Payment.transaction_uuid := Some "uuid-1";
     Payment.esewa_ref_id := None; Payment.esewa_signature := None;
     Payment.status := PAYMENT_PENDING; Payment.completed_at := None |}.

Definition deposit_payment : Payment.t :=
  {| Payment.booking_id := 1; Payment.tenant_id := 2; Payment.landlord_id := 1;
     Payment.amount := 5000%float; Payment.payment_type := "security_deposit";
     Payment.payment_month := None; Payment.transaction_uuid := Some "uuid-2";
     Payment.esewa_ref_id := None; Payment.esewa_signature := None;
     Payment.status := PAYMENT_PENDING; Payment.completed_at := None |}.

(** A listing, not yet requested. *)
Definition listed : db := @exec Demo.runtime [CreateRoom demo_room] db0.

(** A listing with one booking request on it. *)
Definition requested : db :=
  @exec Demo.runtime [CreateBookingRequest request "uuid-1"] listed.

(** The request was rejected: the room is available again. *)
Definition rejected : db :=
  @exec Demo.runtime [RejectBooking 1 None] requested.

(** The request was approved and the tenant started a deposit payment. *)
Definition deposit_started : db :=
  @exec Demo.runtime
    [VerifyPayment "uuid-1" "ref-1" sig_booking 100; ApproveBooking 1 200;
     InitiatePayment 1 deposit_request "uuid-2"] requested.

(** The deposit was verified: the tenancy is active. *)
Definition occupied : db :=
  @exec Demo.runtime [VerifyPayment "uuid-2" "ref-2" sig_deposit 300] deposit_started.

(** A booking row with status [CANCELLED] (no endpoint writes one). *)
Definition cancelled_db : db :=
  set_bookings
    (<[1 := Booking.set_status CANCELLED pending_booking]>
       (bookings requested))
    requested.

(** The same tenant asks again for the room after the rejection. *)
Definition requested_again : db :=
  @exec Demo.runtime [CreateBookingRequest request "uuid-3"] rejected.

End Scenario.

(** ** More scenario data *)

(** Two tenants are registered, the one with id 2 first. *)
Definition two_tenants : db :=
  {| users := [ {| User.id := 1; User.user_type := LANDLORD |};
                {| User.id := 2; User.user_type := TENANT |};
                {| User.id := 3; User.user_type := TENANT |} ];
     rooms := ∅; bookings := ∅; payments := ∅; room_images := [] |}.

(** The first tenant requested the room; the landlord then put the
    listing back to available with [update_room_status]. *)
Definition relisted : db :=
  @exec Demo.runtime
    [ CreateRoom Scenario.demo_room;
      CreateBookingRequest Scenario.request "uuid-1";
      UpdateRoomStatus 1 {| StatusUpdateRequest.new_status := Some "available" |} ]
    two_tenants.

(** The scenario's listing sent with two pictures, and the raised prices
    sent with an empty list of pictures. *)
Definition pictured_room : RoomCreateRequest.t :=
  {| RoomCreateRequest.details := Scenario.demo_details;
     RoomCreateRequest.room_type := "Single";
     RoomCreateRequest.furnishing_status := None;
     RoomCreateRequest.price_per_month := 15000%float;
     RoomCreateRequest.security_deposit := Some 5000%float;
     RoomCreateRequest.advance_payment := Some 3000%float;
     RoomCreateRequest.images := Some ["front.jpg"; "kitchen.jpg"] |}.

Definition unpictured_room : RoomCreateRequest.t :=
  {| RoomCreateRequest.details := Scenario.demo_details;
     RoomCreateRequest.room_type := "Single";
     RoomCreateRequest.furnishing_status := None;
     RoomCreateRequest.price_per_month := 20000%float;
     RoomCreateRequest.security_deposit := Some 9000%float;
     RoomCreateRequest.advance_payment := Some 4000%float;
     RoomCreateRequest.images := Some [] |}.


(** From the request to the active tenancy, with an edit of the listing
    on the way. *)
Definition tenancy_trace : list op :=
  [ UpdateRoom 1 Scenario.dearer_room;
    VerifyPayment "uuid-1" "ref-1" Scenario.sig_booking 100;
    ApproveBooking 1 200;
    InitiatePayment 1 Scenario.deposit_request "uuid-2";
    VerifyPayment "uuid-2" "ref-2" Scenario.sig_deposit 300 ].

Definition rent_request : PaymentRequest.t :=
  {| PaymentRequest.booking_id := 1;
     PaymentRequest.payment_type := "rent";
     PaymentRequest.payment_month := Some "2025-02" |}.

Definition sig_rent : string := @expected_signature Demo.runtime "15000.0" "uuid-4".

Definition rent_payment : Payment.t :=
  {| Payment.booking_id := 1; Payment.tenant_id := 2; Payment.landlord_id := 1;
     Payment.amount := 15000%float; Payment.payment_type := "rent";
     Payment.payment_month := Some "2025-02";
     Payment.transaction_uuid := Some "uuid-4";
     Payment.esewa_ref_id := None; Payment.esewa_signature := None;
     Payment.status := PAYMENT_PENDING; Payment.completed_at := None |}.

(** The tenant of the occupied room started the rent payment for
    February. *)
Definition rent_started : db :=
  @exec Demo.runtime [InitiatePayment 1 rent_request "uuid-4"] Scenario.occupied.

(** The form the scenario's booking request is answered with. *)
Definition booking_form : gmap string (option string) :=
  @Esewa.generate_form_data Demo.runtime
    (Esewa.init 8000%float (Some 8000%float) None (Some "uuid-1")
       "http://localhost:3000/payment/success?payment_id=1&booking_id=1"
       "http://localhost:3000/payment/failure?payment_id=1&booking_id=1" None).

(** * Properties *)

(** ** The scenario runtime computes what Python computes

    SHA-256 of abc (FIPS 180-4), test case 2 of RFC 4231, and the values
    Python gives for the scenario's signature and amounts. *)

Example sha256_abc :
  Hmac.sha256 (Hmac.bytes "abc")
  = [0xba; 0x78; 0x16; 0xbf; 0x8f; 0x01; 0xcf; 0xea; 0x41; 0x41; 0x40; 0xde;
     0x5d; 0xae; 0x22; 0x23; 0xb0; 0x03; 0x61; 0xa3; 0x96; 0x17; 0x7a; 0x9c;
     0xb4; 0x10; 0xff; 0x61; 0xf2; 0x00; 0x15; 0xad].
Proof. vm_compute. reflexivity. Qed.

Example sha256_constants :
  Hmac.H0 !! 0%nat = Some 0x6a09e667 ∧ Hmac.H0 !! 7%nat = Some 0x5be0cd19 ∧
  Hmac.K !! 0%nat = Some 0x428a2f98 ∧ Hmac.K !! 63%nat = Some 0xc67178f2.
Proof. vm_compute. split_and!; reflexivity. Qed.

Example hmac_rfc4231_case2 :
  Hmac.hmac_sha256_b64 "Jefe" "what do ya want for nothing?"
  = "W9zBRr9gdU5qBCQmCJV1x1oAPwidJzmDnexYuWTsOEM=".
Proof. vm_compute. reflexivity. Qed.

Example scenario_signature :
  Scenario.sig_booking = "1Ji8pI/p08nPe4WP9L4/gfK2k7qVCB5ZBp983ExOGzE=".
Proof. vm_compute. reflexivity. Qed.

Example demo_float_str_8000 : Demo.float_str 8000%float = "8000.0".
Proof. vm_compute. reflexivity. Qed.

Example demo_float_str_half : Demo.float_str 0.5%float = "0.5".
Proof. vm_compute. reflexivity. Qed.

Example demo_float_str_frac : Demo.float_str 1234.75%float = "1234.75".
Proof. vm_compute. reflexivity. Qed.

(** ** Keys and queries *)

Lemma next_id_gt {A} (m : gmap Z A) k x : m !! k = Some x → k < next_id m.
Proof.
  unfold next_id. revert k x.
  apply (map_fold_weak_ind (λ acc m, ∀ k x, m !! k = Some x → k < acc)).
  - intros k x Hk. by rewrite lookup_empty in Hk.
  - intros i y m' r Hi IH k x Hk.
    apply lookup_insert_Some in Hk as [[-> _]|[_ Hk]].
    + lia.
    + specialize (IH _ _ Hk). lia.
Qed.

Lemma next_id_fresh {A} (m : gmap Z A) : m !! next_id m = None.
Proof.
  destruct (m !! next_id m) as [x|] eqn:E; [|done].
  apply next_id_gt in E. lia.
Qed.

Lemma payment_by_uuid_Some ps u k p :
  payment_by_uuid ps u = Some (k, p) →
  ps !! k = Some p ∧ Payment.transaction_uuid p = Some u.
Proof.
  unfold payment_by_uuid. intros E.
  apply fmap_Some in E as [[i [k' p']] [E ?]]. simplify_eq/=.
  apply list_find_Some in E as (Hi & Hu & _).
  split; [|done].
  apply elem_of_map_to_list. by eapply list_elem_of_lookup_2.
Qed.

Lemma payment_by_uuid_None ps u k p :
  payment_by_uuid ps u = None → ps !! k = Some p →
  Payment.transaction_uuid p ≠ Some u.
Proof.
  unfold payment_by_uuid. intros E Hk.
  apply fmap_None in E. rewrite list_find_None in E.
  rewrite Forall_forall in E.
  apply (E (k, p)). by apply elem_of_map_to_list.
Qed.

Lemma payment_by_uuid_unique ps u k p :
  uuid_unique ps → ps !! k = Some p → Payment.transaction_uuid p = Some u →
  payment_by_uuid ps u = Some (k, p).
Proof.
  intros Hu Hk Hp.
  destruct (payment_by_uuid ps u) as [[k' p']|] eqn:E.
  - apply payment_by_uuid_Some in E as [Hk' Hp'].
    assert (k' = k) as -> by (eapply Hu; eauto).
    congruence.
  - by eapply payment_by_uuid_None in E.
Qed.

(** A payment inserted under a transaction id no stored payment has is
    the one the query finds. *)
Lemma payment_by_uuid_insert_fresh ps u p :
  payment_by_uuid ps u = None → Payment.transaction_uuid p = Some u →
  payment_by_uuid (<[next_id ps := p]> ps) u = Some (next_id ps, p).
Proof.
  intros Hnone Hu.
  destruct (payment_by_uuid (<[next_id ps := p]> ps) u) as [[k q]|] eqn:E.
  - apply payment_by_uuid_Some in E as [Hk Hq].
    apply lookup_insert_Some in Hk as [[<- <-]|[_ Hk]]; [done|].
    by eapply payment_by_uuid_None in Hnone.
  - eapply payment_by_uuid_None in E; [|apply lookup_insert_eq]. done.
Qed.

(** Completing a payment keeps the unique column, so the query finds the
    same row afterwards. *)
Lemma uuid_unique_complete ps k p r g now :
  uuid_unique ps → ps !! k = Some p →
  uuid_unique (<[k := Payment.complete r g now p]> ps).
Proof.
  intros Hu Hk i j p1 p2 u H1 H2 E1 E2.
  apply lookup_insert_Some in H1 as [[<- <-]|[? H1]];
    apply lookup_insert_Some in H2 as [[<- <-]|[? H2]]; simpl in *;
    try done; eapply Hu; eauto.
Qed.

(** ** Signature check of a callback *)

Lemma verify_signature_stored `{PyRuntime} (p : Payment.t) tid sig a ta su fu :
  Esewa.verify_signature (Esewa.init a ta None (Some tid) su fu None) sig
    (verify_data p tid)
  = String.eqb sig (expected_signature (float_str (Payment.amount p)) tid).
Proof. reflexivity. Qed.

(** Unfold [verify_payment] on a stored payment whose signature matches. *)
Ltac verify_accepted Hfind :=
  unfold verify_payment; cbn [payments]; rewrite Hfind;
  rewrite verify_signature_stored;
  rewrite String.eqb_refl; cbn [negb]; unfold derived_effects;
  cbn [bookings rooms].

(** ** C10: a verified booking payment reserves the room *)

(** C10. Whenever [verify_payment] completes a payment of type
    [booking_payment] (the payment is stored under the transaction id and
    the signature matches), the status of the room of its booking is
    [RESERVED] afterwards, whatever the booking's status and the room's
    status were; the other columns of the room, the booking rows and what
    the payment charges are untouched, and the payment row is completed. *)
Theorem verify_booking_payment_reserves_room `{PyRuntime}
    (s : db) (tid ref_id sig : string) (now pid : Z)
    (p : Payment.t) (b : Booking.t) (room : Room.t) :
  payment_by_uuid (payments s) tid = Some (pid, p) →
  sig = expected_signature (float_str (Payment.amount p)) tid →
  Payment.payment_type p = "booking_payment" →
  bookings s !! Payment.booking_id p = Some b →
  rooms s !! Booking.room_id b = Some room →
  let s' := (verify_payment tid ref_id sig now s).1 in
  success (verify_payment tid ref_id sig now s).2 = true ∧
  Room.status <$> rooms s' !! Booking.room_id b = Some RESERVED ∧
  rooms s' !! Booking.room_id b = Some (Room.set_status RESERVED room) ∧
  bookings s' = bookings s ∧
  payments s' !! pid = Some (Payment.complete ref_id sig now p).
Proof.
  intros Hfind -> Hty Hb Hr. verify_accepted Hfind.
  cbn [Payment.complete Payment.booking_id Payment.payment_type].
  rewrite Hb, Hty, Hr. cbn.
  split_and!; [done | by rewrite lookup_insert_eq | apply lookup_insert_eq | done
              | apply lookup_insert_eq].
Qed.

(** The late callback: the booking was rejected and the room is available
    again; the callback of the booking payment is accepted and the room's
    status is [RESERVED] anew. *)
Lemma verify_booking_payment_reserves_room_late_callback :
  let late := @verify_payment Demo.runtime "uuid-1" "ref-1" Scenario.sig_booking 100
                Scenario.rejected in
  Booking.status <$> bookings Scenario.rejected !! 1 = Some REJECTED ∧
  Room.status <$> rooms Scenario.rejected !! 1 = Some AVAILABLE ∧
  success late.2 = true ∧
  Room.status <$> rooms late.1 !! 1 = Some RESERVED ∧
  Booking.status <$> bookings late.1 !! 1 = Some REJECTED.
Proof.
  cbv zeta.
  destruct (@verify_booking_payment_reserves_room Demo.runtime Scenario.rejected
              "uuid-1" "ref-1" Scenario.sig_booking 100 1 Scenario.booking_payment
              Scenario.rejected_booking Scenario.available_room)
    as (W1 & W2 & _ & W3 & _); try (vm_compute; reflexivity).
  split; [vm_compute; reflexivity|]. split; [vm_compute; reflexivity|].
  split; [exact W1|]. split; [exact W2|].
  rewrite W3. vm_compute. reflexivity.
Defined.

(** ** Floats the endpoints test and render *)

(** A positive float is not [<= 0]: the test the endpoints make. *)
Lemma positive_not_le_zero (t : float) :
  PrimFloat.ltb 0%float t = true → PrimFloat.leb t 0%float = false.
Proof.
  rewrite ltb_spec, leb_spec.
  replace (Prim2SF 0%float) with (S754_zero false) by (vm_compute; reflexivity).
  destruct (Prim2SF t) as [s|s| |s m e]; try destruct s; cbn; congruence.
Qed.

(** A float is JSON compliant exactly when it is a zero or a finite
    number. *)
Lemma json_compliant_spec (x : float) :
  json_compliant x = true ↔
  match Prim2SF x with
  | S754_zero _ | S754_finite _ _ _ => True
  | _ => False
  end.
Proof.
  unfold json_compliant, is_finite, is_nan, is_infinity.
  rewrite !FloatAxioms.eqb_spec, abs_spec.
  replace (Prim2SF infinity) with (S754_infinity false) by (vm_compute; reflexivity).
  destruct (Prim2SF x) as [s|s| |s m e]; cbn.
  - done.
  - destruct s; cbn; split; [discriminate|done|discriminate|done].
  - split; [discriminate|done].
  - unfold SFeqb, SFcompare.
    destruct s; rewrite Z.compare_refl, Pos.compare_refl; cbn; done.
Qed.

(** A sum is rendered only if both summands are: an infinity or a NaN
    never adds up to a finite number. *)
Lemma json_compliant_add (x y : float) :
  json_compliant (x + y)%float = true →
  json_compliant x = true ∧ json_compliant y = true.
Proof.
  rewrite !json_compliant_spec, add_spec. unfold SF64add, SFadd.
  destruct (Prim2SF x) as [sx|sx| |sx mx ex], (Prim2SF y) as [sy|sy| |sy my ey];
    try destruct sx; try destruct sy; cbn; tauto.
Qed.

(** [update_room] writes neither [bookings] nor [payments]. *)
Lemma update_room_frame rid d s :
  bookings (update_room rid d s).1 = bookings s ∧
  payments (update_room rid d s).1 = payments s.
Proof. unfold update_room. repeat case_match; done. Qed.

(** ** C7: what a booking request creates, and for whom *)

(** C7, the code at the failing input.  Two tenants are registered.  The
    first one (id 2) requested room 1 and the landlord put the listing
    back to [AVAILABLE]; the second tenant (id 3) has no booking at all,
    the room is available and its deposit and advance are positive: the
    claim promises tenant 3 a booking.  The endpoint never looks at who
    sends the request: it acts for the first tenant row, finds that
    tenant's pending booking and refuses, writing nothing.  On the fresh
    listing the request does go through, and the booking it creates
    belongs to tenant 2. *)
Lemma request_acts_for_first_tenant :
  let s := relisted in
  let r := @create_booking_request Demo.runtime Scenario.request "uuid-2" s in
  let fresh := @create_booking_request Demo.runtime Scenario.request "uuid-1"
                 (@exec Demo.runtime [CreateRoom Scenario.demo_room] two_tenants) in
  User.id <$> users s = [1; 2; 3] ∧
  Room.status <$> rooms s !! 1 = Some AVAILABLE ∧
  Room.security_deposit <$> rooms s !! 1 = Some (Some 5000%float) ∧
  Room.advance_payment <$> rooms s !! 1 = Some (Some 3000%float) ∧
  map_Forall (λ _ b, Booking.tenant_id b ≠ 3) (bookings s) ∧
  r = (s, error_response
            "You already have a pending or approved booking request for this room" 400) ∧
  success fresh.2 = true ∧
  Booking.tenant_id <$> bookings fresh.1 !! 1 = Some 2.
Proof.
  cbv zeta. split_and!; try (vm_compute; reflexivity).
  apply (bool_decide_unpack (map_Forall (λ _ b, Booking.tenant_id b ≠ 3)
                               (bookings relisted))).
  vm_compute. exact I.
Qed.

(** X27. For the tenant the endpoint acts for, a room that is
    [AVAILABLE] with a positive deposit + advance, no pending or approved
    booking of that tenant on that room and dates that parse: whatever
    transaction id is drawn, either a stored payment has it already and
    the request is answered 500 with nothing written, or no stored
    payment has it and [create_booking_request] adds one booking row,
    pending with a pending tenancy, whose rent, deposit and advance are
    the room's values at that moment ([None] read as 0); adds one payment
    row, pending, of type [booking_payment], with that transaction id and
    the amount deposit + advance; and leaves the room with status
    [RESERVED] and its other columns as they were.  The answer is a
    success exactly when the total can be rendered as JSON (it is
    finite); otherwise the rows are stored all the same.  A later
    [update_room] (new prices) leaves the booking rows as they are. *)
Theorem create_booking_request_effect `{PyRuntime}
    (s : db) (booking_data : BookingRequest.t) (transaction_uuid : string)
    (tenant : User.t) (room : Room.t) (start_date : Z) (end_date : option Z) :
  first_user TENANT s = Some tenant →
  rooms s !! BookingRequest.room_id booking_data = Some room →
  Room.status room = AVAILABLE →
  (∀ bid b, bookings s !! bid = Some b →
     ¬ blocks_request (User.id tenant) (BookingRequest.room_id booking_data) b) →
  PrimFloat.ltb 0%float
    (PrimFloat.add (or_zero (Room.security_deposit room))
                   (or_zero (Room.advance_payment room))) = true →
  parse_dates booking_data = Some (start_date, end_date) →
  let r := create_booking_request booking_data transaction_uuid s in
  let s' := r.1 in
  let rid := BookingRequest.room_id booking_data in
  let bid := next_id (bookings s) in
  let pid := next_id (payments s) in
  let total := PrimFloat.add (or_zero (Room.security_deposit room))
                 (or_zero (Room.advance_payment room)) in
  (is_Some (payment_by_uuid (payments s) transaction_uuid) ∧
   r = (s, error_response "Internal server error" 500)) ∨
  (payment_by_uuid (payments s) transaction_uuid = None ∧
   success r.2 = json_compliant total ∧
   (∀ k q, payments s !! k = Some q →
      Payment.transaction_uuid q ≠ Some transaction_uuid) ∧
   Room.status <$> rooms s' !! rid = Some RESERVED ∧
   rooms s' = <[rid := Room.set_status RESERVED room]> (rooms s) ∧
   (∀ rid' d, bookings (update_room rid' d s').1 = bookings s') ∧
   ∃ b p,
     bookings s !! bid = None ∧ bookings s' = <[bid := b]> (bookings s) ∧
     Booking.status b = BOOKING_PENDING ∧
     Booking.tenancy_status b = Some TENANCY_PENDING ∧
     Booking.tenant_id b = User.id tenant ∧
     Booking.room_id b = rid ∧
     Booking.monthly_rent b = Room.price_per_month room ∧
     Booking.security_deposit b = Some (or_zero (Room.security_deposit room)) ∧
     Booking.advance_payment b = Some (or_zero (Room.advance_payment room)) ∧
     payments s !! pid = None ∧ payments s' = <[pid := p]> (payments s) ∧
     Payment.status p = PAYMENT_PENDING ∧
     Payment.payment_type p = "booking_payment" ∧
     Payment.booking_id p = bid ∧
     Payment.transaction_uuid p = Some transaction_uuid ∧
     Payment.amount p = total).
Proof.
  intros Hten Hroom Hav Hnone Hpos Hdates. cbv zeta.
  unfold create_booking_request. rewrite Hten, Hroom.
  rewrite decide_False by (intros Hne; by apply Hne).
  rewrite decide_False.
  2:{ intros (bid & b & Hb & Hblk). by eapply Hnone. }
  rewrite (positive_not_le_zero _ Hpos), Hdates.
  destruct (decide (is_Some (payment_by_uuid (payments s) transaction_uuid)))
    as [Hcoll|Hfresh]; [by left|right].
  assert (Hnone' : payment_by_uuid (payments s) transaction_uuid = None).
  { destruct (payment_by_uuid _ _); [|done]. destruct Hfresh. by eexists. }
  split; [exact Hnone'|].
  set (total := PrimFloat.add _ _).
  assert (Hjson : (json_compliant total
                   && json_compliant (or_zero (Room.security_deposit room))
                   && json_compliant (or_zero (Room.advance_payment room)))%bool
                  = json_compliant total).
  { destruct (json_compliant total) eqn:E; [|done].
    destruct (json_compliant_add _ _ E) as [-> ->]. done. }
  rewrite Hjson.
  assert (Hstate : ∀ (x y : db * response),
            (if json_compliant total then x else y).1
            = if json_compliant total then x.1 else y.1)
    by (intros; by destruct (json_compliant total)).
  split; [by destruct (json_compliant total)|].
  split; [intros k q Hk; by eapply payment_by_uuid_None|].
  destruct (json_compliant total); cbn [fst snd bookings payments rooms].
  all: split; [by rewrite lookup_insert_eq|].
  all: split; [reflexivity|].
  all: split; [intros rid' d; apply update_room_frame|].
  all: eexists _, _; split_and!; try reflexivity; apply next_id_fresh.
Qed.

(** The scenario of the spec: deposit 5000 and advance 3000 give a pending
    payment of 8000 and a reserved room; raising the listing's amounts
    afterwards does not change the booking. *)
Lemma create_booking_request_effect_scenario :
  rooms Scenario.listed !! 1 = Some Scenario.available_room ∧
  bookings Scenario.requested !! 1 = Some Scenario.pending_booking ∧
  payments Scenario.requested !! 1 = Some Scenario.booking_payment ∧
  Room.status <$> rooms Scenario.requested !! 1 = Some RESERVED ∧
  bookings (update_room 1 Scenario.dearer_room Scenario.requested).1 !! 1
  = Some Scenario.pending_booking.
Proof.
  assert (Hb : bookings Scenario.requested !! 1 = Some Scenario.pending_booking)
    by (vm_compute; reflexivity).
  destruct (@create_booking_request_effect Demo.runtime Scenario.listed
              Scenario.request "uuid-1" Scenario.tenant Scenario.available_room
              20250101 None) as [[Hcoll _]|W]; try (vm_compute; reflexivity).
  { intros bid b' Hb'. vm_compute in Hb'. discriminate. }
  { destruct Hcoll as [x Hx]. vm_compute in Hx. discriminate. }
  change (@create_booking_request Demo.runtime Scenario.request "uuid-1"
            Scenario.listed).1 with Scenario.requested in W.
  destruct W as (_ & _ & _ & Hres & _ & Hupd & _).
  split_and!; [vm_compute; reflexivity | exact Hb | vm_compute; reflexivity
              | exact Hres | rewrite Hupd; exact Hb].
Defined.

(** ** C1: approval and deposit verification, in both orders *)

(** A successful approval, spelled out. *)
Lemma approve_booking_pending s bid now landlord b room :
  first_user LANDLORD s = Some landlord →
  bookings s !! bid = Some b →
  Booking.landlord_id b = User.id landlord →
  Booking.status b = BOOKING_PENDING →
  rooms s !! Booking.room_id b = Some room →
  (approve_booking bid now s).1 =
    {| users := users s;
       rooms := <[Booking.room_id b := Room.set_status RESERVED room]> (rooms s);
       bookings := <[bid := Booking.set_approved_at (Some now)
                              (Booking.set_tenancy_status (Some TENANCY_PENDING)
                                 (Booking.set_status APPROVED b))]> (bookings s);
       payments := payments s;
       room_images := room_images s |}.
Proof.
  intros Hl Hb Hown Hst Hr. unfold approve_booking. rewrite Hl, Hb.
  rewrite decide_False by (intros Hne; by apply Hne).
  rewrite decide_False by (intros Hne; by apply Hne).
  cbn. by rewrite Hr.
Qed.

(** Approval never activates: after a successful approval the tenancy is
    pending, whatever payments are stored. *)
Lemma approve_booking_tenancy_pending s bid now b' :
  success (approve_booking bid now s).2 = true →
  bookings (approve_booking bid now s).1 !! bid = Some b' →
  Booking.status b' = APPROVED ∧ Booking.tenancy_status b' = Some TENANCY_PENDING.
Proof.
  unfold approve_booking. repeat case_match; cbn; try discriminate.
  all: intros _; rewrite lookup_insert_eq; intros [= <-]; done.
Qed.

(** A deposit, advance or rent payment is only ever started for an
    approved booking of the tenant: the guard of [initiate_payment]. *)
Lemma initiate_payment_requires_approved `{PyRuntime} bid d u s :
  success (initiate_payment bid d u s).2 = true →
  ∃ b, bookings s !! bid = Some b ∧ Booking.status b = APPROVED.
Proof.
  unfold initiate_payment.
  destruct (first_user TENANT s) as [tenant|]; [|discriminate].
  destruct (bookings s !! bid) as [b|]; [|discriminate].
  destruct (decide (_ ≠ _)); [discriminate|].
  destruct (decide (Booking.status b ≠ APPROVED)) as [|Hst]; [discriminate|].
  intros _. exists b. split; [done|].
  destruct (decide (Booking.status b = APPROVED)); [done|by destruct Hst].
Qed.

(** The guard, from the other side: for a booking of the tenant that is
    not approved the request is refused and nothing is written. *)
Lemma initiate_payment_refused `{PyRuntime} bid d u s tenant b :
  first_user TENANT s = Some tenant →
  bookings s !! bid = Some b →
  Booking.tenant_id b = User.id tenant →
  Booking.status b ≠ APPROVED →
  initiate_payment bid d u s
  = (s, error_response "Booking must be approved before payment" 400).
Proof.
  intros Ht Hb Hown Hst. unfold initiate_payment. rewrite Ht, Hb.
  rewrite decide_False by (intros Hne; by apply Hne).
  by rewrite decide_True.
Qed.

(** The payment [initiate_payment] stores for an approved booking of the
    tenant, an amount that is not [<= 0] and a transaction id no stored
    payment has. *)
Lemma initiate_payment_stores `{PyRuntime} bid d u s tenant b amount :
  first_user TENANT s = Some tenant →
  bookings s !! bid = Some b →
  Booking.tenant_id b = User.id tenant →
  Booking.status b = APPROVED →
  supplemental_amount b (PaymentRequest.payment_type d) = Some amount →
  PrimFloat.leb amount 0%float = false →
  payment_by_uuid (payments s) u = None →
  (initiate_payment bid d u s).1
  = set_payments
      (<[next_id (payments s) :=
           pending_payment bid (User.id tenant) (Booking.landlord_id b) amount
             (PaymentRequest.payment_type d) (PaymentRequest.payment_month d) u]>
         (payments s)) s ∧
  success (initiate_payment bid d u s).2 = json_compliant amount.
Proof.
  intros Ht Hb Hown Hst Hamt Hle Hfresh. unfold initiate_payment.
  rewrite Ht, Hb.
  rewrite decide_False by (intros Hne; by apply Hne).
  rewrite decide_False by (intros Hne; by apply Hne).
  change (if String.eqb (PaymentRequest.payment_type d) "rent"
          then Some (Booking.monthly_rent b)
          else if String.eqb (PaymentRequest.payment_type d) "security_deposit"
               then Some (or_zero (Booking.security_deposit b))
               else if String.eqb (PaymentRequest.payment_type d) "advance"
                    then Some (or_zero (Booking.advance_payment b))
                    else None)
    with (supplemental_amount b (PaymentRequest.payment_type d)).
  rewrite Hamt. cbv zeta. rewrite Hle, Hfresh.
  rewrite decide_False by (by intros [? ?]).
  by destruct (json_compliant amount).
Qed.

(** C1 (amended).  The two orders do not commute, and the code lets only
    one of them happen.  For a pending booking of the tenant, a deposit
    or advance that is not [<= 0] and a transaction id no stored payment
    has: approving, then initiating the deposit (or advance) payment and
    verifying it ends with the booking approved, the tenancy [ACTIVE] and
    the room [OCCUPIED].  With the payment first, [initiate_payment]
    refuses (the booking is not approved) and stores nothing, the callback
    finds no payment, and the approval that follows ends with the booking
    approved, the tenancy [PENDING] and the room [RESERVED]: the approval
    never triggers the active tenancy. *)
Theorem approve_verify_orders `{PyRuntime}
    (s : db) (bid t_approve t_verify : Z) (tid ref_id : string)
    (d : PaymentRequest.t) (landlord tenant : User.t)
    (b : Booking.t) (room : Room.t) (amount : float) :
  first_user LANDLORD s = Some landlord →
  first_user TENANT s = Some tenant →
  bookings s !! bid = Some b →
  Booking.landlord_id b = User.id landlord →
  Booking.tenant_id b = User.id tenant →
  Booking.status b = BOOKING_PENDING →
  rooms s !! Booking.room_id b = Some room →
  PaymentRequest.payment_type d = "security_deposit" ∨
    PaymentRequest.payment_type d = "advance" →
  supplemental_amount b (PaymentRequest.payment_type d) = Some amount →
  PrimFloat.leb amount 0%float = false →
  payment_by_uuid (payments s) tid = None →
  let sig := expected_signature (float_str amount) tid in
  let approve_first :=
    exec [ ApproveBooking bid t_approve; InitiatePayment bid d tid;
           VerifyPayment tid ref_id sig t_verify ] s in
  let verify_first :=
    exec [ InitiatePayment bid d tid; VerifyPayment tid ref_id sig t_verify;
           ApproveBooking bid t_approve ] s in
  (Booking.status <$> bookings approve_first !! bid = Some APPROVED ∧
   Booking.tenancy_status <$> bookings approve_first !! bid = Some (Some ACTIVE) ∧
   Room.status <$> rooms approve_first !! Booking.room_id b = Some OCCUPIED) ∧
  initiate_payment bid d tid s
  = (s, error_response "Booking must be approved before payment" 400) ∧
  verify_payment tid ref_id sig t_verify s
  = (s, error_response "Payment not found" 404) ∧
  (Booking.status <$> bookings verify_first !! bid = Some APPROVED ∧
   Booking.tenancy_status <$> bookings verify_first !! bid
     = Some (Some TENANCY_PENDING) ∧
   Room.status <$> rooms verify_first !! Booking.room_id b = Some RESERVED).
Proof.
  intros Hl Ht Hb Hown Hten Hst Hr Hty Hamt Hle Hfresh sig approve_first verify_first.
  assert (Hrefused : initiate_payment bid d tid s
            = (s, error_response "Booking must be approved before payment" 400)).
  { apply (initiate_payment_refused bid d tid s tenant b); try done.
    rewrite Hst. discriminate. }
  assert (Hmissing : verify_payment tid ref_id sig t_verify s
            = (s, error_response "Payment not found" 404)).
  { unfold verify_payment. by rewrite Hfresh. }
  split; [|split; [exact Hrefused|split; [exact Hmissing|]]].
  - subst approve_first. cbn [exec run].
    rewrite (approve_booking_pending _ _ _ _ _ _ Hl Hb Hown Hst Hr).
    set (b1 := Booking.set_approved_at _ _).
    set (s1 := Build_db _ _ _ _ _).
    destruct (initiate_payment_stores bid d tid s1 tenant b1 amount) as [-> _];
      try done.
    { subst s1. cbn. apply lookup_insert_eq. }
    set (p := pending_payment _ _ _ _ _ _ _).
    assert (Hfind : payment_by_uuid (payments (set_payments
                      (<[next_id (payments s1) := p]> (payments s1)) s1)) tid
                    = Some (next_id (payments s1), p)).
    { cbn [payments set_payments]. by apply payment_by_uuid_insert_fresh. }
    verify_accepted Hfind.
    cbn [set_payments bookings rooms Payment.complete Payment.booking_id
         Payment.payment_type p pending_payment s1].
    rewrite lookup_insert_eq.
    assert (String.eqb (PaymentRequest.payment_type d) "booking_payment" = false) as ->
      by (destruct Hty as [-> | ->]; reflexivity).
    assert ((String.eqb (PaymentRequest.payment_type d) "security_deposit"
             || String.eqb (PaymentRequest.payment_type d) "advance")%bool = true) as ->
      by (destruct Hty as [-> | ->]; reflexivity).
    cbn. rewrite decide_True by done. rewrite lookup_insert_eq.
    cbn. by rewrite !lookup_insert_eq.
  - subst verify_first. cbn [exec run]. rewrite Hrefused. cbn [fst].
    rewrite Hmissing. cbn [fst].
    rewrite (approve_booking_pending _ _ _ landlord b room) by done.
    cbn. by rewrite !lookup_insert_eq.
Qed.

(** The scenario: the pending booking of room 1, its deposit of 5000 and
    the transaction id uuid-2, approval at 200 and callback at 300. *)
Lemma approve_verify_orders_scenario :
  let approve_first :=
    @exec Demo.runtime
      [ ApproveBooking 1 200; InitiatePayment 1 Scenario.deposit_request "uuid-2";
        VerifyPayment "uuid-2" "ref-2" Scenario.sig_deposit 300 ] Scenario.requested in
  let verify_first :=
    @exec Demo.runtime
      [ InitiatePayment 1 Scenario.deposit_request "uuid-2";
        VerifyPayment "uuid-2" "ref-2" Scenario.sig_deposit 300;
        ApproveBooking 1 200 ] Scenario.requested in
  (Booking.status <$> bookings approve_first !! 1 = Some APPROVED ∧
   Booking.tenancy_status <$> bookings approve_first !! 1 = Some (Some ACTIVE) ∧
   Room.status <$> rooms approve_first !! 1 = Some OCCUPIED) ∧
  @initiate_payment Demo.runtime 1 Scenario.deposit_request "uuid-2" Scenario.requested
  = (Scenario.requested,
     error_response "Booking must be approved before payment" 400) ∧
  @verify_payment Demo.runtime "uuid-2" "ref-2" Scenario.sig_deposit 300
    Scenario.requested
  = (Scenario.requested, error_response "Payment not found" 404) ∧
  (Booking.status <$> bookings verify_first !! 1 = Some APPROVED ∧
   Booking.tenancy_status <$> bookings verify_first !! 1
     = Some (Some TENANCY_PENDING) ∧
   Room.status <$> rooms verify_first !! 1 = Some RESERVED).
Proof.
  apply (@approve_verify_orders Demo.runtime Scenario.requested 1 200 300
           "uuid-2" "ref-2" Scenario.deposit_request
           {| User.id := 1; User.user_type := LANDLORD |} Scenario.tenant
           Scenario.pending_booking
           (Room.set_status RESERVED Scenario.available_room)
           5000%float);
    try (vm_compute; reflexivity).
  left. reflexivity.
Defined.

(** C1 fails as stated.  Room 1 is listed and requested, the booking is
    pending.  Approval, deposit payment and its callback, in this order,
    all succeed and end with an active tenancy and an occupied room.  In
    the other order the deposit payment is refused, its callback finds no
    payment, the approval succeeds, and the end is a pending tenancy and a
    reserved room: the two orders end in different states, and the action
    that completes second did not trigger the active tenancy. *)
Lemma verify_then_approve_not_active :
  let s := Scenario.requested in
  let sig := Scenario.sig_deposit in
  let a := approve_booking 1 200 s in
  let ai := @initiate_payment Demo.runtime 1 Scenario.deposit_request "uuid-2" a.1 in
  let aiv := @verify_payment Demo.runtime "uuid-2" "ref-2" sig 300 ai.1 in
  let i := @initiate_payment Demo.runtime 1 Scenario.deposit_request "uuid-2" s in
  let iv := @verify_payment Demo.runtime "uuid-2" "ref-2" sig 300 i.1 in
  let iva := approve_booking 1 200 iv.1 in
  Booking.status <$> bookings s !! 1 = Some BOOKING_PENDING ∧
  success a.2 = true ∧ success ai.2 = true ∧ success aiv.2 = true ∧
  Booking.tenancy_status <$> bookings aiv.1 !! 1 = Some (Some ACTIVE) ∧
  Room.status <$> rooms aiv.1 !! 1 = Some OCCUPIED ∧
  status_code i.2 = 400 ∧ i.1 = s ∧
  status_code iv.2 = 404 ∧ iv.1 = s ∧
  success iva.2 = true ∧
  Booking.status <$> bookings iva.1 !! 1 = Some APPROVED ∧
  Booking.tenancy_status <$> bookings iva.1 !! 1 = Some (Some TENANCY_PENDING) ∧
  Room.status <$> rooms iva.1 !! 1 = Some RESERVED ∧
  bookings iva.1 !! 1 ≠ bookings aiv.1 !! 1.
Proof. vm_compute. split_and!; try reflexivity. discriminate. Qed.

(** ** C2: verifying the same payment again *)

(** The tables after [verify_payment]. *)
Lemma verify_payment_state `{PyRuntime} tid ref_id sig now s :
  (verify_payment tid ref_id sig now s).1 =
  match payment_by_uuid (payments s) tid with
  | Some (pid, p) =>
    if String.eqb sig (expected_signature (float_str (Payment.amount p)) tid) then
      let p' := Payment.complete ref_id sig now p in
      {| users := users s; rooms := (derived_effects p' s).2;
         bookings := (derived_effects p' s).1;
         payments := <[pid := p']> (payments s); room_images := room_images s |}
    else s
  | None => s
  end.
Proof.
  unfold verify_payment. destruct (payment_by_uuid _ _) as [[pid p]|]; [|done].
  rewrite verify_signature_stored. by destruct (String.eqb _ _).
Qed.

(** The derived effects are idempotent: applied to their own result they
    give it back. *)
Lemma derived_effects_twice p s us ps ims :
  derived_effects p
    {| users := us; rooms := (derived_effects p s).2;
       bookings := (derived_effects p s).1; payments := ps;
       room_images := ims |}
  = derived_effects p s.
Proof.
  unfold derived_effects. cbn [bookings rooms].
  destruct (bookings s !! Payment.booking_id p) as [b|] eqn:Hb; cbn [fst snd];
    [|by rewrite Hb].
  destruct (String.eqb (Payment.payment_type p) "booking_payment") eqn:E1; cbn [fst snd].
  { rewrite Hb.
    destruct (rooms s !! Booking.room_id b) as [room|] eqn:Hr; [|by rewrite Hr].
    rewrite lookup_insert_eq. by rewrite insert_insert_eq. }
  destruct (String.eqb (Payment.payment_type p) "security_deposit"
            || String.eqb (Payment.payment_type p) "advance")%bool eqn:E2;
    cbn [fst snd]; [|by rewrite Hb].
  destruct (decide (Booking.status b = APPROVED)) as [Hst|Hst]; cbn [fst snd].
  - rewrite lookup_insert_eq. cbn [Booking.set_tenancy_status Booking.status Booking.room_id].
    rewrite (decide_True _ _ Hst). rewrite insert_insert_eq.
    destruct (rooms s !! Booking.room_id b) as [room|] eqn:Hr; [|by rewrite Hr].
    rewrite lookup_insert_eq. by rewrite insert_insert_eq.
  - rewrite Hb. by rewrite (decide_False _ _ Hst).
Qed.

(** C2 (amended). [verify_payment] does not look at the payment's status.
    Whenever the payment is stored and the signature matches, the payment
    row becomes [Payment.complete ref_id sig now] of the stored row, with
    [completed_at] and the reference id of this call, also when the row
    was completed before.  Two calls in a row with the same signature
    leave the tables exactly as the second call alone: bookings and rooms
    as after one call, the payment row as completed by the later call. *)
Theorem verify_payment_again `{PyRuntime}
    (s : db) (tid ref1 ref2 sig : string) (now1 now2 : Z) :
  uuid_unique (payments s) →
  (∀ pid p,
     payment_by_uuid (payments s) tid = Some (pid, p) →
     sig = expected_signature (float_str (Payment.amount p)) tid →
     payments (verify_payment tid ref2 sig now2 s).1 !! pid
     = Some (Payment.complete ref2 sig now2 p)) ∧
  (verify_payment tid ref2 sig now2 (verify_payment tid ref1 sig now1 s).1).1
  = (verify_payment tid ref2 sig now2 s).1.
Proof.
  intros Hu. split.
  - intros pid p Hfind ->. rewrite verify_payment_state, Hfind, String.eqb_refl.
    cbn. apply lookup_insert_eq.
  - rewrite (verify_payment_state tid ref1).
    destruct (payment_by_uuid (payments s) tid) as [[pid p]|] eqn:Hfind; [|done].
    destruct (String.eqb sig _) eqn:Hsig; [|done].
    pose proof (payment_by_uuid_Some _ _ _ _ Hfind) as [Hp Htid].
    rewrite !verify_payment_state. cbn [payments]. rewrite Hfind.
    rewrite (payment_by_uuid_unique _ tid pid (Payment.complete ref1 sig now1 p)).
    + cbn [Payment.complete Payment.amount]. rewrite Hsig. cbv zeta.
      change (Payment.complete ref2 sig now2 (Payment.complete ref1 sig now1 p))
        with (Payment.complete ref2 sig now2 p).
      change (derived_effects (Payment.complete ref2 sig now2 p)) with (derived_effects p).
      change (derived_effects (Payment.complete ref1 sig now1 p)) with (derived_effects p).
      cbn [users]. rewrite derived_effects_twice. by rewrite insert_insert_eq.
    + by apply uuid_unique_complete.
    + apply lookup_insert_eq.
    + exact Htid.
Qed.

Lemma uuid_unique_check_sound ps : uuid_unique_check ps → uuid_unique ps.
Proof.
  intros Hc i j p q u Hi Hj Hp Hq.
  apply (Hc i p Hi j q Hj); [congruence|]. rewrite Hp. by eexists.
Qed.

(** The repeated callback of the deposit payment, a little later and
    with another reference id. *)
Lemma verify_payment_again_scenario :
  let once :=
    (@verify_payment Demo.runtime "uuid-2" "ref-2" Scenario.sig_deposit 300
       Scenario.deposit_started).1 in
  let later :=
    (@verify_payment Demo.runtime "uuid-2" "ref-3" Scenario.sig_deposit 400
       Scenario.deposit_started).1 in
  let twice :=
    (@verify_payment Demo.runtime "uuid-2" "ref-3" Scenario.sig_deposit 400 once).1 in
  payments later !! 2
  = Some (Payment.complete "ref-3" Scenario.sig_deposit 400 Scenario.deposit_payment) ∧
  twice = later.
Proof.
  cbv zeta.
  destruct (@verify_payment_again Demo.runtime Scenario.deposit_started
              "uuid-2" "ref-2" "ref-3" Scenario.sig_deposit 300 400) as [W1 W2].
  - apply uuid_unique_check_sound.
    apply (bool_decide_unpack (uuid_unique_check (payments Scenario.deposit_started))).
    vm_compute. exact I.
  - split; [|exact W2].
    apply W1; vm_compute; reflexivity.
Defined.

(** C2 fails as stated: the tenancy is active and the room occupied, the
    booking payment was completed at time 100.  The gateway delivers its
    callback again at time 500: the call succeeds, [completed_at] moves
    from 100 to 500 and the room goes from [OCCUPIED] back to [RESERVED]. *)
Lemma verify_payment_again_not_noop :
  let s := Scenario.occupied in
  let again := @verify_payment Demo.runtime "uuid-1" "ref-1" Scenario.sig_booking 500 s in
  Payment.status <$> payments s !! 1 = Some PAYMENT_COMPLETED ∧
  Payment.completed_at <$> payments s !! 1 = Some (Some 100) ∧
  Room.status <$> rooms s !! 1 = Some OCCUPIED ∧
  success again.2 = true ∧
  Payment.completed_at <$> payments again.1 !! 1 = Some (Some 500) ∧
  Room.status <$> rooms again.1 !! 1 = Some RESERVED ∧
  Booking.tenancy_status <$> bookings again.1 !! 1 = Some (Some ACTIVE).
Proof. vm_compute. split_and!; reflexivity. Qed.

(** ** What each endpoint writes

    Every endpoint either answers with an error and leaves the tables as
    they were, or commits the rows described here. *)

Lemma create_room_cases d s :
  (create_room d s).1 = s ∨
  ∃ r ims, Room.status r = AVAILABLE ∧
    (create_room d s).1
    = set_room_images ims (set_rooms (<[next_id (rooms s) := r]> (rooms s)) s).
Proof.
  unfold create_room. repeat case_match; auto.
  all: right; eexists _, _; split; [|reflexivity]; done.
Qed.

Lemma update_room_cases rid d s :
  (update_room rid d s).1 = s ∨
  ∃ r r' ims, rooms s !! rid = Some r ∧ Room.status r' = Room.status r ∧
    (update_room rid d s).1
    = set_room_images ims (set_rooms (<[rid := r']> (rooms s)) s).
Proof.
  unfold update_room. repeat case_match; auto.
  all: right; eexists _, _, _; split; [done|]; split; [|reflexivity]; done.
Qed.

Lemma update_room_status_cases rid d s :
  (update_room_status rid d s).1 = s ∨
  ∃ r st, rooms s !! rid = Some r ∧
          (update_room_status rid d s).1
          = set_rooms (<[rid := Room.set_status st r]> (rooms s)) s.
Proof.
  unfold update_room_status.
  destruct (rooms s !! rid) as [r|] eqn:Hr; [|auto].
  case_match; auto. right. by eexists _, _.
Qed.

Lemma create_booking_request_cases `{PyRuntime} d u s :
  (create_booking_request d u s).1 = s ∨
  ∃ room b p,
    rooms s !! BookingRequest.room_id d = Some room ∧
    Room.status room = AVAILABLE ∧
    Booking.status b = BOOKING_PENDING ∧
    Booking.tenancy_status b = Some TENANCY_PENDING ∧
    Booking.room_id b = BookingRequest.room_id d ∧
    payment_by_uuid (payments s) u = None ∧
    Payment.transaction_uuid p = Some u ∧
    (create_booking_request d u s).1 =
      {| users := users s;
         rooms := <[BookingRequest.room_id d := Room.set_status RESERVED room]> (rooms s);
         bookings := <[next_id (bookings s) := b]> (bookings s);
         payments := <[next_id (payments s) := p]> (payments s);
         room_images := room_images s |}.
Proof.
  unfold create_booking_request.
  destruct (first_user TENANT s) as [tenant|]; [|auto].
  destruct (rooms s !! BookingRequest.room_id d) as [room|] eqn:Hr; [|auto].
  destruct (decide (Room.status room ≠ AVAILABLE)) as [|Hav]; [auto|].
  destruct (decide (map_Exists _ _)); [auto|].
  destruct (PrimFloat.leb _ _); [auto|].
  destruct (parse_dates d) as [[sd ed]|]; [|auto].
  destruct (decide (is_Some _)) as [|Hfresh]; [auto|].
  cbv zeta. destruct (_ && _)%bool; cbn [fst].
  all: right; eexists room, _, _; split_and!; [idtac .. | reflexivity];
    try reflexivity.
  all: try (destruct (decide (Room.status room = AVAILABLE)); [done|by destruct Hav]).
  all: destruct (payment_by_uuid (payments s) u); [|done]; destruct Hfresh; by eexists.
Qed.

Lemma approve_booking_cases bid now s :
  (approve_booking bid now s).1 = s ∨
  ∃ b, bookings s !! bid = Some b ∧ Booking.status b = BOOKING_PENDING ∧
    (approve_booking bid now s).1 =
      {| users := users s;
         rooms := match rooms s !! Booking.room_id b with
                  | Some room =>
                    <[Booking.room_id b := Room.set_status RESERVED room]> (rooms s)
                  | None => rooms s
                  end;
         bookings := <[bid := Booking.set_approved_at (Some now)
                                (Booking.set_tenancy_status (Some TENANCY_PENDING)
                                   (Booking.set_status APPROVED b))]> (bookings s);
         payments := payments s; room_images := room_images s |}.
Proof.
  unfold approve_booking.
  destruct (first_user LANDLORD s) as [landlord|]; [|auto].
  destruct (bookings s !! bid) as [b|] eqn:Hb; [|auto].
  destruct (decide (_ ≠ _)); [auto|].
  destruct (decide (Booking.status b ≠ BOOKING_PENDING)) as [|Hst]; [auto|].
  right. exists b. split_and!; [done| |reflexivity].
  destruct (decide (Booking.status b = BOOKING_PENDING)); [done|by destruct Hst].
Qed.

Lemma reject_booking_cases bid d s :
  (reject_booking bid d s).1 = s ∨
  ∃ b text, bookings s !! bid = Some b ∧
    (reject_booking bid d s).1 =
      {| users := users s;
         rooms := match rooms s !! Booking.room_id b with
                  | Some room =>
                    <[Booking.room_id b := Room.set_status AVAILABLE room]> (rooms s)
                  | None => rooms s
                  end;
         bookings := <[bid := Booking.set_landlord_response (Some text)
                                (Booking.set_status REJECTED b)]> (bookings s);
         payments := payments s; room_images := room_images s |}.
Proof.
  unfold reject_booking.
  destruct (first_user LANDLORD s) as [landlord|]; [|auto].
  destruct (bookings s !! bid) as [b|] eqn:Hb; [|auto].
  destruct (decide (_ ≠ _)); [auto|].
  right. by eexists b, _.
Qed.

Lemma initiate_payment_cases `{PyRuntime} bid d u s :
  (initiate_payment bid d u s).1 = s ∨
  ∃ p, payment_by_uuid (payments s) u = None ∧
       Payment.transaction_uuid p = Some u ∧
       (initiate_payment bid d u s).1
       = set_payments (<[next_id (payments s) := p]> (payments s)) s.
Proof.
  unfold initiate_payment. repeat case_match; auto.
  all: right; eexists; split_and!; [idtac .. | reflexivity]; [|reflexivity].
  all: match goal with
  | H : ¬ is_Some ?x |- ?x = None => destruct x; [destruct H; by eexists|done]
  end.
Qed.

(** The derived effects of a verified payment, row by row: booking rows
    keep their status and room and at most gain an active tenancy, which
    only an approved booking does; a room row is left alone or becomes
    reserved or occupied. *)
Lemma derived_effects_bookings p s bid b' :
  (derived_effects p s).1 !! bid = Some b' →
  ∃ b, bookings s !! bid = Some b ∧
       Booking.status b' = Booking.status b ∧
       Booking.room_id b' = Booking.room_id b ∧
       (b' = b ∨ Booking.tenancy_status b' = Some ACTIVE ∧ Booking.status b = APPROVED).
Proof.
  unfold derived_effects.
  destruct (bookings s !! Payment.booking_id p) as [b0|] eqn:Hb0; cbn [fst];
    [|by eauto 10].
  destruct (String.eqb _ "booking_payment"); cbn [fst]; [by eauto 10|].
  destruct (_ || _)%bool; cbn [fst]; [|by eauto 10].
  destruct (decide (Booking.status b0 = APPROVED)) as [Hst|]; cbn [fst]; [|by eauto 10].
  intros [[<- <-]|[? Hb]]%lookup_insert_Some; [|by eauto 10].
  exists b0. split_and!; auto.
Qed.

Lemma derived_effects_bookings_dom p s bid b :
  bookings s !! bid = Some b → is_Some ((derived_effects p s).1 !! bid).
Proof.
  unfold derived_effects. intros Hb.
  repeat case_match; cbn [fst]; try (by eexists).
  all: destruct (decide (Payment.booking_id p = bid)) as [->|];
    [rewrite lookup_insert_eq|rewrite lookup_insert_ne by done]; by eexists.
Qed.

Lemma derived_effects_rooms p s rid r' :
  (derived_effects p s).2 !! rid = Some r' →
  ∃ r, rooms s !! rid = Some r ∧
       (r' = r ∨ Room.status r' = RESERVED ∨ Room.status r' = OCCUPIED).
Proof.
  unfold derived_effects.
  repeat case_match; cbn [snd]; eauto;
    intros [[<- <-]|[? Hr]]%lookup_insert_Some; eauto.
Qed.

Lemma derived_effects_rooms_dom p s rid r :
  rooms s !! rid = Some r → is_Some ((derived_effects p s).2 !! rid).
Proof.
  unfold derived_effects. intros Hr.
  repeat case_match; cbn [snd]; try (by eexists).
  all: match goal with
       | |- is_Some (<[?k := _]> _ !! _) =>
         destruct (decide (k = rid)) as [->|];
           [rewrite lookup_insert_eq|rewrite lookup_insert_ne by done]; by eexists
       end.
Qed.

(** ** C5: the transitions of a booking's status *)

(** C5 (amended). One operation changes the status of a stored booking
    in two ways only: [approve_booking] moves a pending booking to
    approved, and [reject_booking] moves a booking of any status to
    rejected (approved, cancelled and completed ones too: it does not
    look at the status).  Every other operation, and these two on other
    bookings, keep the status; no operation removes a booking.  Hence a
    rejected booking stays rejected, and a booking row that appears is
    pending. *)
Theorem booking_status_transitions `{PyRuntime}
    (o : op) (s : db) (bid : Z) (b : Booking.t) :
  bookings s !! bid = Some b →
  (∃ b', bookings (run o s).1 !! bid = Some b' ∧
     (Booking.status b' = Booking.status b ∨
      (Booking.status b = BOOKING_PENDING ∧ Booking.status b' = APPROVED ∧
       ∃ now, o = ApproveBooking bid now) ∨
      (Booking.status b' = REJECTED ∧ ∃ d, o = RejectBooking bid d)) ∧
     (Booking.status b = REJECTED → Booking.status b' = REJECTED)) ∧
  (∀ new b', bookings s !! new = None →
     bookings (run o s).1 !! new = Some b' → Booking.status b' = BOOKING_PENDING).
Proof.
  intros Hb.
  assert (Hsame : ∀ s', bookings s' = bookings s →
    (∃ b', bookings s' !! bid = Some b' ∧
       (Booking.status b' = Booking.status b ∨
        (Booking.status b = BOOKING_PENDING ∧ Booking.status b' = APPROVED ∧
         ∃ now, o = ApproveBooking bid now) ∨
        (Booking.status b' = REJECTED ∧ ∃ d, o = RejectBooking bid d)) ∧
       (Booking.status b = REJECTED → Booking.status b' = REJECTED)) ∧
    (∀ new b', bookings s !! new = None →
       bookings s' !! new = Some b' → Booking.status b' = BOOKING_PENDING)).
  { intros s' ->. split; [by eauto 10|]. intros new b' Hn Hn'. congruence. }
  destruct o as [d|rid d|rid d|d u|i now|i d|i d u|tid r g now]; cbn [run].
  - destruct (create_room_cases d s) as [->|(r & ims & _ & ->)]; by apply Hsame.
  - destruct (update_room_cases rid d s) as [->|(r & r' & ims & _ & _ & ->)]; by apply Hsame.
  - destruct (update_room_status_cases rid d s) as [->|(r & st & _ & ->)]; by apply Hsame.
  - destruct (create_booking_request_cases d u s)
      as [->|(room & nb & p & _ & _ & Hst & _ & _ & _ & _ & ->)]; [by apply Hsame|].
    cbn [bookings]. split.
    + exists b. rewrite lookup_insert_ne; [by auto|].
      intros E. pose proof (next_id_fresh (bookings s)) as Hf. congruence.
    + intros new b' Hn [[_ <-]|[_ Hn']]%lookup_insert_Some; [done|congruence].
  - destruct (approve_booking_cases i now s) as [->|(b0 & Hb0 & Hst & ->)];
      [by apply Hsame|].
    cbn [bookings]. split.
    + destruct (decide (i = bid)) as [->|Hne].
      * rewrite lookup_insert_eq. eexists. split; [done|]. simplify_eq.
        split; [|cbn; congruence]. right. left. by eauto.
      * rewrite lookup_insert_ne by done. by eauto 10.
    + intros new b' Hn [[<- _]|[_ Hn']]%lookup_insert_Some; congruence.
  - destruct (reject_booking_cases i d s) as [->|(b0 & text & Hb0 & ->)];
      [by apply Hsame|].
    cbn [bookings]. split.
    + destruct (decide (i = bid)) as [->|Hne].
      * rewrite lookup_insert_eq. eexists. split; [done|].
        split; [|done]. right. right. by eauto.
      * rewrite lookup_insert_ne by done. by eauto 10.
    + intros new b' Hn [[<- _]|[_ Hn']]%lookup_insert_Some; congruence.
  - destruct (initiate_payment_cases i d u s) as [->|(p & _ & _ & ->)]; by apply Hsame.
  - rewrite verify_payment_state.
    destruct (payment_by_uuid (payments s) tid) as [[pid p]|]; [|by apply Hsame].
    destruct (String.eqb _ _); [|by apply Hsame].
    cbn [bookings]. split.
    + destruct (derived_effects_bookings_dom (Payment.complete r g now p) s bid b Hb)
        as [b' Hb'].
      exists b'. split; [done|].
      apply derived_effects_bookings in Hb' as (b0 & Hb0 & Hst & _). simplify_eq.
      split; [by left|congruence].
    + intros new b' Hn Hn'.
      apply derived_effects_bookings in Hn' as (b0 & Hb0 & _). congruence.
Qed.

(** A rejected booking stays rejected when the landlord tries to approve
    it after all. *)
Lemma booking_status_transitions_scenario :
  bookings Scenario.rejected !! 1 = Some Scenario.rejected_booking ∧
  Booking.status <$>
    bookings (@run Demo.runtime (ApproveBooking 1 200) Scenario.rejected).1 !! 1
  = Some REJECTED.
Proof.
  split; [vm_compute; reflexivity|].
  destruct (@booking_status_transitions Demo.runtime (ApproveBooking 1 200)
              Scenario.rejected 1 Scenario.rejected_booking)
    as [(b' & Hb' & _ & Habs) _]; [vm_compute; reflexivity|].
  rewrite Hb'. cbn. f_equal. apply Habs. reflexivity.
Defined.

(** C5 fails as stated: [reject_booking] succeeds on an approved booking
    and moves it to rejected, a transition outside the listed ones; it
    also moves a cancelled booking to rejected. *)
Lemma reject_leaves_listed_transitions :
  let s := Scenario.deposit_started in
  let r := reject_booking 1 None s in
  let c := reject_booking 1 None Scenario.cancelled_db in
  Booking.status <$> bookings s !! 1 = Some APPROVED ∧
  success r.2 = true ∧
  Booking.status <$> bookings r.1 !! 1 = Some REJECTED ∧
  Booking.status <$> bookings Scenario.cancelled_db !! 1 = Some CANCELLED ∧
  success c.2 = true ∧
  Booking.status <$> bookings c.1 !! 1 = Some REJECTED.
Proof. vm_compute. split_and!; reflexivity. Qed.

(** ** C4: an active tenancy and its booking's status *)

(** Every operation but [reject_booking] keeps active tenancies on
    approved bookings. *)
Lemma active_implies_approved_kept `{PyRuntime} (o : op) (s : db) :
  (∀ i d, o ≠ RejectBooking i d) →
  active_implies_approved s → active_implies_approved (run o s).1.
Proof.
  intros Hnot Hinv.
  destruct o as [d|rid d|rid d|d u|i now|i d|i d u|tid r g now]; cbn [run].
  - by destruct (create_room_cases d s) as [->|(r & ims & _ & ->)].
  - by destruct (update_room_cases rid d s) as [->|(r & r' & ims & _ & _ & ->)].
  - by destruct (update_room_status_cases rid d s) as [->|(r & st & _ & ->)].
  - destruct (create_booking_request_cases d u s)
      as [->|(room & nb & p & _ & _ & Hst & Hten & _ & _ & _ & ->)]; [done|].
    intros bid b Hb Hact. cbn [bookings] in Hb.
    apply lookup_insert_Some in Hb as [[_ <-]|[_ Hb]]; [congruence|by eapply Hinv].
  - destruct (approve_booking_cases i now s) as [->|(b0 & Hb0 & Hst & ->)]; [done|].
    intros bid b Hb Hact. cbn [bookings] in Hb.
    apply lookup_insert_Some in Hb as [[_ <-]|[_ Hb]]; [done|by eapply Hinv].
  - by destruct (Hnot i d).
  - by destruct (initiate_payment_cases i d u s) as [->|(p & _ & _ & ->)].
  - rewrite verify_payment_state.
    destruct (payment_by_uuid (payments s) tid) as [[pid p]|]; [|done].
    destruct (String.eqb _ _); [|done].
    intros bid b Hb Hact. cbn [bookings] in Hb.
    apply derived_effects_bookings in Hb as (b0 & Hb0 & Hst & _ & [->|[_ Happ]]).
    + by eapply Hinv.
    + congruence.
Qed.

(** C4, the code at the failing input: the tenancy of booking 1 is active
    and its booking approved; [reject_booking] succeeds, sets the status
    to rejected and leaves [tenancy_status] active. *)
Lemma reject_leaves_tenancy_active :
  let s := Scenario.occupied in
  let r := reject_booking 1 None s in
  active_implies_approved s ∧
  Booking.status <$> bookings s !! 1 = Some APPROVED ∧
  Booking.tenancy_status <$> bookings s !! 1 = Some (Some ACTIVE) ∧
  success r.2 = true ∧
  Booking.status <$> bookings r.1 !! 1 = Some REJECTED ∧
  Booking.tenancy_status <$> bookings r.1 !! 1 = Some (Some ACTIVE) ∧
  ¬ active_implies_approved r.1.
Proof.
  cbv zeta. split.
  { apply (bool_decide_unpack
             (map_Forall (λ _ b, Booking.tenancy_status b = Some ACTIVE →
                                 Booking.status b = APPROVED)
                (bookings Scenario.occupied))).
    vm_compute. exact I. }
  split_and!; try (vm_compute; reflexivity).
  intros Hinv.
  destruct (bookings (reject_booking 1 None Scenario.occupied).1 !! 1) as [b|] eqn:Hb;
    [|vm_compute in Hb; discriminate].
  pose proof (Hinv 1 b Hb) as Hbad.
  revert Hb Hbad. vm_compute. intros [= <-] Hbad.
  specialize (Hbad eq_refl). discriminate.
Qed.

(** ** C3: available rooms have no pending or approved booking *)

Lemma is_Some_insert {A} (m : gmap Z A) i j x :
  is_Some (m !! j) → is_Some (<[i := x]> m !! j).
Proof. intros ?. apply lookup_insert_is_Some'. by right. Qed.

(** One operation that keeps rooms reserved keeps the invariant, and the
    foreign key with it. *)
Lemma run_keeps_rooms_reserved `{PyRuntime} (o : op) (s : db) :
  keeps_rooms_reserved o s →
  bookings_have_rooms s → available_rooms_free s →
  bookings_have_rooms (run o s).1 ∧ available_rooms_free (run o s).1.
Proof.
  intros Hkeep Hhave Hfree.
  destruct o as [d|rid0 d|rid0 d|d u|i now|i d|i d u|tid rf g now]; cbn [run].
  - destruct (create_room_cases d s) as [->|(r & ims & Hav & ->)]; [done|]. split.
    + intros bid b Hb. cbn. apply is_Some_insert. by eapply Hhave.
    + intros rid r0 bid b Hr Hst Hb Hrid. cbn in Hr, Hb.
      apply lookup_insert_Some in Hr as [[<- <-]|[_ Hr]]; [|by eapply Hfree].
      destruct (Hhave _ _ Hb) as [x Hx]. rewrite Hrid, next_id_fresh in Hx. done.
  - destruct (update_room_cases rid0 d s) as [->|(r & r' & ims & Hr0 & Hsame & ->)]; [done|].
    split.
    + intros bid b Hb. cbn. apply is_Some_insert. by eapply Hhave.
    + intros rid r0 bid b Hr Hst Hb Hrid. cbn in Hr, Hb.
      apply lookup_insert_Some in Hr as [[<- <-]|[_ Hr]]; [|by eapply Hfree].
      eapply (Hfree rid0 r); eauto. congruence.
  - done.
  - destruct (create_booking_request_cases d u s)
      as [->|(room & nb & p & Hroom & Hav & Hst & _ & Hnb & _ & _ & ->)]; [done|].
    split.
    + intros bid b Hb. cbn in *.
      apply lookup_insert_Some in Hb as [[_ <-]|[_ Hb]].
      * rewrite Hnb, lookup_insert_eq. by eexists.
      * apply is_Some_insert. by eapply Hhave.
    + intros rid r0 bid b Hr Hst0 Hb Hrid. cbn in Hr, Hb.
      apply lookup_insert_Some in Hr as [[<- <-]|[Hne Hr]]; [done|].
      apply lookup_insert_Some in Hb as [[_ <-]|[_ Hb]]; [congruence|].
      by eapply Hfree.
  - destruct (approve_booking_cases i now s) as [->|(b0 & Hb0 & Hst & ->)]; [done|].
    destruct (Hhave _ _ Hb0) as [room Hroom]. rewrite Hroom. split.
    + intros bid b Hb. cbn in *.
      apply lookup_insert_Some in Hb as [[_ <-]|[_ Hb]]; cbn.
      * rewrite lookup_insert_eq. by eexists.
      * apply is_Some_insert. by eapply Hhave.
    + intros rid r0 bid b Hr Hst0 Hb Hrid. cbn in Hr, Hb.
      apply lookup_insert_Some in Hr as [[<- <-]|[Hne Hr]]; [done|].
      apply lookup_insert_Some in Hb as [[_ <-]|[_ Hb]]; [done|].
      by eapply Hfree.
  - destruct (reject_booking_cases i d s) as [->|(b0 & text & Hb0 & ->)]; [done|].
    destruct (Hhave _ _ Hb0) as [room Hroom]. rewrite Hroom. split.
    + intros bid b Hb. cbn in *.
      apply lookup_insert_Some in Hb as [[_ <-]|[_ Hb]]; cbn.
      * rewrite lookup_insert_eq. by eexists.
      * apply is_Some_insert. by eapply Hhave.
    + intros rid r0 bid b Hr Hst0 Hb Hrid. cbn in Hr, Hb.
      apply lookup_insert_Some in Hb as [[-> <-]|[Hbne Hb]].
      { intros [Hl|Hl]; cbn in Hl; discriminate. }
      apply lookup_insert_Some in Hr as [[<- <-]|[Hne Hr]]; [|by eapply Hfree].
      cbn in Hkeep. rewrite Hb0 in Hkeep. by apply (Hkeep bid b).
  - by destruct (initiate_payment_cases i d u s) as [->|(p & _ & _ & ->)].
  - rewrite verify_payment_state.
    destruct (payment_by_uuid (payments s) tid) as [[pid p]|]; [|done].
    destruct (String.eqb _ _); [|done]. cbv zeta. split.
    + intros bid b Hb. cbn in *.
      apply derived_effects_bookings in Hb as (b0 & Hb0 & _ & -> & _).
      destruct (Hhave _ _ Hb0) as [r0 Hr0].
      by eapply derived_effects_rooms_dom.
    + intros rid r0 bid b Hr Hst0 Hb Hrid. cbn in Hr, Hb.
      apply derived_effects_rooms in Hr as (r1 & Hr1 & [->|[?|?]]); [|congruence..].
      apply derived_effects_bookings in Hb as (b1 & Hb1 & Hst1 & Hrid1 & _).
      intros Hl. apply (Hfree rid r1 bid b1); auto; [congruence|].
      unfold live in *. by rewrite <- Hst1.
Qed.

(** C3 (amended). With every booking's room present (the foreign key),
    the invariant "an [AVAILABLE] room has no pending or approved booking"
    holds in every state reached by a trace of [create_room],
    [update_room], [create_booking_request], [approve_booking],
    [initiate_payment] and [verify_payment], and of [reject_booking] where
    no other pending or approved booking is on the rejected booking's
    room.  [update_room_status] is not among these operations. *)
Theorem available_rooms_free_along `{PyRuntime} (os : list op) (s : db) :
  keeps_along os s →
  bookings_have_rooms s → available_rooms_free s →
  bookings_have_rooms (exec os s) ∧ available_rooms_free (exec os s).
Proof.
  revert s. induction os as [|o os IH]; intros s Hkeep Hhave Hfree; [done|].
  destruct Hkeep as [Ho Hos]. cbn [exec].
  destruct (run_keeps_rooms_reserved o s Ho Hhave Hfree) as [Hhave' Hfree'].
  by apply IH.
Qed.

Lemma bookings_have_rooms_check_sound s :
  bookings_have_rooms_check s → bookings_have_rooms s.
Proof. intros Hc bid b Hb. exact (Hc bid b Hb). Qed.

Lemma available_rooms_free_check_sound s :
  available_rooms_free_check s → available_rooms_free s.
Proof. intros Hc rid r bid b Hr Hst Hb Hrid. exact (Hc rid r Hr Hst bid b Hb Hrid). Qed.

(** From the empty tables to an occupied room and on to the landlord's
    rejection: the invariant holds at the end, where the room is available
    again. *)
Lemma available_rooms_free_along_scenario :
  let os := [CreateRoom Scenario.demo_room;
             CreateBookingRequest Scenario.request "uuid-1";
             VerifyPayment "uuid-1" "ref-1" Scenario.sig_booking 100;
             ApproveBooking 1 200;
             InitiatePayment 1 Scenario.deposit_request "uuid-2";
             VerifyPayment "uuid-2" "ref-2" Scenario.sig_deposit 300;
             RejectBooking 1 None] in
  let s' := @exec Demo.runtime os Scenario.db0 in
  Room.status <$> rooms s' !! 1 = Some AVAILABLE ∧
  bookings_have_rooms s' ∧ available_rooms_free s'.
Proof.
  cbv zeta. split; [vm_compute; reflexivity|].
  apply (@available_rooms_free_along Demo.runtime).
  - match goal with
    | |- ?P => apply (bool_decide_unpack P)
    end.
    vm_compute. exact I.
  - intros bid b Hb. vm_compute in Hb. discriminate.
  - intros rid r bid b Hr. vm_compute in Hr. discriminate.
Defined.

(** C3 fails as stated.  The room has a pending booking and is reserved;
    [update_room_status] without a status toggles it to [AVAILABLE].  And
    with lifecycle operations alone: a second request is pending on the
    room when the landlord rejects the first, already rejected booking
    once more; the room becomes [AVAILABLE] under the pending request. *)
Lemma available_room_with_pending_booking :
  let s := Scenario.requested in
  let t := update_room_status 1 Scenario.toggle s in
  let r := reject_booking 1 None Scenario.requested_again in
  available_rooms_free s ∧
  success t.2 = true ∧
  Room.status <$> rooms t.1 !! 1 = Some AVAILABLE ∧
  Booking.status <$> bookings t.1 !! 1 = Some BOOKING_PENDING ∧
  ¬ available_rooms_free t.1 ∧
  available_rooms_free Scenario.requested_again ∧
  success r.2 = true ∧
  Room.status <$> rooms r.1 !! 1 = Some AVAILABLE ∧
  Booking.status <$> bookings r.1 !! 2 = Some BOOKING_PENDING ∧
  ¬ available_rooms_free r.1.
Proof.
  cbv zeta. split_and!; try (vm_compute; reflexivity).
  - apply available_rooms_free_check_sound.
    apply (bool_decide_unpack (available_rooms_free_check Scenario.requested)).
    vm_compute. exact I.
  - intros Hinv.
    apply (Hinv 1 (Room.set_status AVAILABLE Scenario.available_room)
             1 Scenario.pending_booking); try (vm_compute; reflexivity).
    left. reflexivity.
  - apply available_rooms_free_check_sound.
    apply (bool_decide_unpack (available_rooms_free_check Scenario.requested_again)).
    vm_compute. exact I.
  - intros Hinv.
    apply (Hinv 1 (Room.set_status AVAILABLE Scenario.available_room)
             2 Scenario.pending_booking); try (vm_compute; reflexivity).
    left. reflexivity.
Qed.

(** ** C6: who writes [Room.status] *)

(** C6 (amended). [create_room] stores the new room as [AVAILABLE] and
    leaves every other room as it is; [update_room], the listing edit,
    keeps the status of every room.  But the listing router also has
    [update_room_status], which writes [Room.status] directly: a named
    status is stored as given ([OCCUPIED] and [RESERVED] too), and without
    one the room toggles between [AVAILABLE] and [OCCUPIED]; no booking is
    consulted. *)
Theorem listing_operations_and_status
    (s : db) (d : RoomCreateRequest.t) (rid0 rid : Z) (r r' : Room.t)
    (v : string) (st : RoomStatus) :
  (rooms (create_room d s).1 !! rid = Some r' →
   rooms s !! rid = Some r' ∨ (rooms s !! rid = None ∧ Room.status r' = AVAILABLE)) ∧
  (rooms (update_room rid0 d s).1 !! rid = Some r' →
   ∃ r0, rooms s !! rid = Some r0 ∧ Room.status r' = Room.status r0) ∧
  (rooms s !! rid0 = Some r → v ≠ "" → RoomStatus_of_value (lower v) = Some st →
   rooms (update_room_status rid0 {| StatusUpdateRequest.new_status := Some v |} s).1
     !! rid0 = Some (Room.set_status st r)) ∧
  (rooms s !! rid0 = Some r →
   rooms (update_room_status rid0 {| StatusUpdateRequest.new_status := None |} s).1
     !! rid0
   = Some (Room.set_status
             (if decide (Room.status r = AVAILABLE) then OCCUPIED else AVAILABLE) r)).
Proof.
  split_and!.
  - destruct (create_room_cases d s) as [->|(r1 & ims & Hav & ->)]; [by left|].
    cbn. intros [[<- <-]|[_ Hr]]%lookup_insert_Some; [|by left].
    right. split; [apply next_id_fresh|done].
  - destruct (update_room_cases rid0 d s) as [->|(r1 & r1' & ims & Hr1 & Hsame & ->)];
      [by eauto|].
    cbn. intros [[<- <-]|[_ Hr]]%lookup_insert_Some; by eauto.
  - intros Hr Hv Hst. unfold update_room_status. rewrite Hr. cbn.
    destruct (String.eqb v "") eqn:E; [by apply String.eqb_eq in E|].
    rewrite Hst. cbn. apply lookup_insert_eq.
  - intros Hr. unfold update_room_status. rewrite Hr. cbn.
    destruct (decide (Room.status r = AVAILABLE)); cbn; apply lookup_insert_eq.
Qed.

(** On the listed room: an edit with new prices keeps [AVAILABLE]; the
    status endpoint stores [RESERVED] when asked to. *)
Lemma listing_operations_and_status_scenario :
  rooms (update_room 1 Scenario.dearer_room Scenario.listed).1 !! 1
  = Some Scenario.edited_room ∧
  (∃ r0, rooms Scenario.listed !! 1 = Some r0 ∧
         Room.status Scenario.edited_room = Room.status r0) ∧
  rooms (update_room_status 1 {| StatusUpdateRequest.new_status := Some "Reserved" |}
           Scenario.listed).1 !! 1
  = Some (Room.set_status RESERVED Scenario.available_room).
Proof.
  destruct (listing_operations_and_status Scenario.listed Scenario.dearer_room 1 1
              Scenario.available_room Scenario.edited_room "Reserved" RESERVED)
    as (_ & W2 & W3 & _).
  split; [vm_compute; reflexivity|]. split.
  - apply W2. vm_compute. reflexivity.
  - apply W3; [vm_compute; reflexivity|discriminate|vm_compute; reflexivity].
Defined.

(** C6 fails as stated: on a listed, available room with no booking at
    all, [update_room_status] succeeds and stores [OCCUPIED] (no status
    given) or [RESERVED] (status given). *)
Lemma listing_endpoint_sets_occupied_and_reserved :
  let s := Scenario.listed in
  let t := update_room_status 1 Scenario.toggle s in
  let r := update_room_status 1 {| StatusUpdateRequest.new_status := Some "reserved" |} s in
  bookings s = ∅ ∧
  Room.status <$> rooms s !! 1 = Some AVAILABLE ∧
  success t.2 = true ∧ Room.status <$> rooms t.1 !! 1 = Some OCCUPIED ∧
  success r.2 = true ∧ Room.status <$> rooms r.1 !! 1 = Some RESERVED.
Proof. vm_compute. split_and!; reflexivity. Qed.

(** ** C9 and C8: signatures *)

Lemma append_length (a r : string) :
  String.length (a +:+ r) = (String.length a + String.length r)%nat.
Proof. induction a as [|c a IH]; simpl; [done|by f_equal]. Qed.

Lemma append_cancel_r (a a' r : string) : a +:+ r = a' +:+ r → a = a'.
Proof.
  intros E.
  assert (Hlen : String.length a = String.length a').
  { assert (E' : String.length (a +:+ r) = String.length (a' +:+ r)) by (by rewrite E).
    rewrite !append_length in E'. lia. }
  revert a' E Hlen. induction a as [|c a IH]; intros [|c' a'] E Hlen;
    cbn in *; try done.
  injection E as -> E. f_equal. apply IH; [done|lia].
Qed.

(** The canonical string determines the amount text. *)
Lemma string_to_sign_amount (a a' t p : string) :
  Esewa.string_to_sign a t p = Esewa.string_to_sign a' t p → a = a'.
Proof.
  unfold Esewa.string_to_sign. intros E.
  apply (String.app_inj "total_amount=") in E.
  by apply append_cancel_r in E.
Qed.




(** C8. [verify_payment] has no amount among its arguments: for a stored
    payment the callback is accepted exactly when the signature is the
    one expected for the transaction id and the stored row's amount.
    Hence the signature the adapter computes for the same transaction id
    and an amount whose text differs from the stored amount's is answered
    with "Invalid signature" and the tables stay as they were, the one
    proviso being that the two different canonical strings are not an
    HMAC-SHA256 collision. *)
Theorem verify_payment_uses_stored_amount `{PyRuntime}
    (s : db) (tid ref_id sig : string) (now pid : Z) (p : Payment.t)
    (amount' : float) (success_url failure_url : string) :
  payment_by_uuid (payments s) tid = Some (pid, p) →
  (success (verify_payment tid ref_id sig now s).2 = true ↔
   sig = expected_signature (float_str (Payment.amount p)) tid) ∧
  (let forged :=
     Esewa.init amount' (Some amount') None (Some tid) success_url failure_url None in
   float_str (Esewa.total_amount forged) ≠ float_str (Payment.amount p) →
   ¬ collides Esewa.TEST_SECRET_KEY
       (Esewa.string_to_sign (float_str (Esewa.total_amount forged)) tid
          Esewa.TEST_PRODUCT_CODE)
       (Esewa.string_to_sign (float_str (Payment.amount p)) tid
          Esewa.TEST_PRODUCT_CODE) →
   verify_payment tid ref_id (Esewa.generate_signature forged).1 now s
   = (s, error_response "Invalid signature" 400)).
Proof.
  intros Hfind. split.
  - unfold verify_payment. rewrite Hfind, verify_signature_stored.
    destruct (String.eqb sig _) eqn:E; cbn.
    + apply String.eqb_eq in E. done.
    + apply String.eqb_neq in E. split; [discriminate|done].
  - intros forged Hne Hnc. unfold verify_payment.
    rewrite Hfind, verify_signature_stored.
    assert (String.eqb (Esewa.generate_signature forged).1
              (expected_signature (float_str (Payment.amount p)) tid) = false) as ->;
      [|done].
    apply String.eqb_neq. intros E. apply Hnc. split; [|exact E].
    intros Hs. apply Hne. by eapply string_to_sign_amount.
Qed.

(** The booking payment of 8000 is stored under uuid-1: the signature for
    8000 is accepted, the adapter's signature for an amount of 1 is not. *)
Lemma verify_payment_uses_stored_amount_scenario :
  let forged := Esewa.init 1%float (Some 1%float) None (Some "uuid-1")
                  Esewa.default_success_url Esewa.default_failure_url None in
  success (@verify_payment Demo.runtime "uuid-1" "ref-1" Scenario.sig_booking 100
             Scenario.requested).2 = true ∧
  @verify_payment Demo.runtime "uuid-1" "ref-1"
    (@Esewa.generate_signature Demo.runtime forged).1 100 Scenario.requested
  = (Scenario.requested, error_response "Invalid signature" 400).
Proof.
  cbv zeta.
  destruct (@verify_payment_uses_stored_amount Demo.runtime Scenario.requested
              "uuid-1" "ref-1" Scenario.sig_booking 100 1 Scenario.booking_payment
              1%float Esewa.default_success_url Esewa.default_failure_url)
    as [W1 W2]; [vm_compute; reflexivity|].
  split.
  - apply W1. vm_compute. reflexivity.
  - apply W2.
    + intros E. vm_compute in E. discriminate.
    + intros [_ E]. vm_compute in E. discriminate.
Defined.

(** * Further properties of the endpoints *)

(** ** A refused request changes nothing *)

(** X1. For each of the eight writing endpoints: when the response is an
    error with a status code below 500 (a refusal: 400, 403 or 404), the
    tables are exactly as they were before.  The answers with code 500 are
    left out: four endpoints give one after their commit, with the rows
    stored. *)
Theorem refused_operation_changes_nothing `{PyRuntime} (o : op) (s : db) :
  success (run o s).2 = false → status_code (run o s).2 < 500 → (run o s).1 = s.
Proof.
  destruct o as [d|rid d|rid d|d u|i now|i d|i d u|tid r g now]; cbn [run].
  - unfold create_room. repeat case_match; cbn; intros; done || lia.
  - unfold update_room. repeat case_match; cbn; intros; done || lia.
  - unfold update_room_status. repeat case_match; cbn; done.
  - unfold create_booking_request. repeat case_match; cbn; intros; done || lia.
  - unfold approve_booking. repeat case_match; cbn; done.
  - unfold reject_booking. repeat case_match; cbn; done.
  - unfold initiate_payment. repeat case_match; cbn; intros; done || lia.
  - unfold verify_payment. repeat case_match; cbn; done.
Qed.

(** The refused approval of the rejected request leaves the tables. *)
Lemma refused_operation_changes_nothing_scenario :
  (@run Demo.runtime (ApproveBooking 1 200) Scenario.rejected).2
  = error_response "Booking is already rejected" 400 ∧
  (@run Demo.runtime (ApproveBooking 1 200) Scenario.rejected).1 = Scenario.rejected.
Proof.
  split; [vm_compute; reflexivity|].
  apply (@refused_operation_changes_nothing Demo.runtime); vm_compute; reflexivity.
Defined.

(** ** What the booking endpoints commit

    Each endpoint either refuses, with the tables as they were, or it has
    passed its guards and committed.  The two that put a float into their
    response, [create_booking_request] and [initiate_payment], have
    committed before the response is rendered: the lemmas give the stored
    rows whether or not the response is a success. *)

Lemma create_booking_request_commit `{PyRuntime} d u s :
  ((create_booking_request d u s).1 = s ∧
   success (create_booking_request d u s).2 = false) ∨
  ∃ tenant room sd ed,
    first_user TENANT s = Some tenant ∧
    rooms s !! BookingRequest.room_id d = Some room ∧
    Room.status room = AVAILABLE ∧
    ¬ map_Exists (λ _ b, blocks_request (User.id tenant)
                    (BookingRequest.room_id d) b) (bookings s) ∧
    PrimFloat.leb (PrimFloat.add (or_zero (Room.security_deposit room))
                     (or_zero (Room.advance_payment room))) 0%float = false ∧
    parse_dates d = Some (sd, ed) ∧
    payment_by_uuid (payments s) u = None ∧
    (create_booking_request d u s).1 =
      {| users := users s;
         rooms := <[BookingRequest.room_id d := Room.set_status RESERVED room]> (rooms s);
         bookings := <[next_id (bookings s) := requested_booking tenant room d sd ed]>
                       (bookings s);
         payments :=
           <[next_id (payments s) :=
               pending_payment (next_id (bookings s)) (User.id tenant)
                 (Room.owner_id room)
                 (PrimFloat.add (or_zero (Room.security_deposit room))
                    (or_zero (Room.advance_payment room)))
                 "booking_payment" None u]> (payments s);
         room_images := room_images s |}.
Proof.
  unfold create_booking_request.
  destruct (first_user TENANT s) as [tenant|]; [|by left].
  destruct (rooms s !! BookingRequest.room_id d) as [room|] eqn:Hr; [|by left].
  destruct (decide (Room.status room ≠ AVAILABLE)) as [|Hav]; [by left|].
  destruct (decide (map_Exists _ _)) as [|Hno]; [by left|].
  destruct (PrimFloat.leb _ _) eqn:Hle; [by left|].
  destruct (parse_dates d) as [[sd ed]|]; [|by left].
  destruct (decide (is_Some _)) as [|Hfresh]; [by left|].
  right. exists tenant, room, sd, ed. split_and!; try done.
  - destruct (decide (Room.status room = AVAILABLE)); [done|by destruct Hav].
  - destruct (payment_by_uuid (payments s) u); [|done]. destruct Hfresh. by eexists.
  - cbv zeta. by destruct (_ && _)%bool.
Qed.

Lemma approve_booking_commit bid now s :
  ((approve_booking bid now s).1 = s ∧ success (approve_booking bid now s).2 = false) ∨
  ∃ landlord b,
    first_user LANDLORD s = Some landlord ∧
    bookings s !! bid = Some b ∧
    Booking.landlord_id b = User.id landlord ∧
    Booking.status b = BOOKING_PENDING ∧
    (approve_booking bid now s).1 =
      {| users := users s;
         rooms := match rooms s !! Booking.room_id b with
                  | Some room =>
                    <[Booking.room_id b := Room.set_status RESERVED room]> (rooms s)
                  | None => rooms s
                  end;
         bookings := <[bid := Booking.set_approved_at (Some now)
                                (Booking.set_tenancy_status (Some TENANCY_PENDING)
                                   (Booking.set_status APPROVED b))]> (bookings s);
         payments := payments s; room_images := room_images s |}.
Proof.
  unfold approve_booking.
  destruct (first_user LANDLORD s) as [landlord|]; [|by left].
  destruct (bookings s !! bid) as [b|] eqn:Hb; [|by left].
  destruct (decide (Booking.landlord_id b ≠ _)) as [|Hown]; [by left|].
  destruct (decide (Booking.status b ≠ BOOKING_PENDING)) as [|Hst]; [by left|].
  right. exists landlord, b. split_and!; try done.
  - destruct (decide (Booking.landlord_id b = User.id landlord)); [done|by destruct Hown].
  - destruct (decide (Booking.status b = BOOKING_PENDING)); [done|by destruct Hst].
Qed.

Lemma reject_booking_commit bid d s :
  ((reject_booking bid d s).1 = s ∧ success (reject_booking bid d s).2 = false) ∨
  ∃ landlord b,
    first_user LANDLORD s = Some landlord ∧
    bookings s !! bid = Some b ∧
    Booking.landlord_id b = User.id landlord ∧
    (reject_booking bid d s).1 =
      {| users := users s;
         rooms := match rooms s !! Booking.room_id b with
                  | Some room =>
                    <[Booking.room_id b := Room.set_status AVAILABLE room]> (rooms s)
                  | None => rooms s
                  end;
         bookings :=
           <[bid := Booking.set_landlord_response
                      (Some (str_or (r ← d; RejectRequest.landlord_response r)
                               "Booking rejected"))
                      (Booking.set_status REJECTED b)]> (bookings s);
         payments := payments s; room_images := room_images s |}.
Proof.
  unfold reject_booking.
  destruct (first_user LANDLORD s) as [landlord|]; [|by left].
  destruct (bookings s !! bid) as [b|] eqn:Hb; [|by left].
  destruct (decide (Booking.landlord_id b ≠ _)) as [|Hown]; [by left|].
  right. exists landlord, b. split_and!; try done.
  destruct (decide (Booking.landlord_id b = User.id landlord)); [done|by destruct Hown].
Qed.

Lemma initiate_payment_commit `{PyRuntime} bid d u s :
  ((initiate_payment bid d u s).1 = s ∧
   success (initiate_payment bid d u s).2 = false) ∨
  ∃ tenant b amount,
    first_user TENANT s = Some tenant ∧
    bookings s !! bid = Some b ∧
    Booking.tenant_id b = User.id tenant ∧
    Booking.status b = APPROVED ∧
    supplemental_amount b (PaymentRequest.payment_type d) = Some amount ∧
    PrimFloat.leb amount 0%float = false ∧
    payment_by_uuid (payments s) u = None ∧
    (initiate_payment bid d u s).1 =
      set_payments
        (<[next_id (payments s) :=
             pending_payment bid (User.id tenant) (Booking.landlord_id b) amount
               (PaymentRequest.payment_type d) (PaymentRequest.payment_month d) u]>
           (payments s)) s.
Proof.
  unfold initiate_payment.
  destruct (first_user TENANT s) as [tenant|]; [|by left].
  destruct (bookings s !! bid) as [b|] eqn:Hb; [|by left].
  destruct (decide (Booking.tenant_id b ≠ _)) as [|Hown]; [by left|].
  destruct (decide (Booking.status b ≠ APPROVED)) as [|Hst]; [by left|].
  change (if String.eqb (PaymentRequest.payment_type d) "rent"
          then Some (Booking.monthly_rent b)
          else if String.eqb (PaymentRequest.payment_type d) "security_deposit"
               then Some (or_zero (Booking.security_deposit b))
               else if String.eqb (PaymentRequest.payment_type d) "advance"
                    then Some (or_zero (Booking.advance_payment b))
                    else None)
    with (supplemental_amount b (PaymentRequest.payment_type d)).
  destruct (supplemental_amount b _) as [amount|] eqn:Hamt; [|by left].
  destruct (PrimFloat.leb amount 0) eqn:Hle; [by left|].
  destruct (decide (is_Some _)) as [|Hfresh]; [by left|].
  right. exists tenant, b, amount. split_and!; try done.
  - destruct (decide (Booking.tenant_id b = User.id tenant)); [done|by destruct Hown].
  - destruct (decide (Booking.status b = APPROVED)); [done|by destruct Hst].
  - destruct (payment_by_uuid (payments s) u); [|done]. destruct Hfresh. by eexists.
  - cbv zeta. by destruct (json_compliant amount).
Qed.

Lemma verify_payment_commit `{PyRuntime} tid r g now s :
  ((verify_payment tid r g now s).1 = s ∧
   success (verify_payment tid r g now s).2 = false) ∨
  ∃ pid p,
    payment_by_uuid (payments s) tid = Some (pid, p) ∧
    g = expected_signature (float_str (Payment.amount p)) tid ∧
    (verify_payment tid r g now s).1 =
      {| users := users s;
         rooms := (derived_effects (Payment.complete r g now p) s).2;
         bookings := (derived_effects (Payment.complete r g now p) s).1;
         payments := <[pid := Payment.complete r g now p]> (payments s);
         room_images := room_images s |}.
Proof.
  rewrite verify_payment_state. unfold verify_payment.
  destruct (payment_by_uuid (payments s) tid) as [[pid p]|]; [|by left].
  rewrite verify_signature_stored.
  destruct (String.eqb g _) eqn:E; [|by left].
  right. exists pid, p. split_and!; try done. by apply String.eqb_eq.
Qed.

Lemma create_booking_request_result `{PyRuntime} d u s :
  success (create_booking_request d u s).2 = true →
  ∃ tenant room sd ed,
    first_user TENANT s = Some tenant ∧
    rooms s !! BookingRequest.room_id d = Some room ∧
    Room.status room = AVAILABLE ∧
    ¬ map_Exists (λ _ b, blocks_request (User.id tenant)
                    (BookingRequest.room_id d) b) (bookings s) ∧
    PrimFloat.leb (PrimFloat.add (or_zero (Room.security_deposit room))
                     (or_zero (Room.advance_payment room))) 0%float = false ∧
    parse_dates d = Some (sd, ed) ∧
    payment_by_uuid (payments s) u = None ∧
    (create_booking_request d u s).1 =
      {| users := users s;
         rooms := <[BookingRequest.room_id d := Room.set_status RESERVED room]> (rooms s);
         bookings := <[next_id (bookings s) := requested_booking tenant room d sd ed]>
                       (bookings s);
         payments :=
           <[next_id (payments s) :=
               pending_payment (next_id (bookings s)) (User.id tenant)
                 (Room.owner_id room)
                 (PrimFloat.add (or_zero (Room.security_deposit room))
                    (or_zero (Room.advance_payment room)))
                 "booking_payment" None u]> (payments s);
         room_images := room_images s |}.
Proof.
  intros Hok. destruct (create_booking_request_commit d u s) as [[_ Hf]|Hc]; [|exact Hc].
  congruence.
Qed.

Lemma approve_booking_result bid now s :
  success (approve_booking bid now s).2 = true →
  ∃ landlord b,
    first_user LANDLORD s = Some landlord ∧
    bookings s !! bid = Some b ∧
    Booking.landlord_id b = User.id landlord ∧
    Booking.status b = BOOKING_PENDING ∧
    (approve_booking bid now s).1 =
      {| users := users s;
         rooms := match rooms s !! Booking.room_id b with
                  | Some room =>
                    <[Booking.room_id b := Room.set_status RESERVED room]> (rooms s)
                  | None => rooms s
                  end;
         bookings := <[bid := Booking.set_approved_at (Some now)
                                (Booking.set_tenancy_status (Some TENANCY_PENDING)
                                   (Booking.set_status APPROVED b))]> (bookings s);
         payments := payments s; room_images := room_images s |}.
Proof.
  intros Hok. destruct (approve_booking_commit bid now s) as [[_ Hf]|Hc]; [|exact Hc].
  congruence.
Qed.

Lemma reject_booking_result bid d s :
  success (reject_booking bid d s).2 = true →
  ∃ landlord b,
    first_user LANDLORD s = Some landlord ∧
    bookings s !! bid = Some b ∧
    Booking.landlord_id b = User.id landlord ∧
    (reject_booking bid d s).1 =
      {| users := users s;
         rooms := match rooms s !! Booking.room_id b with
                  | Some room =>
                    <[Booking.room_id b := Room.set_status AVAILABLE room]> (rooms s)
                  | None => rooms s
                  end;
         bookings :=
           <[bid := Booking.set_landlord_response
                      (Some (str_or (r ← d; RejectRequest.landlord_response r)
                               "Booking rejected"))
                      (Booking.set_status REJECTED b)]> (bookings s);
         payments := payments s; room_images := room_images s |}.
Proof.
  intros Hok. destruct (reject_booking_commit bid d s) as [[_ Hf]|Hc]; [|exact Hc].
  congruence.
Qed.

Lemma initiate_payment_result `{PyRuntime} bid d u s :
  success (initiate_payment bid d u s).2 = true →
  ∃ tenant b amount,
    first_user TENANT s = Some tenant ∧
    bookings s !! bid = Some b ∧
    Booking.tenant_id b = User.id tenant ∧
    Booking.status b = APPROVED ∧
    supplemental_amount b (PaymentRequest.payment_type d) = Some amount ∧
    PrimFloat.leb amount 0%float = false ∧
    payment_by_uuid (payments s) u = None ∧
    (initiate_payment bid d u s).1 =
      set_payments
        (<[next_id (payments s) :=
             pending_payment bid (User.id tenant) (Booking.landlord_id b) amount
               (PaymentRequest.payment_type d) (PaymentRequest.payment_month d) u]>
           (payments s)) s.
Proof.
  intros Hok. destruct (initiate_payment_commit bid d u s) as [[_ Hf]|Hc]; [|exact Hc].
  congruence.
Qed.

Lemma verify_payment_result `{PyRuntime} tid r g now s :
  success (verify_payment tid r g now s).2 = true →
  ∃ pid p,
    payment_by_uuid (payments s) tid = Some (pid, p) ∧
    g = expected_signature (float_str (Payment.amount p)) tid ∧
    (verify_payment tid r g now s).1 =
      {| users := users s;
         rooms := (derived_effects (Payment.complete r g now p) s).2;
         bookings := (derived_effects (Payment.complete r g now p) s).1;
         payments := <[pid := Payment.complete r g now p]> (payments s);
         room_images := room_images s |}.
Proof.
  intros Hok. destruct (verify_payment_commit tid r g now s) as [[_ Hf]|Hc]; [|exact Hc].
  congruence.
Qed.

Lemma run_users `{PyRuntime} (o : op) (s : db) : users (run o s).1 = users s.
Proof.
  destruct o; cbn [run].
  - unfold create_room. repeat case_match; done.
  - unfold update_room. repeat case_match; done.
  - unfold update_room_status. repeat case_match; done.
  - unfold create_booking_request. repeat case_match; done.
  - unfold approve_booking. repeat case_match; done.
  - unfold reject_booking. repeat case_match; done.
  - unfold initiate_payment. repeat case_match; done.
  - unfold verify_payment. repeat case_match; done.
Qed.

Lemma first_user_users ty s s' : users s' = users s → first_user ty s' = first_user ty s.
Proof. unfold first_user. by intros ->. Qed.

(** ** A requested room takes no second request *)

(** X2. After a booking request went through, every further request for the
    same room, whoever makes it and whatever its dates, is answered with
    400 "Room is not available for booking" and writes nothing. *)
Theorem requested_room_refuses_requests `{PyRuntime}
    (d d' : BookingRequest.t) (u u' : string) (s : db) :
  success (create_booking_request d u s).2 = true →
  BookingRequest.room_id d' = BookingRequest.room_id d →
  create_booking_request d' u' (create_booking_request d u s).1
  = ((create_booking_request d u s).1,
     error_response "Room is not available for booking" 400).
Proof.
  intros Hok Hroom.
  destruct (create_booking_request_result d u s Hok)
    as (tenant & room & sd & ed & Ht & Hr & Hav & _ & _ & _ & _ & ->).
  unfold create_booking_request at 1. unfold first_user in *. cbn [users rooms].
  rewrite Ht, Hroom, lookup_insert_eq. cbn.
  reflexivity.
Qed.

Lemma requested_room_refuses_requests_scenario :
  @create_booking_request Demo.runtime Scenario.request "uuid-9" Scenario.requested
  = (Scenario.requested, error_response "Room is not available for booking" 400).
Proof.
  apply (@requested_room_refuses_requests Demo.runtime Scenario.request
           Scenario.request "uuid-1" "uuid-9" Scenario.listed).
  - vm_compute. reflexivity.
  - reflexivity.
Defined.

(** ** Deciding a booking twice *)

(** X3. A booking that was approved cannot be approved again: the second
    call answers 400 "Booking is already approved" and writes nothing. *)
Theorem approve_booking_twice (bid now now' : Z) (s : db) :
  success (approve_booking bid now s).2 = true →
  approve_booking bid now' (approve_booking bid now s).1
  = ((approve_booking bid now s).1,
     error_response "Booking is already approved" 400).
Proof.
  intros Hok.
  destruct (approve_booking_result bid now s Hok)
    as (landlord & b & Hl & Hb & Hown & Hst & ->).
  unfold approve_booking at 1. unfold first_user in *. cbn [users bookings].
  rewrite Hl, lookup_insert_eq. cbn.
  rewrite decide_False by (intros E; apply E; exact Hown).
  reflexivity.
Qed.

Lemma approve_booking_twice_scenario :
  approve_booking 1 250 (approve_booking 1 200 Scenario.requested).1
  = ((approve_booking 1 200 Scenario.requested).1,
     error_response "Booking is already approved" 400).
Proof. apply approve_booking_twice. vm_compute. reflexivity. Defined.

(** X4. A booking that was rejected cannot be approved afterwards: the call
    answers 400 "Booking is already rejected" and writes nothing. *)
Theorem approve_after_reject (bid now : Z) (d : option RejectRequest.t) (s : db) :
  success (reject_booking bid d s).2 = true →
  approve_booking bid now (reject_booking bid d s).1
  = ((reject_booking bid d s).1,
     error_response "Booking is already rejected" 400).
Proof.
  intros Hok.
  destruct (reject_booking_result bid d s Hok)
    as (landlord & b & Hl & Hb & Hown & ->).
  unfold approve_booking. unfold first_user in *. cbn [users bookings].
  rewrite Hl, lookup_insert_eq. cbn.
  rewrite decide_False by (intros E; apply E; exact Hown).
  reflexivity.
Qed.

Lemma approve_after_reject_scenario :
  approve_booking 1 200 (reject_booking 1 None Scenario.requested).1
  = ((reject_booking 1 None Scenario.requested).1,
     error_response "Booking is already rejected" 400).
Proof. apply approve_after_reject. vm_compute. reflexivity. Defined.

(** X5. Rejecting is idempotent: the same rejection sent twice leaves the
    tables and the answer of the first one, whether that one succeeded
    or failed. *)
Theorem reject_booking_idempotent (bid : Z) (d : option RejectRequest.t) (s : db) :
  reject_booking bid d (reject_booking bid d s).1 = reject_booking bid d s.
Proof.
  destruct (success (reject_booking bid d s).2) eqn:Hok.
  - destruct (reject_booking_result bid d s Hok)
      as (landlord & b & Hl & Hb & Hown & Hs).
    rewrite Hs at 1. unfold reject_booking. unfold first_user in *.
    cbn [users bookings rooms].
    rewrite Hl, Hb, lookup_insert_eq. cbn.
    rewrite !decide_False by (intros E; apply E; exact Hown).
    destruct (rooms s !! Booking.room_id b) as [room|] eqn:Hr; cbn.
    + rewrite lookup_insert_eq, !insert_insert_eq. destruct b, room; reflexivity.
    + rewrite Hr, !insert_insert_eq. destruct b; reflexivity.
  - assert ((reject_booking bid d s).1 = s) as Hsame; [|by rewrite Hsame].
    revert Hok. unfold reject_booking. repeat case_match; done.
Qed.

(** ** The text a rejection stores *)

(** X6. A successful rejection stores status [REJECTED] and a landlord
    response that is never missing or empty: it is the text sent with the
    request when there is a non-empty one, and "Booking rejected" when
    the request has no body, no text or an empty text. *)
Theorem reject_booking_response_text (bid : Z) (d : option RejectRequest.t) (s : db) :
  success (reject_booking bid d s).2 = true →
  ∃ b' text,
    bookings (reject_booking bid d s).1 !! bid = Some b' ∧
    Booking.status b' = REJECTED ∧
    Booking.landlord_response b' = Some text ∧ text ≠ "" ∧
    (d = Some {| RejectRequest.landlord_response := Some text |} ∨
     text = "Booking rejected" ∧
     ∀ t, d = Some {| RejectRequest.landlord_response := Some t |} → t = "").
Proof.
  intros Hok.
  destruct (reject_booking_result bid d s Hok) as (landlord & b & _ & Hb & _ & ->).
  cbn [bookings]. rewrite lookup_insert_eq. eexists _, _.
  split; [reflexivity|]. split; [reflexivity|]. split; [reflexivity|].
  destruct d as [[[t|]]|]; cbn.
  - destruct (String.eqb t "") eqn:E.
    + apply String.eqb_eq in E as ->. split; [done|]. right. split; [done|].
      by intros t [= <-].
    + apply String.eqb_neq in E. split; [done|]. by left.
  - split; [done|]. right. split; [done|]. intros t. discriminate.
  - split; [done|]. right. split; [done|]. intros t. discriminate.
Qed.

Lemma reject_booking_response_text_scenario :
  ∃ b' text,
    bookings (reject_booking 1 (Some {| RejectRequest.landlord_response := Some "" |})
                Scenario.requested).1 !! 1 = Some b' ∧
    Booking.status b' = REJECTED ∧
    Booking.landlord_response b' = Some text ∧ text ≠ "" ∧
    (Some {| RejectRequest.landlord_response := Some "" |}
     = Some {| RejectRequest.landlord_response := Some text |} ∨
     text = "Booking rejected" ∧
     ∀ t, Some {| RejectRequest.landlord_response := Some "" |}
          = Some {| RejectRequest.landlord_response := Some t |} → t = "").
Proof. apply reject_booking_response_text. vm_compute. reflexivity. Defined.

(** ** The form a tenant is handed is the one the callback accepts *)

Lemma not_le_zero_truthy (t : float) :
  PrimFloat.leb t 0%float = false → float_truthy t = true.
Proof.
  unfold float_truthy. rewrite FloatAxioms.leb_spec, FloatAxioms.eqb_spec.
  replace (Prim2SF 0%float) with (S754_zero false) by (vm_compute; reflexivity).
  destruct (Prim2SF t) as [s|s| |s m e]; try destruct s; cbn; congruence.
Qed.

Lemma issued_form_success `{PyRuntime} (o : op) (s : db) u form :
  issued_form (data (run o s).2) = Some (u, form) → success (run o s).2 = true.
Proof.
  destruct o; cbn [run].
  - unfold create_room. repeat case_match; cbn; done.
  - unfold update_room. repeat case_match; cbn; done.
  - unfold update_room_status. repeat case_match; cbn; done.
  - unfold create_booking_request. repeat case_match; cbn; done.
  - unfold approve_booking. repeat case_match; cbn; done.
  - unfold reject_booking. repeat case_match; cbn; done.
  - unfold initiate_payment. repeat case_match; cbn; done.
  - unfold verify_payment. repeat case_match; cbn; done.
Qed.

Lemma create_booking_request_form `{PyRuntime} d u s u' form sig :
  issued_form (data (create_booking_request d u s).2) = Some (u', form) →
  form !! "signature" = Some (Some sig) →
  u' = u ∧
  ∃ pid p, payment_by_uuid (payments (create_booking_request d u s).1) u = Some (pid, p) ∧
           sig = expected_signature (float_str (Payment.amount p)) u.
Proof.
  intros Hform Hsig.
  pose proof (issued_form_success (CreateBookingRequest d u) s u' form Hform) as Hok.
  cbn [run] in Hok.
  destruct (create_booking_request_result d u s Hok)
    as (tenant & room & sd & ed & Ht & Hr & Hav & Hno & Hle & Hd & Hfresh & Hs).
  rewrite Hs. cbn [payments].
  revert Hform. unfold create_booking_request.
  rewrite Ht, Hr, Hd, Hle, Hfresh.
  rewrite decide_False by (intros E; by apply E).
  rewrite (decide_False (P := map_Exists _ _)) by done.
  rewrite decide_False by (by intros [? ?]).
  cbv zeta. destruct (_ && _)%bool; [|done].
  cbn [snd data success_response issued_form]. intros [= <- <-].
  split; [done|]. eexists _, _. split.
  - by apply payment_by_uuid_insert_fresh.
  - cbn [pending_payment Payment.amount].
    revert Hsig. unfold Esewa.generate_form_data, Esewa.init. cbn [Esewa.signature].
    rewrite (not_le_zero_truthy _ Hle).
    intros Hsig. change (Some (Some (expected_signature (float_str
      (PrimFloat.add (or_zero (Room.security_deposit room))
                     (or_zero (Room.advance_payment room)))) u)) = Some (Some sig))
      in Hsig. congruence.
Qed.

Lemma initiate_payment_form `{PyRuntime} bid d u s u' form sig :
  issued_form (data (initiate_payment bid d u s).2) = Some (u', form) →
  form !! "signature" = Some (Some sig) →
  u' = u ∧
  ∃ pid p, payment_by_uuid (payments (initiate_payment bid d u s).1) u = Some (pid, p) ∧
           sig = expected_signature (float_str (Payment.amount p)) u.
Proof.
  intros Hform Hsig.
  pose proof (issued_form_success (InitiatePayment bid d u) s u' form Hform) as Hok.
  cbn [run] in Hok.
  destruct (initiate_payment_result bid d u s Hok)
    as (tenant & b & amount & Ht & Hb & Hown & Hst & Hamt & Hle & Hfresh & Hs).
  rewrite Hs. cbn [payments set_payments].
  revert Hform. unfold initiate_payment.
  rewrite Ht, Hb.
  rewrite decide_False by (intros E; by apply E).
  rewrite decide_False by (intros E; by apply E).
  change (if String.eqb (PaymentRequest.payment_type d) "rent"
          then Some (Booking.monthly_rent b)
          else if String.eqb (PaymentRequest.payment_type d) "security_deposit"
               then Some (or_zero (Booking.security_deposit b))
               else if String.eqb (PaymentRequest.payment_type d) "advance"
                    then Some (or_zero (Booking.advance_payment b))
                    else None)
    with (supplemental_amount b (PaymentRequest.payment_type d)).
  rewrite Hamt. cbv zeta. rewrite Hle, Hfresh.
  rewrite decide_False by (by intros [? ?]).
  destruct (json_compliant amount); [|done].
  cbn [snd data success_response issued_form]. intros [= <- <-].
  split; [done|]. eexists _, _. split.
  - by apply payment_by_uuid_insert_fresh.
  - cbn [pending_payment Payment.amount].
    revert Hsig. unfold Esewa.generate_form_data, Esewa.init. cbn [Esewa.signature].
    rewrite (not_le_zero_truthy _ Hle).
    intros Hsig.
    change (Some (Some (expected_signature (float_str amount) u)) = Some (Some sig))
      in Hsig. congruence.
Qed.

(** X7. Whenever an endpoint answers with a gateway form (a booking request
    or a later payment that went through), the signature in that form,
    sent back with the form's transaction id, is accepted by
    [verify_payment] in the state the endpoint left. *)
Theorem issued_signature_is_accepted `{PyRuntime}
    (o : op) (s : db) (u : string) (form : gmap string (option string))
    (sig ref_id : string) (now : Z) :
  issued_form (data (run o s).2) = Some (u, form) →
  form !! "signature" = Some (Some sig) →
  success (verify_payment u ref_id sig now (run o s).1).2 = true.
Proof.
  intros Hform Hsig.
  assert (∃ pid p, payment_by_uuid (payments (run o s).1) u = Some (pid, p) ∧
                   sig = expected_signature (float_str (Payment.amount p)) u)
    as (pid & p & Hfind & ->).
  { destruct o; cbn [run] in *.
    - exfalso. revert Hform. unfold create_room. repeat case_match; cbn; done.
    - exfalso. revert Hform. unfold update_room. repeat case_match; cbn; done.
    - exfalso. revert Hform. unfold update_room_status. repeat case_match; cbn; done.
    - destruct (create_booking_request_form _ _ _ _ _ _ Hform Hsig) as [-> ?]. done.
    - exfalso. revert Hform. unfold approve_booking. repeat case_match; cbn; done.
    - exfalso. revert Hform. unfold reject_booking. repeat case_match; cbn; done.
    - destruct (initiate_payment_form _ _ _ _ _ _ _ Hform Hsig) as [-> ?]. done.
    - exfalso. revert Hform. unfold verify_payment. repeat case_match; cbn; done. }
  unfold verify_payment. rewrite Hfind, verify_signature_stored, String.eqb_refl.
  reflexivity.
Qed.

(** The form answered to the scenario's booking request carries the
    signature the callback for uuid-1 is then accepted with. *)
Lemma issued_signature_is_accepted_scenario :
  let o := CreateBookingRequest Scenario.request "uuid-1" in
  issued_form (data (@run Demo.runtime o Scenario.listed).2)
  = Some ("uuid-1", booking_form) ∧
  booking_form !! "signature" = Some (Some Scenario.sig_booking) ∧
  success (@verify_payment Demo.runtime "uuid-1" "ref-1" Scenario.sig_booking 100
             (@run Demo.runtime o Scenario.listed).1).2 = true.
Proof.
  cbv zeta.
  assert (H1 : issued_form (data (@run Demo.runtime
                 (CreateBookingRequest Scenario.request "uuid-1") Scenario.listed).2)
               = Some ("uuid-1", booking_form)) by reflexivity.
  assert (H2 : booking_form !! "signature" = Some (Some Scenario.sig_booking))
    by (vm_compute; reflexivity).
  split; [exact H1|]. split; [exact H2|].
  exact (@issued_signature_is_accepted Demo.runtime
           (CreateBookingRequest Scenario.request "uuid-1") Scenario.listed
           "uuid-1" booking_form Scenario.sig_booking "ref-1" 100 H1 H2).
Defined.

(** ** Later payments are priced from the booking, not from the listing *)

Lemma initiate_payment_reads `{PyRuntime} bid d u s s' :
  users s' = users s → bookings s' = bookings s → payments s' = payments s →
  (initiate_payment bid d u s').2 = (initiate_payment bid d u s).2 ∧
  payments (initiate_payment bid d u s').1 = payments (initiate_payment bid d u s).1.
Proof.
  intros Hu Hb Hp. unfold initiate_payment, first_user. rewrite Hu, Hb, Hp.
  repeat case_match; cbn; by rewrite ?Hp.
Qed.

(** X8. [initiate_payment] after an edit of any listing answers exactly as it
    would have before the edit (same amount, same form) and stores the
    same payment rows: the amounts come from the booking's copy of the
    prices. *)
Theorem initiate_payment_ignores_listing_edit `{PyRuntime}
    (rid bid : Z) (rd : RoomCreateRequest.t) (d : PaymentRequest.t)
    (u : string) (s : db) :
  (initiate_payment bid d u (update_room rid rd s).1).2
  = (initiate_payment bid d u s).2 ∧
  payments (initiate_payment bid d u (update_room rid rd s).1).1
  = payments (initiate_payment bid d u s).1.
Proof.
  destruct (update_room_frame rid rd s) as [Hb Hp].
  apply initiate_payment_reads; [|done..].
  unfold update_room. repeat case_match; done.
Qed.

(** ** Invariants of the tables *)

Lemma exec_invariant `{PyRuntime} (P : db → Prop) :
  (∀ o s, P s → P (run o s).1) → ∀ os s, P s → P (exec os s).
Proof.
  intros Hstep os. induction os as [|o os IH]; intros s Hs; [done|].
  cbn [exec]. apply IH. by apply Hstep.
Qed.

Lemma or_zero_idemp (x : option float) : or_zero (Some (or_zero x)) = or_zero x.
Proof.
  destruct x as [v|]; cbn; [|done].
  destruct (float_truthy v) eqn:E; [by rewrite E|done].
Qed.

(** The [payments] table after one operation: untouched, one pending row
    more under a fresh key and a fresh transaction id, or one row
    completed by an accepted callback. *)
Lemma run_payments_cases `{PyRuntime} (o : op) (s : db) :
  payments (run o s).1 = payments s ∨
  (∃ bid t l a ty m u b,
     payment_by_uuid (payments s) u = None ∧
     bookings (run o s).1 !! bid = Some b ∧
     amount_due b ty = Some a ∧ PrimFloat.leb a 0%float = false ∧
     payments (run o s).1
     = <[next_id (payments s) := pending_payment bid t l a ty m u]> (payments s)) ∨
  (∃ pid p r u now,
     payment_by_uuid (payments s) u = Some (pid, p) ∧
     payments (run o s).1
     = <[pid := Payment.complete r (expected_signature (float_str (Payment.amount p)) u)
                  now p]> (payments s)).
Proof.
  destruct o as [d|rid d|rid d|d u|i now|i d|i d u|tid r g now]; cbn [run] in *.
  - left. by destruct (create_room_cases d s) as [->|(? & ims & _ & ->)].
  - left. by destruct (update_room_cases rid d s) as [->|(? & ? & ims & _ & _ & ->)].
  - left. by destruct (update_room_status_cases rid d s) as [->|(? & ? & _ & ->)].
  - destruct (create_booking_request_commit d u s)
      as [[-> _]|(tenant & room & sd & ed & _ & _ & _ & _ & Hle & _ & Hfresh & ->)];
      [by left|].
    right. left.
    exists (next_id (bookings s)), (User.id tenant), (Room.owner_id room),
      (PrimFloat.add (or_zero (Room.security_deposit room))
         (or_zero (Room.advance_payment room))),
      "booking_payment", None, u, (requested_booking tenant room d sd ed).
    split; [exact Hfresh|].
    split; [cbn [bookings]; apply lookup_insert_eq|].
    split; [|split; [exact Hle|reflexivity]].
    unfold amount_due, requested_booking.
    cbn [String.eqb Ascii.eqb Bool.eqb Booking.security_deposit Booking.advance_payment].
    by rewrite !or_zero_idemp.
  - left. by destruct (approve_booking_commit i now s)
              as [[-> _]|(? & ? & _ & _ & _ & _ & ->)].
  - left. by destruct (reject_booking_commit i d s) as [[-> _]|(? & ? & _ & _ & _ & ->)].
  - destruct (initiate_payment_commit i d u s)
      as [[-> _]|(tenant & b & amount & _ & Hb & _ & _ & Hamt & Hle & Hfresh & ->)];
      [by left|].
    right. left.
    exists i, (User.id tenant), (Booking.landlord_id b), amount,
      (PaymentRequest.payment_type d), (PaymentRequest.payment_month d), u, b.
    split; [exact Hfresh|].
    split; [exact Hb|]. split; [|split; [exact Hle|reflexivity]].
    unfold amount_due.
    destruct (String.eqb (PaymentRequest.payment_type d) "booking_payment") eqn:E;
      [|done].
    apply String.eqb_eq in E. by rewrite E in Hamt.
  - destruct (verify_payment_commit tid r g now s)
      as [[-> _]|(pid & p & Hfind & -> & ->)]; [by left|].
    right. right. by eexists _, _, _, _, _.
Qed.

(** A booking row after the derived effects of a payment: as before, or
    with an active tenancy, which only a deposit or advance payment of an
    approved booking brings. *)
Lemma derived_effects_bookings_row p s bid b' :
  (derived_effects p s).1 !! bid = Some b' →
  ∃ b, bookings s !! bid = Some b ∧
       (b' = b ∨
        b' = Booking.set_tenancy_status (Some ACTIVE) b ∧
        bid = Payment.booking_id p ∧ Booking.status b = APPROVED ∧
        (Payment.payment_type p = "security_deposit" ∨
         Payment.payment_type p = "advance")).
Proof.
  unfold derived_effects.
  destruct (bookings s !! Payment.booking_id p) as [b0|] eqn:Hb0; cbn [fst];
    [|by eauto 10].
  destruct (String.eqb _ "booking_payment"); cbn [fst]; [by eauto 10|].
  destruct (String.eqb _ "security_deposit") eqn:E1; cbn [orb fst].
  - apply String.eqb_eq in E1.
    destruct (decide (Booking.status b0 = APPROVED)) as [Hst|]; cbn [fst]; [|by eauto 10].
    intros [[<- <-]|[? Hb]]%lookup_insert_Some; [|by eauto 10].
    exists b0. split; [done|]. right. by split_and!; auto.
  - destruct (String.eqb _ "advance") eqn:E2; cbn [fst]; [|by eauto 10].
    apply String.eqb_eq in E2.
    destruct (decide (Booking.status b0 = APPROVED)) as [Hst|]; cbn [fst]; [|by eauto 10].
    intros [[<- <-]|[? Hb]]%lookup_insert_Some; [|by eauto 10].
    exists b0. split; [done|]. right. by split_and!; auto.
Qed.

(** The [bookings] table after one operation: a row is new (pending,
    under the fresh key) or was there before with the same terms. *)
Lemma run_bookings_row `{PyRuntime} (o : op) (s : db) bid b' :
  bookings (run o s).1 !! bid = Some b' →
  (∃ b, bookings s !! bid = Some b ∧ same_terms b b' ∧ (live b' → live b)) ∨
  (bid = next_id (bookings s) ∧ Booking.status b' = BOOKING_PENDING ∧
   Booking.tenancy_status b' = Some TENANCY_PENDING ∧
   is_Some (rooms (run o s).1 !! Booking.room_id b') ∧
   ¬ map_Exists (λ _ b, blocks_request (Booking.tenant_id b') (Booking.room_id b') b)
       (bookings s)).
Proof.
  assert (Hrefl : ∀ b, same_terms b b) by (intros b; by repeat split).
  intros Hb'.
  destruct o as [d|rid d|rid d|d u|i now|i d|i d u|tid r g now]; cbn [run] in *.
  - destruct (create_room_cases d s) as [E|(? & ims & _ & E)]; rewrite E in Hb'; by eauto 10.
  - destruct (update_room_cases rid d s) as [E|(? & ? & ims & _ & _ & E)];
      rewrite E in Hb'; by eauto 10.
  - destruct (update_room_status_cases rid d s) as [E|(? & ? & _ & E)];
      rewrite E in Hb'; by eauto 10.
  - destruct (create_booking_request_commit d u s)
      as [[E _]|(tenant & room & sd & ed & _ & _ & _ & Hno & _ & _ & _ & E)];
      [rewrite E in Hb'; by eauto 10|].
    rewrite E in Hb' |- *. cbn [bookings rooms] in Hb' |- *.
    apply lookup_insert_Some in Hb' as [[<- <-]|[_ Hb']]; [|by eauto 10].
    right. split_and!; try done. cbn. rewrite lookup_insert_eq. by eexists.
  - destruct (approve_booking_commit i now s)
      as [[E _]|(? & b & _ & Hb & _ & Hst & E)]; [rewrite E in Hb'; by eauto 10|].
    rewrite E in Hb'. cbn [bookings] in Hb'.
    apply lookup_insert_Some in Hb' as [[<- <-]|[_ Hb']]; [|by eauto 10].
    left. exists b. split; [done|]. split; [by repeat split|].
    intros _. by left.
  - destruct (reject_booking_commit i d s)
      as [[E _]|(? & b & _ & Hb & _ & E)]; [rewrite E in Hb'; by eauto 10|].
    rewrite E in Hb'. cbn [bookings] in Hb'.
    apply lookup_insert_Some in Hb' as [[<- <-]|[_ Hb']]; [|by eauto 10].
    left. exists b. split; [done|]. split; [by repeat split|].
    intros [?|?]; done.
  - destruct (initiate_payment_commit i d u s)
      as [[E _]|(? & ? & ? & _ & _ & _ & _ & _ & _ & _ & E)];
      rewrite E in Hb'; by eauto 10.
  - destruct (verify_payment_commit tid r g now s)
      as [[E _]|(pid & p & _ & _ & E)]; [rewrite E in Hb'; by eauto 10|].
    rewrite E in Hb'. cbn [bookings] in Hb'.
    apply derived_effects_bookings_row in Hb' as (b & Hb & [->|(-> & _)]);
      [by eauto 10|].
    left. exists b. split; [done|]. split; [by repeat split|done].
Qed.

(** No operation removes a row. *)
Lemma run_rooms_kept `{PyRuntime} (o : op) (s : db) rid :
  is_Some (rooms s !! rid) → is_Some (rooms (run o s).1 !! rid).
Proof.
  intros Hr.
  destruct o as [d|rid0 d|rid0 d|d u|i now|i d|i d u|tid r g now]; cbn [run] in *.
  - destruct (create_room_cases d s) as [->|(? & ims & _ & ->)]; [done|].
    by apply is_Some_insert.
  - destruct (update_room_cases rid0 d s) as [->|(? & ? & ims & _ & _ & ->)]; [done|].
    by apply is_Some_insert.
  - destruct (update_room_status_cases rid0 d s) as [->|(? & ? & _ & ->)]; [done|].
    by apply is_Some_insert.
  - destruct (create_booking_request_commit d u s)
      as [[-> _]|(? & ? & ? & ? & _ & _ & _ & _ & _ & _ & _ & ->)]; [done|].
    by apply is_Some_insert.
  - destruct (approve_booking_commit i now s)
      as [[-> _]|(? & b & _ & _ & _ & _ & ->)]; [done|].
    cbn [rooms]. destruct (rooms s !! Booking.room_id b); [|done].
    by apply is_Some_insert.
  - destruct (reject_booking_commit i d s)
      as [[-> _]|(? & b & _ & _ & _ & ->)]; [done|].
    cbn [rooms]. destruct (rooms s !! Booking.room_id b); [|done].
    by apply is_Some_insert.
  - by destruct (initiate_payment_commit i d u s)
      as [[-> _]|(? & ? & ? & _ & _ & _ & _ & _ & _ & _ & ->)].
  - destruct (verify_payment_commit tid r g now s)
      as [[-> _]|(pid & p & _ & _ & ->)]; [done|].
    destruct Hr as [x Hx]. by eapply derived_effects_rooms_dom.
Qed.

Lemma run_bookings_kept `{PyRuntime} (o : op) (s : db) bid :
  is_Some (bookings s !! bid) → is_Some (bookings (run o s).1 !! bid).
Proof.
  intros Hb.
  destruct o as [d|rid0 d|rid0 d|d u|i now|i d|i d u|tid r g now]; cbn [run] in *.
  - by destruct (create_room_cases d s) as [->|(? & ims & _ & ->)].
  - by destruct (update_room_cases rid0 d s) as [->|(? & ? & ims & _ & _ & ->)].
  - by destruct (update_room_status_cases rid0 d s) as [->|(? & ? & _ & ->)].
  - destruct (create_booking_request_commit d u s)
      as [[-> _]|(? & ? & ? & ? & _ & _ & _ & _ & _ & _ & _ & ->)]; [done|].
    by apply is_Some_insert.
  - destruct (approve_booking_commit i now s)
      as [[-> _]|(? & b & _ & _ & _ & _ & ->)]; [done|].
    by apply is_Some_insert.
  - destruct (reject_booking_commit i d s)
      as [[-> _]|(? & b & _ & _ & _ & ->)]; [done|].
    by apply is_Some_insert.
  - by destruct (initiate_payment_commit i d u s)
      as [[-> _]|(? & ? & ? & _ & _ & _ & _ & _ & _ & _ & ->)].
  - destruct (verify_payment_commit tid r g now s)
      as [[-> _]|(pid & p & _ & _ & ->)]; [done|].
    destruct Hb as [x Hx]. by eapply derived_effects_bookings_dom.
Qed.

(** A payment row after one operation: new and pending, or there before
    with the same charge and a status that stayed or became completed. *)
Lemma run_payments_row `{PyRuntime} (o : op) (s : db) pid p' :
  payments (run o s).1 !! pid = Some p' →
  (∃ p, payments s !! pid = Some p ∧ same_charge p p' ∧
        (p' = p ∨
         ∃ r u now, Payment.transaction_uuid p = Some u ∧
           p' = Payment.complete r
                  (expected_signature (float_str (Payment.amount p)) u) now p)) ∨
  (pid = next_id (payments s) ∧ Payment.status p' = PAYMENT_PENDING ∧
   (∃ b, bookings (run o s).1 !! Payment.booking_id p' = Some b ∧
         amount_due b (Payment.payment_type p') = Some (Payment.amount p') ∧
         PrimFloat.leb (Payment.amount p') 0%float = false) ∧
   ∃ u, Payment.transaction_uuid p' = Some u ∧ payment_by_uuid (payments s) u = None).
Proof.
  assert (Hrefl : ∀ p, same_charge p p) by (intros p; by repeat split).
  intros Hp'.
  destruct (run_payments_cases o s)
    as [E|[(bid & t & l & a & ty & m & u & b & Hfresh & Hbid & Hdue & Hle & E)
          |(pid0 & p0 & r & u & now & Hfind & E)]]; rewrite E in Hp'.
  - by eauto 10.
  - apply lookup_insert_Some in Hp' as [[<- <-]|[_ Hp']]; [|by eauto 10].
    right. split_and!; try done; [by exists b|by exists u].
  - apply payment_by_uuid_Some in Hfind as [Hp0 Hu].
    apply lookup_insert_Some in Hp' as [[<- <-]|[_ Hp']]; [|by eauto 10].
    left. exists p0. split; [done|]. split; [by repeat split|].
    right. by exists r, u, now.
Qed.

Lemma run_payments_kept `{PyRuntime} (o : op) (s : db) pid :
  is_Some (payments s !! pid) → is_Some (payments (run o s).1 !! pid).
Proof.
  intros Hp.
  destruct (run_payments_cases o s)
    as [E|[(bid & t & l & a & ty & m & u & b & _ & _ & _ & _ & E)
          |(pid0 & p0 & r & u & now & _ & E)]]; rewrite E; [done|..];
    by apply is_Some_insert.
Qed.

Lemma same_terms_trans b1 b2 b3 : same_terms b1 b2 → same_terms b2 b3 → same_terms b1 b3.
Proof. unfold same_terms. intros ? ?. destruct_and!. split_and!; congruence. Qed.

Lemma same_charge_trans p1 p2 p3 :
  same_charge p1 p2 → same_charge p2 p3 → same_charge p1 p3.
Proof. unfold same_charge. intros ? ?. destruct_and!. split_and!; congruence. Qed.

(** *** Terms and charges are never rewritten *)

(** X9. A stored booking is never removed and its terms never change:
    whatever operations follow, the row is still there with the same
    tenant, landlord, room, dates, rent, deposit, advance and message. *)
Theorem booking_terms_are_kept `{PyRuntime} (os : list op) (s : db) (bid : Z)
    (b : Booking.t) :
  bookings s !! bid = Some b →
  ∃ b', bookings (exec os s) !! bid = Some b' ∧ same_terms b b'.
Proof.
  revert s b. induction os as [|o os IH]; intros s b Hb.
  - exists b. split; [done|]. by repeat split.
  - cbn [exec].
    destruct (run_bookings_kept o s bid) as [b1 Hb1]; [by eexists|].
    destruct (run_bookings_row o s bid b1 Hb1)
      as [(b0 & Hb0 & Hterms & _)|(-> & _)].
    + assert (b0 = b) as -> by congruence.
      destruct (IH _ _ Hb1) as (b' & Hb' & Hterms').
      exists b'. split; [done|]. by eapply same_terms_trans.
    + by rewrite next_id_fresh in Hb.
Qed.

(** From the request through an edit of the listing, both payments, the
    approval and a rejection: booking 1 has the terms it was made with. *)
Lemma booking_terms_are_kept_scenario :
  ∃ b', bookings (@exec Demo.runtime (tenancy_trace ++ [RejectBooking 1 None])
                    Scenario.requested) !! 1 = Some b' ∧
        same_terms Scenario.pending_booking b'.
Proof.
  apply (@booking_terms_are_kept Demo.runtime). vm_compute. reflexivity.
Defined.

(** X10. A stored payment is never removed and what it charges never changes
    (booking, tenant, landlord, amount, type, month, transaction id); its
    status stays as it is or becomes completed, nothing else. *)
Theorem payment_charge_is_kept `{PyRuntime} (os : list op) (s : db) (pid : Z)
    (p : Payment.t) :
  payments s !! pid = Some p →
  ∃ p', payments (exec os s) !! pid = Some p' ∧ same_charge p p' ∧
        (Payment.status p' = Payment.status p ∨
         Payment.status p' = PAYMENT_COMPLETED).
Proof.
  revert s p. induction os as [|o os IH]; intros s p Hp.
  - exists p. split; [done|]. split; [by repeat split|by left].
  - cbn [exec].
    destruct (run_payments_kept o s pid) as [p1 Hp1]; [by eexists|].
    destruct (run_payments_row o s pid p1 Hp1)
      as [(p0 & Hp0 & Hch & Hrow)|(-> & _)].
    + assert (p0 = p) as -> by congruence.
      destruct (IH _ _ Hp1) as (p' & Hp' & Hch' & Hst').
      exists p'. split; [done|]. split; [by eapply same_charge_trans|].
      destruct Hrow as [->|(r & u & now & _ & ->)]; [done|].
      right. by destruct Hst' as [->|].
    + by rewrite next_id_fresh in Hp.
Qed.

(** The booking payment of 8000 after the trace to the active tenancy. *)
Lemma payment_charge_is_kept_scenario :
  ∃ p', payments (@exec Demo.runtime tenancy_trace Scenario.requested) !! 1 = Some p' ∧
        same_charge Scenario.booking_payment p' ∧
        (Payment.status p' = Payment.status Scenario.booking_payment ∨
         Payment.status p' = PAYMENT_COMPLETED).
Proof.
  apply (@payment_charge_is_kept Demo.runtime). vm_compute. reflexivity.
Defined.

(** *** Transaction ids stay unique *)

Lemma run_keeps_uuid_unique `{PyRuntime} (o : op) (s : db) :
  uuid_unique (payments s) → uuid_unique (payments (run o s).1).
Proof.
  intros Hu.
  destruct (run_payments_cases o s)
    as [E|[(bid & t & l & a & ty & m & u & b & Hfresh & _ & _ & _ & E)
          |(pid0 & p0 & r & u & now & Hfind & E)]]; rewrite E; [done|..].
  - intros i j p q v Hi Hj Hp Hq.
    apply lookup_insert_Some in Hi as [[<- <-]|[_ Hi]];
      apply lookup_insert_Some in Hj as [[<- <-]|[_ Hj]]; [done|..].
    + cbn in Hp. simplify_eq. by eapply payment_by_uuid_None in Hfresh.
    + cbn in Hq. simplify_eq. by eapply payment_by_uuid_None in Hfresh.
    + by eapply Hu.
  - apply payment_by_uuid_Some in Hfind as [Hp0 _]. by apply uuid_unique_complete.
Qed.

(** X11. The unique constraint on [payments.transaction_uuid] is never
    violated: from tables where no two payments share a transaction id,
    no trace of operations reaches tables where two do. *)
Theorem uuid_unique_along `{PyRuntime} (os : list op) (s : db) :
  uuid_unique (payments s) → uuid_unique (payments (exec os s)).
Proof.
  apply (exec_invariant (λ s, uuid_unique (payments s))).
  intros o s'. apply run_keeps_uuid_unique.
Qed.

(** The payments after the trace to the active tenancy. *)
Lemma uuid_unique_along_scenario :
  uuid_unique (payments (@exec Demo.runtime tenancy_trace Scenario.requested)).
Proof.
  apply (@uuid_unique_along Demo.runtime). apply uuid_unique_check_sound.
  apply (bool_decide_unpack (uuid_unique_check (payments Scenario.requested))).
  vm_compute. exact I.
Defined.

(** *** Foreign keys *)

Lemma run_keeps_foreign_keys `{PyRuntime} (o : op) (s : db) :
  foreign_keys s → foreign_keys (run o s).1.
Proof.
  intros [Hbr Hpb]. split.
  - intros bid b' Hb'. cbn beta.
    destruct (run_bookings_row o s bid b' Hb')
      as [(b & Hb & Hterms & _)|(_ & _ & _ & Hroom & _)]; [|done].
    destruct Hterms as (_ & _ & -> & _).
    apply run_rooms_kept. exact (Hbr bid b Hb).
  - intros pid p' Hp'. cbn beta.
    destruct (run_payments_row o s pid p' Hp')
      as [(p & Hp & Hch & _)|(_ & _ & (b & Hbid & _) & _)]; [|by eexists].
    destruct Hch as (-> & _).
    apply run_bookings_kept. exact (Hpb pid p Hp).
Qed.

(** X12. Every booking points at a stored room and every payment at a stored
    booking, and the eight writing operations keep it so along any
    trace. *)
Theorem foreign_keys_along `{PyRuntime} (os : list op) (s : db) :
  foreign_keys s → foreign_keys (exec os s).
Proof. apply (exec_invariant foreign_keys). apply run_keeps_foreign_keys. Qed.

(** The tables after the trace to the active tenancy. *)
Lemma foreign_keys_along_scenario :
  foreign_keys (@exec Demo.runtime tenancy_trace Scenario.requested).
Proof.
  apply (@foreign_keys_along Demo.runtime).
  apply (bool_decide_unpack (foreign_keys Scenario.requested)).
  vm_compute. exact I.
Defined.

(** *** One pending or approved booking per tenant and room *)

Lemma run_keeps_one_live_booking `{PyRuntime} (o : op) (s : db) :
  one_live_booking s → one_live_booking (run o s).1.
Proof.
  intros Hinv i b1' Hi j b2' Hj Hten Hroom Hl1 Hl2.
  destruct (run_bookings_row o s i b1' Hi)
    as [(b1 & Hb1 & (T1 & _ & R1 & _) & L1)|(-> & _ & _ & _ & Hno1)];
    destruct (run_bookings_row o s j b2' Hj)
      as [(b2 & Hb2 & (T2 & _ & R2 & _) & L2)|(-> & _ & _ & _ & Hno2)].
  - apply (Hinv i b1 Hb1 j b2 Hb2); [congruence|congruence|auto|auto].
  - destruct Hno2. exists i, b1. split; [done|].
    split; [congruence|]. split; [congruence|]. by apply L1.
  - destruct Hno1. exists j, b2. split; [done|].
    split; [congruence|]. split; [congruence|]. by apply L2.
  - done.
Qed.

(** X13. A tenant never holds two pending or approved bookings on the same
    room: tables with that property keep it along any trace. *)
Theorem one_live_booking_along `{PyRuntime} (os : list op) (s : db) :
  one_live_booking s → one_live_booking (exec os s).
Proof. apply (exec_invariant one_live_booking). apply run_keeps_one_live_booking. Qed.

(** The request is rejected and made again: still one pending booking of
    the tenant on the room. *)
Lemma one_live_booking_along_scenario :
  one_live_booking
    (@exec Demo.runtime
       [RejectBooking 1 None; CreateBookingRequest Scenario.request "uuid-3"]
       Scenario.requested).
Proof.
  apply (@one_live_booking_along Demo.runtime).
  apply (bool_decide_unpack (one_live_booking Scenario.requested)).
  vm_compute. exact I.
Defined.

(** *** Completed payments *)

Lemma run_keeps_completed_payments_verified `{PyRuntime} (o : op) (s : db) :
  completed_payments_verified s → completed_payments_verified (run o s).1.
Proof.
  intros Hinv pid p' Hp' Hst.
  destruct (run_payments_row o s pid p' Hp')
    as [(p & Hp & _ & [->|(r & u & now & Hu & ->)])|(_ & Hpend & _)].
  - by apply (Hinv pid p Hp).
  - cbn. rewrite Hu. by split_and!.
  - congruence.
Qed.

(** X14. Every completed payment carries a gateway reference, a completion
    time and the signature expected for its own amount and transaction
    id, along any trace: no operation completes a payment without an
    accepted signature. *)
Theorem completed_payments_verified_along `{PyRuntime} (os : list op) (s : db) :
  completed_payments_verified s → completed_payments_verified (exec os s).
Proof.
  apply (exec_invariant completed_payments_verified).
  apply run_keeps_completed_payments_verified.
Qed.

(** With the booking payment completed, the deposit is verified and the
    booking then rejected. *)
Lemma completed_payments_verified_along_scenario :
  @completed_payments_verified Demo.runtime
    (@exec Demo.runtime
       [VerifyPayment "uuid-2" "ref-2" Scenario.sig_deposit 300; RejectBooking 1 None]
       Scenario.deposit_started).
Proof.
  apply (@completed_payments_verified_along Demo.runtime).
  apply (bool_decide_unpack
           (@completed_payments_verified Demo.runtime Scenario.deposit_started)).
  vm_compute. exact I.
Defined.

(** *** Active tenancies *)

Lemma run_keeps_deposit_paid `{PyRuntime} (o : op) (s : db) bid :
  deposit_paid (payments s) bid → deposit_paid (payments (run o s).1) bid.
Proof.
  intros (pid & p & Hp & Hbid & Hst & Hty).
  destruct (run_payments_kept o s pid) as [p' Hp']; [by eexists|].
  exists pid, p'. split; [done|].
  destruct (run_payments_row o s pid p' Hp')
    as [(p0 & Hp0 & _ & [->|(r & u & now & _ & ->)])|(-> & _)].
  - by simplify_eq.
  - simplify_eq. by split_and!.
  - by rewrite next_id_fresh in Hp.
Qed.

Lemma run_tenancy_row `{PyRuntime} (o : op) (s : db) bid b' :
  bookings (run o s).1 !! bid = Some b' →
  Booking.tenancy_status b' = Some ACTIVE →
  (∃ b, bookings s !! bid = Some b ∧ Booking.tenancy_status b = Some ACTIVE) ∨
  deposit_paid (payments (run o s).1) bid.
Proof.
  intros Hb' Hact.
  destruct o as [d|rid d|rid d|d u|i now|i d|i d u|tid r g now]; cbn [run] in *.
  - destruct (create_room_cases d s) as [E|(? & ims & _ & E)]; rewrite E in Hb'; by eauto.
  - destruct (update_room_cases rid d s) as [E|(? & ? & ims & _ & _ & E)];
      rewrite E in Hb'; by eauto.
  - destruct (update_room_status_cases rid d s) as [E|(? & ? & _ & E)];
      rewrite E in Hb'; by eauto.
  - destruct (create_booking_request_commit d u s)
      as [[E _]|(tenant & room & sd & ed & _ & _ & _ & _ & _ & _ & _ & E)];
      [rewrite E in Hb'; by eauto|].
    rewrite E in Hb'. cbn [bookings] in Hb'.
    apply lookup_insert_Some in Hb' as [[<- <-]|[_ Hb']]; [done|by eauto].
  - destruct (approve_booking_commit i now s)
      as [[E _]|(? & b & _ & Hb & _ & _ & E)]; [rewrite E in Hb'; by eauto|].
    rewrite E in Hb'. cbn [bookings] in Hb'.
    apply lookup_insert_Some in Hb' as [[<- <-]|[_ Hb']]; [done|by eauto].
  - destruct (reject_booking_commit i d s)
      as [[E _]|(? & b & _ & Hb & _ & E)]; [rewrite E in Hb'; by eauto|].
    rewrite E in Hb'. cbn [bookings] in Hb'.
    apply lookup_insert_Some in Hb' as [[<- <-]|[_ Hb']]; by eauto.
  - destruct (initiate_payment_commit i d u s)
      as [[E _]|(? & ? & ? & _ & _ & _ & _ & _ & _ & _ & E)];
      rewrite E in Hb'; by eauto.
  - destruct (verify_payment_commit tid r g now s)
      as [[E _]|(pid & p & _ & _ & E)]; [rewrite E in Hb'; by eauto|].
    rewrite E in Hb' |- *. cbn [bookings payments] in Hb' |- *.
    apply derived_effects_bookings_row in Hb'
      as (b & Hb & [->|(-> & -> & _ & Hty)]); [by eauto|].
    right. exists pid, (Payment.complete r g now p).
    split; [apply lookup_insert_eq|]. by split_and!.
Qed.

Lemma run_keeps_active_tenancies_paid `{PyRuntime} (o : op) (s : db) :
  active_tenancies_paid s → active_tenancies_paid (run o s).1.
Proof.
  intros Hinv bid b' Hb' Hact.
  destruct (run_tenancy_row o s bid b' Hb' Hact) as [(b & Hb & Hact0)|Hpaid]; [|done].
  apply run_keeps_deposit_paid. exact (Hinv bid b Hb Hact0).
Qed.

(** X15. A tenancy is active only with its money in: along any trace, every
    booking whose tenancy is active has a completed security deposit or
    advance payment of its own. *)
Theorem active_tenancies_paid_along `{PyRuntime} (os : list op) (s : db) :
  active_tenancies_paid s → active_tenancies_paid (exec os s).
Proof.
  apply (exec_invariant active_tenancies_paid).
  apply run_keeps_active_tenancies_paid.
Qed.

(** The tenant of the occupied room pays the rent for February. *)
Lemma active_tenancies_paid_along_scenario :
  active_tenancies_paid
    (@exec Demo.runtime
       [InitiatePayment 1 rent_request "uuid-4";
        VerifyPayment "uuid-4" "ref-4" sig_rent 400] Scenario.occupied).
Proof.
  apply (@active_tenancies_paid_along Demo.runtime).
  apply (bool_decide_unpack (active_tenancies_paid Scenario.occupied)).
  vm_compute. exact I.
Defined.

(** *** Payments are priced by their bookings *)

Lemma amount_due_same_terms b b' ty : same_terms b b' → amount_due b' ty = amount_due b ty.
Proof.
  intros (_ & _ & _ & _ & _ & Hrent & Hdep & Hadv & _).
  unfold amount_due, supplemental_amount. by rewrite Hrent, Hdep, Hadv.
Qed.

Lemma run_keeps_payments_priced `{PyRuntime} (o : op) (s : db) :
  payments_priced s → payments_priced (run o s).1.
Proof.
  intros Hinv pid p' Hp'. cbn beta.
  destruct (run_payments_row o s pid p' Hp')
    as [(p & Hp & Hch & _)|(_ & _ & Hnew & _)]; [|done].
  destruct (Hinv pid p Hp) as (b & Hb & Hdue & Hle).
  destruct Hch as (Hbid & _ & _ & Hamt & Hty & _). rewrite Hbid, Hamt, Hty.
  destruct (run_bookings_kept o s (Payment.booking_id p)) as [b' Hb']; [by eexists|].
  destruct (run_bookings_row o s _ b' Hb') as [(b0 & Hb0 & Hterms & _)|(E & _)].
  - assert (b0 = b) as -> by congruence.
    exists b'. split; [done|]. split; [|done].
    by rewrite (amount_due_same_terms b b').
  - by rewrite E, next_id_fresh in Hb.
Qed.

(** X16. Every stored payment charges what its booking's terms say for its
    type (deposit plus advance for the booking payment; rent, deposit or
    advance for a later one), and never an amount [<= 0]; this holds
    along any trace, whatever edits the listing gets meanwhile. *)
Theorem payments_priced_along `{PyRuntime} (os : list op) (s : db) :
  payments_priced s → payments_priced (exec os s).
Proof. apply (exec_invariant payments_priced). apply run_keeps_payments_priced. Qed.

(** From the listing to the active tenancy, the listing's prices raised on
    the way: every payment is priced by booking 1. *)
Lemma payments_priced_along_scenario :
  payments_priced
    (@exec Demo.runtime
       (CreateBookingRequest Scenario.request "uuid-1" :: tenancy_trace)
       Scenario.listed).
Proof.
  apply (@payments_priced_along Demo.runtime).
  unfold payments_priced.
  change (payments Scenario.listed) with (∅ : gmap Z Payment.t).
  apply map_Forall_empty.
Defined.

(** ** Upcoming rent *)

Lemma get_upcoming_payments_entry m due s e :
  e ∈ (get_upcoming_payments m due s).1 →
  ∃ tenant b,
    first_user TENANT s = Some tenant ∧
    bookings s !! UpcomingPayment.booking_id e = Some b ∧
    Booking.tenant_id b = User.id tenant ∧
    Booking.status b = APPROVED ∧
    Booking.tenancy_status b = Some ACTIVE ∧
    ¬ rent_paid (payments s) (UpcomingPayment.booking_id e) m ∧
    UpcomingPayment.amount e = Booking.monthly_rent b ∧
    UpcomingPayment.payment_month e = m.
Proof.
  unfold get_upcoming_payments.
  destruct (first_user TENANT s) as [tenant|]; cbn [fst]; [|by intros ?%elem_of_nil].
  intros ([bid b] & Hin & He)%list_elem_of_omap.
  apply list_elem_of_filter in Hin as [(Hten & Hst & Hact) Hin].
  apply elem_of_map_to_list in Hin. cbn [fst snd] in *.
  destruct (decide (rent_paid (payments s) bid m)) as [|Hno]; [done|].
  injection He as <-. cbn. exists tenant, b. by split_and!.
Qed.

(** X17. Once the callback for a rent payment of a month was accepted, the
    booking is no longer among the upcoming payments of that month. *)
Theorem rent_payment_clears_upcoming `{PyRuntime}
    (s : db) (tid ref_id sig : string) (now pid : Z) (p : Payment.t)
    (month due : string) :
  payment_by_uuid (payments s) tid = Some (pid, p) →
  Payment.payment_type p = "rent" →
  Payment.payment_month p = Some month →
  success (verify_payment tid ref_id sig now s).2 = true →
  Payment.booking_id p ∉
    UpcomingPayment.booking_id <$>
      (get_upcoming_payments month due (verify_payment tid ref_id sig now s).1).1.
Proof.
  intros Hfind Hty Hmonth Hok (e & Hbid & He)%list_elem_of_fmap.
  destruct (verify_payment_result tid ref_id sig now s Hok) as (pid' & p' & Hfind' & _ & E).
  assert (pid' = pid ∧ p' = p) as [-> ->] by (split; congruence).
  apply get_upcoming_payments_entry in He
    as (tenant & b & _ & _ & _ & _ & _ & Hno & _ & _).
  apply Hno. rewrite E, <- Hbid. cbn [payments].
  exists pid, (Payment.complete ref_id sig now p).
  split; [apply lookup_insert_eq|]. by split_and!.
Qed.

(** Booking 1 is due for February until the callback for its rent payment
    is accepted. *)
Lemma rent_payment_clears_upcoming_scenario :
  UpcomingPayment.booking_id <$> (get_upcoming_payments "2025-02" "2025-03-05" rent_started).1
  = [1] ∧
  1 ∉ UpcomingPayment.booking_id <$>
        (get_upcoming_payments "2025-02" "2025-03-05"
           (@verify_payment Demo.runtime "uuid-4" "ref-4" sig_rent 400 rent_started).1).1.
Proof.
  split; [vm_compute; reflexivity|].
  apply (@rent_payment_clears_upcoming Demo.runtime rent_started "uuid-4" "ref-4"
           sig_rent 400 3 rent_payment "2025-02" "2025-03-05");
    vm_compute; reflexivity.
Defined.

(** X18. A booking the landlord rejected is never among the upcoming
    payments, whatever its tenancy status says. *)
Theorem rejected_booking_not_upcoming
    (bid : Z) (d : option RejectRequest.t) (s : db) (month due : string) :
  success (reject_booking bid d s).2 = true →
  bid ∉ UpcomingPayment.booking_id <$>
          (get_upcoming_payments month due (reject_booking bid d s).1).1.
Proof.
  intros Hok (e & Hbid & He)%list_elem_of_fmap.
  destruct (reject_booking_result bid d s Hok) as (landlord & b & _ & Hb & _ & E).
  apply get_upcoming_payments_entry in He
    as (tenant & b' & _ & Hb' & _ & Hst & _).
  rewrite E, <- Hbid in Hb'. cbn [bookings] in Hb'.
  rewrite lookup_insert_eq in Hb'. by simplify_eq.
Qed.

(** Booking 1 is due for February until the landlord rejects it. *)
Lemma rejected_booking_not_upcoming_scenario :
  UpcomingPayment.booking_id <$>
    (get_upcoming_payments "2025-02" "2025-03-05" Scenario.occupied).1 = [1] ∧
  1 ∉ UpcomingPayment.booking_id <$>
        (get_upcoming_payments "2025-02" "2025-03-05"
           (reject_booking 1 None Scenario.occupied).1).1.
Proof.
  split; [vm_compute; reflexivity|].
  apply rejected_booking_not_upcoming. vm_compute. reflexivity.
Defined.

(** X19. Rent is only asked of a tenancy whose deposit or advance was paid:
    on tables where every active tenancy is paid for (which every trace
    keeps), each upcoming payment belongs to a booking with a completed
    deposit or advance payment, and asks for that booking's own rent. *)
Theorem upcoming_payments_have_deposit (s : db) (month due : string) :
  active_tenancies_paid s →
  Forall (λ e,
      deposit_paid (payments s) (UpcomingPayment.booking_id e) ∧
      (Booking.monthly_rent <$> bookings s !! UpcomingPayment.booking_id e)
      = Some (UpcomingPayment.amount e))
    (get_upcoming_payments month due s).1.
Proof.
  intros Hinv. apply Forall_forall. intros e He.
  apply get_upcoming_payments_entry in He
    as (tenant & b & _ & Hb & _ & _ & Hact & _ & Hamt & _).
  split; [exact (Hinv _ b Hb Hact)|]. by rewrite Hb, Hamt.
Qed.

(** The upcoming payments of the occupied room. *)
Lemma upcoming_payments_have_deposit_scenario :
  Forall (λ e,
      deposit_paid (payments Scenario.occupied) (UpcomingPayment.booking_id e) ∧
      (Booking.monthly_rent <$> bookings Scenario.occupied !! UpcomingPayment.booking_id e)
      = Some (UpcomingPayment.amount e))
    (get_upcoming_payments "2025-02" "2025-03-05" Scenario.occupied).1.
Proof.
  apply upcoming_payments_have_deposit.
  apply (bool_decide_unpack (active_tenancies_paid Scenario.occupied)).
  vm_compute. exact I.
Defined.

(** ** The gateway adapter *)

(** X20. The module-level [generate_signature] and the method of
    [EsewaPayment] give the same signature for the same total, transaction
    id, key and product code, as long as the key and the product code
    are not empty (the constructor replaces empty ones by the test
    credentials, the function signs with them as they are). *)
Theorem generate_signature_agrees `{PyRuntime}
    (amount : float) (total_amount : option float) (transaction_uuid : string)
    (key product_code success_url failure_url : string) :
  key ≠ "" → product_code ≠ "" →
  let self := Esewa.init amount total_amount (Some product_code)
                (Some transaction_uuid) success_url failure_url (Some key) in
  (Esewa.generate_signature self).1
  = generate_signature (Esewa.total_amount self) transaction_uuid key product_code.
Proof.
  intros Hk Hp self. unfold Esewa.generate_signature, generate_signature. cbn.
  apply String.eqb_neq in Hk, Hp. by rewrite Hk, Hp.
Qed.

(** A live key and product code. *)
Lemma generate_signature_agrees_scenario :
  (@Esewa.generate_signature Demo.runtime
     (Esewa.init 8000%float (Some 8000%float) (Some "ROOMBOX") (Some "uuid-1")
        Esewa.default_success_url Esewa.default_failure_url (Some "live-key"))).1
  = @generate_signature Demo.runtime 8000%float "uuid-1" "live-key" "ROOMBOX".
Proof.
  apply (@generate_signature_agrees Demo.runtime 8000%float (Some 8000%float) "uuid-1"
           "live-key" "ROOMBOX"); discriminate.
Defined.

(** X21. The module-level [generate_signature] with its default key and
    product code, given a stored payment's amount and transaction id,
    returns a signature that [verify_payment] accepts for that payment. *)
Theorem standalone_signature_is_accepted `{PyRuntime}
    (s : db) (tid ref_id : string) (now pid : Z) (p : Payment.t) :
  payment_by_uuid (payments s) tid = Some (pid, p) →
  success (verify_payment tid ref_id
             (generate_signature (Payment.amount p) tid "8gBm/:&EnhH.1/q" "EPAYTEST")
             now s).2 = true.
Proof.
  intros Hfind. unfold verify_payment.
  rewrite Hfind, verify_signature_stored.
  unfold generate_signature, expected_signature.
  change Esewa.TEST_SECRET_KEY with "8gBm/:&EnhH.1/q".
  change Esewa.TEST_PRODUCT_CODE with "EPAYTEST".
  by rewrite String.eqb_refl.
Qed.

(** The signature for 8000 and uuid-1 and the stored booking payment. *)
Lemma standalone_signature_is_accepted_scenario :
  success (@verify_payment Demo.runtime "uuid-1" "ref-1"
             (@generate_signature Demo.runtime 8000%float "uuid-1"
                "8gBm/:&EnhH.1/q" "EPAYTEST") 100 Scenario.requested).2 = true.
Proof.
  apply (@standalone_signature_is_accepted Demo.runtime Scenario.requested
           "uuid-1" "ref-1" 100 1 Scenario.booking_payment).
  vm_compute. reflexivity.
Defined.

(** X22. For every adapter object, whatever its key, product code and
    transaction id (a missing one too): the signature it generates
    verifies against the form it generates. *)
Theorem generated_signature_verifies `{PyRuntime} (self : Esewa.EsewaPayment) :
  Esewa.verify_signature self (Esewa.generate_signature self).1
    (Esewa.generate_form_data self) = true.
Proof.
  unfold Esewa.verify_signature, Esewa.generate_signature. cbn [fst].
  assert (dict_get (Esewa.generate_form_data self) "total_amount"
          = Some (float_str (Esewa.total_amount self))) as ->.
  { unfold Esewa.generate_form_data. by repeat case_match. }
  assert (dict_get (Esewa.generate_form_data self) "transaction_uuid"
          = Esewa.transaction_uuid self) as ->.
  { unfold Esewa.generate_form_data. by repeat case_match. }
  assert (dict_get (Esewa.generate_form_data self) "product_code"
          = Some (Esewa.product_code self)) as ->.
  { unfold Esewa.generate_form_data. by repeat case_match. }
  apply String.eqb_refl.
Qed.

Lemma comma_split (a a' r r' : string) :
  has_comma a = false → has_comma a' = false →
  a +:+ "," +:+ r = a' +:+ "," +:+ r' → a = a' ∧ r = r'.
Proof.
  revert a'. induction a as [|c a IH]; intros [|c' a'] Ha Ha' E; cbn in *.
  - by simplify_eq.
  - injection E as <- _. by rewrite Ascii.eqb_refl in Ha'.
  - injection E as -> _. by rewrite Ascii.eqb_refl in Ha.
  - injection E as -> E.
    apply orb_false_iff in Ha as [_ Ha]. apply orb_false_iff in Ha' as [_ Ha'].
    destruct (IH a' Ha Ha' E) as [-> ->]. done.
Qed.

(** X23. The signed text determines its three fields: when neither the
    amount texts nor the transaction ids have a comma in them, requests
    that differ in amount, transaction id or product code have different
    canonical strings. *)
Theorem string_to_sign_injective (a a' t t' p p' : string) :
  has_comma a = false → has_comma a' = false →
  has_comma t = false → has_comma t' = false →
  (a, t, p) ≠ (a', t', p') →
  Esewa.string_to_sign a t p ≠ Esewa.string_to_sign a' t' p'.
Proof.
  intros Ha Ha' Ht Ht' Hne E. apply Hne. unfold Esewa.string_to_sign in E.
  apply (String.app_inj "total_amount=") in E.
  apply comma_split in E as [-> E]; [|done..].
  apply (String.app_inj "transaction_uuid=") in E.
  apply comma_split in E as [-> E]; [|done..].
  apply (String.app_inj "product_code=") in E. by rewrite E.
Qed.

(** Two transaction ids for the same amount. *)
Lemma string_to_sign_injective_scenario :
  Esewa.string_to_sign "8000.0" "uuid-1" "EPAYTEST"
  ≠ Esewa.string_to_sign "8000.0" "uuid-2" "EPAYTEST".
Proof.
  apply string_to_sign_injective; try reflexivity. discriminate.
Defined.

(** ** The listing endpoints *)



Lemma image_rows_filter (rid : Z) (images : list string) :
  filter (λ i, RoomImage.room_id i ≠ rid) (image_rows rid images) = [].
Proof.
  destruct (filter _ (image_rows rid images)) as [|i l] eqn:E; [done|].
  assert (Hi : i ∈ filter (λ i, RoomImage.room_id i ≠ rid) (image_rows rid images))
    by (rewrite E; left).
  apply list_elem_of_filter in Hi as [Hne Hi]. destruct Hne.
  apply list_elem_of_lookup in Hi as [k Hk]. unfold image_rows in Hk.
  rewrite list_lookup_imap in Hk.
  destruct (images !! k); by simplify_eq/=.
Qed.

Lemma room_images_replaced (rid : Z) (images images' : list string)
    (ims : list RoomImage.t) :
  (filter (λ i, RoomImage.room_id i ≠ rid)
     (filter (λ i, RoomImage.room_id i ≠ rid) ims ++ image_rows rid images)
   ++ image_rows rid images')%list
  = (filter (λ i, RoomImage.room_id i ≠ rid) ims ++ image_rows rid images')%list.
Proof.
  rewrite filter_app, image_rows_filter, app_nil_r. f_equal.
  rewrite list_filter_filter. apply list_filter_iff. tauto.
Qed.

(** X24. An edit overwrites every editable field of the room and nothing
    else of it: two edits in a row give the answer of the second edit
    alone and its [rooms] table (owner, status and verification are those
    the room had).  The pictures of the room are those of the second edit
    when it carries a list of pictures, an empty one too; when it
    carries none, they are the pictures the first edit left. *)
Theorem update_room_last_write_wins (rid : Z) (d1 d2 : RoomCreateRequest.t) (s : db) :
  success (update_room rid d2 s).2 = true →
  update_room rid d2 (update_room rid d1 s).1
  = (set_room_images
       (match RoomCreateRequest.images d2 with
        | Some _ => room_images (update_room rid d2 s).1
        | None => room_images (update_room rid d1 s).1
        end) (update_room rid d2 s).1,
     (update_room rid d2 s).2).
Proof.
  unfold update_room.
  destruct (rooms s !! rid) as [room|] eqn:Hr; [|done].
  destruct (RoomType_of_value (lower (RoomCreateRequest.room_type d2)))
    as [rt2|] eqn:Ht2; [|done].
  destruct (match RoomCreateRequest.furnishing_status d2 with
            | Some f => _ | None => _ end) as [f2|] eqn:Hf2; [|done].
  cbv zeta. cbn [Room.price_per_month].
  destruct (json_compliant (RoomCreateRequest.price_per_month d2)) eqn:Hj2; [|done].
  intros _.
  destruct (RoomType_of_value (lower (RoomCreateRequest.room_type d1)))
    as [rt1|]; cbn [fst].
  2:{ rewrite Hr. cbn [fst snd]. destruct (RoomCreateRequest.images d2); by destruct s. }
  destruct (match RoomCreateRequest.furnishing_status d1 with
            | Some f => _ | None => _ end) as [f1|]; cbn [fst].
  2:{ rewrite Hr. cbn [fst snd]. destruct (RoomCreateRequest.images d2); by destruct s. }
  destruct (json_compliant (RoomCreateRequest.price_per_month d1));
    destruct (RoomCreateRequest.images d1) as [i1|];
    destruct (RoomCreateRequest.images d2) as [i2|];
    cbn [fst snd rooms room_images set_rooms set_room_images
         Room.owner_id Room.status Room.is_verified];
    rewrite lookup_insert_eq;
    cbn [fst snd rooms room_images set_rooms set_room_images
         Room.owner_id Room.status Room.is_verified users bookings payments];
    rewrite insert_insert_eq, ?room_images_replaced; reflexivity.
Qed.

(** The listing edited with two pictures and then to the raised prices:
    with an empty list of pictures sent second, none is left; with no list
    sent second, the two of the first edit stay. *)
Lemma update_room_last_write_wins_scenario :
  update_room 1 unpictured_room (update_room 1 pictured_room Scenario.requested).1
  = update_room 1 unpictured_room Scenario.requested ∧
  room_images
    (update_room 1 unpictured_room (update_room 1 pictured_room Scenario.requested).1).1
  = [] ∧
  room_images
    (update_room 1 Scenario.dearer_room
       (update_room 1 pictured_room Scenario.requested).1).1
  = [ {| RoomImage.room_id := 1; RoomImage.image_url := "front.jpg";
         RoomImage.image_order := 0; RoomImage.is_primary := true |};
      {| RoomImage.room_id := 1; RoomImage.image_url := "kitchen.jpg";
         RoomImage.image_order := 1; RoomImage.is_primary := false |} ] ∧
  rooms (update_room 1 Scenario.dearer_room
           (update_room 1 pictured_room Scenario.requested).1).1
  = rooms (update_room 1 Scenario.dearer_room Scenario.requested).1.
Proof.
  split; [|split; [|split]].
  - rewrite (update_room_last_write_wins 1 pictured_room unpictured_room
               Scenario.requested) by (vm_compute; reflexivity).
    reflexivity.
  - rewrite (update_room_last_write_wins 1 pictured_room unpictured_room
               Scenario.requested) by (vm_compute; reflexivity).
    reflexivity.
  - rewrite (update_room_last_write_wins 1 pictured_room Scenario.dearer_room
               Scenario.requested) by (vm_compute; reflexivity).
    reflexivity.
  - rewrite (update_room_last_write_wins 1 pictured_room Scenario.dearer_room
               Scenario.requested) by (vm_compute; reflexivity).
    reflexivity.
Defined.

Lemma update_room_status_toggle (rid : Z) (r : Room.t) (s : db) :
  rooms s !! rid = Some r →
  (update_room_status rid {| StatusUpdateRequest.new_status := None |} s).1
  = set_rooms
      (<[rid := Room.set_status
                  (if decide (Room.status r = AVAILABLE) then OCCUPIED else AVAILABLE) r]>
         (rooms s)) s.
Proof.
  intros Hr. unfold update_room_status. rewrite Hr.
  cbn [StatusUpdateRequest.new_status].
  destruct (decide (Room.status r = AVAILABLE)).
  - by change (RoomStatus_of_value (lower "occupied")) with (Some OCCUPIED).
  - by change (RoomStatus_of_value (lower "available")) with (Some AVAILABLE).
Qed.

(** X25. The status toggle is not an involution: after two toggles the
    status of an available room is available again, and the status of
    every other room (occupied, reserved, under maintenance, inactive) is
    occupied; nothing else of the row changes. *)
Theorem toggle_twice (rid : Z) (r : Room.t) (s : db) :
  rooms s !! rid = Some r →
  let toggle := {| StatusUpdateRequest.new_status := None |} in
  let s' := (update_room_status rid toggle (update_room_status rid toggle s).1).1 in
  Room.status <$> rooms s' !! rid
  = Some (match Room.status r with
          | AVAILABLE => AVAILABLE
          | _ => OCCUPIED
          end) ∧
  rooms s' !! rid
  = Some (Room.set_status
            (match Room.status r with
             | AVAILABLE => AVAILABLE
             | _ => OCCUPIED
             end) r).
Proof.
  intros Hr toggle s'. unfold s', toggle.
  rewrite (update_room_status_toggle rid r s Hr).
  erewrite update_room_status_toggle; [|apply lookup_insert_eq].
  cbn [rooms set_rooms]. rewrite lookup_insert_eq.
  destruct r as [? ? ? ? ? ? ? st ?]. by destruct st.
Qed.

(** The reserved room of the scenario is occupied after two toggles, and
    the available room of the fresh listing is available again. *)
Lemma toggle_twice_scenario :
  Room.status <$> rooms Scenario.requested !! 1 = Some RESERVED ∧
  Room.status <$>
    rooms (update_room_status 1 Scenario.toggle
             (update_room_status 1 Scenario.toggle Scenario.requested).1).1 !! 1
  = Some OCCUPIED ∧
  Room.status <$> rooms Scenario.listed !! 1 = Some AVAILABLE ∧
  Room.status <$>
    rooms (update_room_status 1 Scenario.toggle
             (update_room_status 1 Scenario.toggle Scenario.listed).1).1 !! 1
  = Some AVAILABLE.
Proof.
  split; [vm_compute; reflexivity|]. split; [|split; [vm_compute; reflexivity|]].
  - apply (toggle_twice 1 (Room.set_status RESERVED Scenario.available_room)
             Scenario.requested).
    vm_compute. reflexivity.
  - apply (toggle_twice 1 Scenario.available_room Scenario.listed).
    vm_compute. reflexivity.
Defined.

(** ** A rejection frees the room for a new request *)

Lemma create_booking_request_accepts `{PyRuntime} d u s tenant room sd ed :
  first_user TENANT s = Some tenant →
  rooms s !! BookingRequest.room_id d = Some room →
  Room.status room = AVAILABLE →
  ¬ map_Exists (λ _ b, blocks_request (User.id tenant)
                  (BookingRequest.room_id d) b) (bookings s) →
  PrimFloat.leb (PrimFloat.add (or_zero (Room.security_deposit room))
                   (or_zero (Room.advance_payment room))) 0%float = false →
  parse_dates d = Some (sd, ed) →
  payment_by_uuid (payments s) u = None →
  json_compliant (PrimFloat.add (or_zero (Room.security_deposit room))
                    (or_zero (Room.advance_payment room))) = true →
  success (create_booking_request d u s).2 = true.
Proof.
  intros Ht Hr Hav Hno Hle Hd Hfresh Hjson. unfold create_booking_request.
  rewrite Ht, Hr, Hle, Hd, Hfresh.
  rewrite decide_False by (intros E; by apply E).
  rewrite (decide_False (P := map_Exists _ _)) by done.
  rewrite decide_False by (by intros [? ?]).
  cbv zeta. destruct (json_compliant_add _ _ Hjson) as [-> ->].
  by rewrite Hjson.
Qed.

(** A request that was answered with a success had a total that renders. *)
Lemma create_booking_request_rendered `{PyRuntime} d u s room :
  success (create_booking_request d u s).2 = true →
  rooms s !! BookingRequest.room_id d = Some room →
  json_compliant (PrimFloat.add (or_zero (Room.security_deposit room))
                    (or_zero (Room.advance_payment room))) = true.
Proof.
  intros Hok Hr. revert Hok. unfold create_booking_request. rewrite Hr. cbv zeta.
  destruct (json_compliant (PrimFloat.add _ _)); [done|].
  repeat case_match; done.
Qed.

(** X26. When a booking request went through and the landlord then rejected
    that booking, the same request, under a transaction id not used so
    far, goes through again: the room is available and the rejected
    booking does not stand in the way. *)
Theorem request_after_rejection `{PyRuntime}
    (d : BookingRequest.t) (u u' : string) (rd : option RejectRequest.t) (s : db) :
  let s1 := (create_booking_request d u s).1 in
  let s2 := (reject_booking (next_id (bookings s)) rd s1).1 in
  success (create_booking_request d u s).2 = true →
  success (reject_booking (next_id (bookings s)) rd s1).2 = true →
  u' ≠ u → payment_by_uuid (payments s) u' = None →
  success (create_booking_request d u' s2).2 = true.
Proof.
  intros s1 s2 Hok Hrej Hu Hfresh. subst s1 s2.
  destruct (create_booking_request_result d u s Hok)
    as (tenant & room & sd & ed & Ht & Hr & Hav & Hno & Hle & Hd & _ & E).
  destruct (reject_booking_result _ rd _ Hrej) as (landlord & b & _ & Hb & _ & E').
  rewrite E in Hb. cbn [bookings] in Hb. rewrite lookup_insert_eq in Hb.
  injection Hb as <-.
  rewrite E', E. cbn [rooms bookings requested_booking Booking.room_id].
  rewrite lookup_insert_eq, !insert_insert_eq.
  eapply (create_booking_request_accepts d u' _ tenant
            (Room.set_status AVAILABLE (Room.set_status RESERVED room)) sd ed).
  - exact Ht.
  - cbn [rooms]. apply lookup_insert_eq.
  - reflexivity.
  - cbn [bookings]. intros (i & b' & Hb' & Hblock).
    apply lookup_insert_Some in Hb' as [[<- <-]|[_ Hb']].
    + destruct Hblock as (_ & _ & [Hst|Hst]); cbn in Hst; discriminate.
    + apply Hno. by exists i, b'.
  - exact Hle.
  - exact Hd.
  - cbn [payments].
    destruct (payment_by_uuid (<[_ := _]> _) u') as [[k q]|] eqn:Hq; [|done].
    apply payment_by_uuid_Some in Hq as [Hk Hq].
    apply lookup_insert_Some in Hk as [[<- <-]|[_ Hk]].
    + cbn in Hq. congruence.
    + by eapply payment_by_uuid_None in Hfresh.
  - exact (create_booking_request_rendered d u s room Hok Hr).
Qed.

(** The scenario's request, rejected and made again under uuid-3. *)
Lemma request_after_rejection_scenario :
  success (@create_booking_request Demo.runtime Scenario.request "uuid-3"
             (reject_booking 1 None
                (@create_booking_request Demo.runtime Scenario.request "uuid-1"
                   Scenario.listed).1).1).2 = true.
Proof.
  apply (@request_after_rejection Demo.runtime Scenario.request "uuid-1" "uuid-3"
           None Scenario.listed); try (vm_compute; reflexivity).
  discriminate.
Defined.
